(** * Shifta AI scheduler: a shallow embedding of [ai_scheduler.py]

    The development follows the Python module top to bottom:
    the Django tables it reads and writes ([shifta_models.py]), the
    [ShiftOptimizer] class building a PuLP model, and the
    [ShiftSchedulerService] orchestration with its run log and statistics.

    Conventions.
    - A [datetime.date] is its proleptic day ordinal in [Z]; adding
      [timedelta(days=1)] is [date_add_day], which raises past [date.max].
    - [date.strftime('%Y-%m-%d')] is injective, so the rendered string is
      represented by the day it denotes ([strftime] below).
    - Python [int] is [Z]; a [PositiveIntegerField] is [nat]; Python [float]
      is the IEEE binary64 type [float] of the Standard Library.
    - A Django table is the list of its rows in query-set order.
    - A Python dict is a stdpp [gmap].
    - The integer programming solver is not part of the repository: it is a
      parameter [cbc] of the section that embeds [solve]. *)

From Stdlib Require Import ZArith Floats.
From stdpp Require Import gmap strings list pretty.

Open Scope Z_scope.

(** ** Python values, exceptions *)

Inductive pyval :=
  | PyBool (b : bool)
  | PyInt (z : Z)
  | PyFloat (f : float)
  | PyStr (s : string).

(** An exception object: its class and [str(e)]. *)
Record Exception := mkException { exc_class : string; exc_str : string }.

Inductive outcome (A : Type) :=
  | Return (a : A)
  | Raise (e : Exception).
Arguments Return {A} a.
Arguments Raise {A} e.

Definition is_raise {A} (r : outcome A) : Prop :=
  match r with Raise _ => True | Return _ => False end.

(** ** The tables of [shifta_models.py] *)

Record WorkStyle := mkWorkStyle {
  max_shifts_per_month : nat;
  min_shifts_per_month : nat;
  allow_consecutive_days : nat
}.

(** [job_type] and [work_style] are nullable foreign keys; the job type is
    kept as its primary key, the work style as the joined row. *)
Record StaffProfile := mkStaffProfile {
  staff_id : Z;
  job_type : option Z;
  work_style : option WorkStyle;
  is_active : bool
}.

Record HolidayType := mkHolidayType {
  holiday_type_id : Z;
  holiday_type_name : string
}.

Record SchedulePeriod := mkSchedulePeriod {
  period_id : Z;
  period_name : string;
  start_date : Z;
  end_date : Z
}.

Record ShiftRequest := mkShiftRequest {
  request_staff : Z;
  request_period : Z;
  request_date : Z;
  priority : Z
}.

Record DailyRequirement := mkDailyRequirement {
  requirement_period : Z;
  requirement_date : Z;
  requirement_job_type : Z;
  required_staff_count : nat;
  min_staff_count : nat
}.

Record ShiftAssignment := mkShiftAssignment {
  assignment_staff : Z;
  assignment_date : Z;
  is_workday : bool;
  holiday_type : option HolidayType;
  created_by_ai : bool;
  manually_adjusted : bool
}.

#[global] Instance HolidayType_eq_dec : EqDecision HolidayType.
Proof. solve_decision. Defined.

#[global] Instance ShiftAssignment_eq_dec : EqDecision ShiftAssignment.
Proof. solve_decision. Defined.

Record ScheduleLog := mkScheduleLog {
  log_period_id : Z;
  log_action : string;
  log_user_id : option Z;
  log_description : string;
  log_success : bool;
  log_execution_time : float
}.

(** The database: one list per [db_table]. [auth_user] keeps the primary keys
    of the users, which is all the scheduler refers to. *)
Record Database := mkDatabase {
  auth_user : list Z;
  schedule_staff_profile : list StaffProfile;
  schedule_holiday_type : list HolidayType;
  schedule_period : list SchedulePeriod;
  schedule_shift_request : list ShiftRequest;
  schedule_daily_requirement : list DailyRequirement;
  schedule_shift_assignment : list ShiftAssignment;
  schedule_log : list ScheduleLog
}.

Definition set_shift_assignment (l : list ShiftAssignment) (db : Database) : Database :=
  mkDatabase (auth_user db) (schedule_staff_profile db) (schedule_holiday_type db)
    (schedule_period db) (schedule_shift_request db) (schedule_daily_requirement db)
    l (schedule_log db).

Definition set_log (l : list ScheduleLog) (db : Database) : Database :=
  mkDatabase (auth_user db) (schedule_staff_profile db) (schedule_holiday_type db)
    (schedule_period db) (schedule_shift_request db) (schedule_daily_requirement db)
    (schedule_shift_assignment db) l.

(** Django's [ValidationError(message)]: its [str] is the [repr] of the
    list of its messages, the message in single quotes between square
    brackets. *)
Definition ValidationError (message : string) : Exception :=
  mkException "ValidationError" ("['" +:+ message +:+ "']").

(** [ShiftAssignment.clean]: an off day needs a holiday type, a work day
    must not carry one. *)
Definition ShiftAssignment_clean (a : ShiftAssignment) : outcome unit :=
  if negb (is_workday a) && negb (bool_decide (is_Some (holiday_type a))) then
    Raise (ValidationError "休日の場合は休日種別を指定してください。")
  else if is_workday a && bool_decide (is_Some (holiday_type a)) then
    Raise (ValidationError "勤務日の場合は休日種別を指定できません。")
  else Return tt.

(** ** The PuLP model *)

(** [pulp.LpVariable(f"work_{staff.id}_{date_str}", cat='Binary')]. *)
Inductive LpVariable := work (staff : Z) (date_str : Z).

#[global] Instance LpVariable_eq_dec : EqDecision LpVariable.
Proof. solve_decision. Defined.

(** The names given to the constraints, one constructor per f-string. *)
Inductive ConstraintName :=
  | daily_min (date : Z) (job_type_id : Z)
  | min_monthly (staff : Z)
  | max_monthly (staff : Z)
  | consecutive (staff : Z) (i : nat)
  | holiday_request (staff : Z) (date_str : Z).

#[global] Instance ConstraintName_eq_dec : EqDecision ConstraintName.
Proof. solve_decision. Defined.

Inductive LpSense := LpConstraintLE | LpConstraintEQ | LpConstraintGE.

#[global] Instance LpSense_eq_dec : EqDecision LpSense.
Proof. solve_decision. Defined.

(** An affine expression without constant: coefficient and variable of each
    term, in the order [lpSum] received them. *)
Abbreviation LpAffineExpression := (list (Z * LpVariable)).

Record LpConstraint := mkLpConstraint {
  constraint_name : ConstraintName;
  constraint_expr : LpAffineExpression;
  constraint_sense : LpSense;
  constraint_rhs : Z
}.

#[global] Instance LpConstraint_eq_dec : EqDecision LpConstraint.
Proof. solve_decision. Defined.

(** [pulp.lpSum(vars)]: every variable with coefficient 1. *)
Definition lpSum_vars (vars : list LpVariable) : LpAffineExpression :=
  map (λ v, (1, v)) vars.

(** [pulp.LpProblem]: objective, constraints in insertion order, and what
    [solve] leaves behind: [pulp.LpStatus[problem.status]] and the
    [varValue] of each variable ([None] when the solver gave it none). *)
Record LpProblem := mkLpProblem {
  objective : LpAffineExpression;
  constraints : list LpConstraint;
  status : string;
  varValue : LpVariable → option Z
}.

(** [pulp.LpProblem("ShiftScheduling", pulp.LpMaximize)]. *)
Definition LpProblem_new : LpProblem :=
  mkLpProblem [] [] "Not Solved" (λ _, None).

(** [problem += expr, "TotalPriorityScore"]. *)
Definition set_objective (e : LpAffineExpression) (p : LpProblem) : LpProblem :=
  mkLpProblem e (constraints p) (status p) (varValue p).

(** [problem += (constraint, name)]. PuLP refuses a name already in use;
    [constraint_names_NoDup] below shows the names the optimizer generates
    never overlap, so the refusal cannot happen. *)
Definition add_constraint (c : LpConstraint) (p : LpProblem) : LpProblem :=
  mkLpProblem (objective p) (constraints p ++ [c]) (status p) (varValue p).

(** Several constraints added in a row. *)
Definition extend (p : LpProblem) (cs : list LpConstraint) : LpProblem :=
  mkLpProblem (objective p) (constraints p ++ cs) (status p) (varValue p).

(** The variables of a problem are those of its objective and constraints. *)
Definition variables (p : LpProblem) : list LpVariable :=
  map snd (objective p) ++ flat_map (λ c, map snd (constraint_expr c)) (constraints p).

(** Semantics of a solution. [value] reads a variable as PuLP's
    [constraint.value()] does once the problem is solved. *)
Definition value (v : LpVariable → option Z) (x : LpVariable) : Z :=
  default 0 (v x).

Definition expr_value (v : LpVariable → option Z) (e : LpAffineExpression) : Z :=
  foldr (λ t acc, t.1 * value v t.2 + acc) 0 e.

Definition holds (v : LpVariable → option Z) (c : LpConstraint) : Prop :=
  match constraint_sense c with
  | LpConstraintLE => expr_value v (constraint_expr c) ≤ constraint_rhs c
  | LpConstraintEQ => expr_value v (constraint_expr c) = constraint_rhs c
  | LpConstraintGE => constraint_rhs c ≤ expr_value v (constraint_expr c)
  end.

#[global] Instance holds_dec v c : Decision (holds v c).
Proof. unfold holds. destruct (constraint_sense c); apply _. Defined.

(** A solution is feasible when every constraint holds and every variable
    of the problem, being [Binary], takes the value 0 or 1. *)
Definition feasible (p : LpProblem) (v : LpVariable → option Z) : Prop :=
  Forall (holds v) (constraints p) ∧
  Forall (λ x, v x = Some 0 ∨ v x = Some 1) (variables p).

#[global] Instance feasible_dec p v : Decision (feasible p v).
Proof. unfold feasible. apply _. Defined.

(** ** [class ShiftOptimizer] *)

#[global] Instance LpVariable_inhabited : Inhabited LpVariable := populate (work 0 0).

(** The value stored per requirement key:
    [{'min_count': ..., 'required_count': ...}]. *)
Record RequirementEntry := mkRequirementEntry {
  min_count : nat;
  required_count : nat
}.

Record ShiftOptimizer := mkShiftOptimizer {
  period : SchedulePeriod;
  staff_list : list StaffProfile;
  date_range : list Z;
  requests : gmap (Z * Z) Z;
  requirements : gmap (Z * Z) RequirementEntry;
  is_working : gmap (Z * Z) LpVariable;
  problem : option LpProblem
}.

(** [for x in l: body], threading the state the body mutates. *)
Definition for_each {A S : Type} (l : list A) (body : A → S → S) (s : S) : S :=
  foldl (λ acc x, body x acc) s l.

(** [range(n)]; a negative [n] gives the empty range, as truncated
    subtraction on [nat] does. *)
Definition range (n : nat) : list nat := seq 0 n.

Definition strftime (date : Z) : Z := date.

(** [SchedulePeriod.objects.get(id=period_id)]. *)
Definition SchedulePeriod_get (db : Database) (id : Z) : outcome SchedulePeriod :=
  match filter (λ p, period_id p = id) (schedule_period db) with
  | [p] => Return p
  | [] => Raise (mkException "DoesNotExist" "SchedulePeriod matching query does not exist.")
  | _ => Raise (mkException "MultipleObjectsReturned"
                  "get() returned more than one SchedulePeriod")
  end.

(** [date.max.toordinal()]: the ordinal of December 31 of the year 9999,
    the last day a [date] can hold. *)
Definition date_max : Z := 3652059.

(** [date + timedelta(days=1)]: past [date.max] the sum raises. *)
Definition date_add_day (date : Z) : outcome Z :=
  if decide (date < date_max) then Return (date + 1)
  else Raise (mkException "OverflowError" "date value out of range").

(** The [while current_date <= end_date] loop of [_generate_date_range];
    [fuel] bounds the number of iterations and [date_loop_fuel] shows the
    bound used is never what stops the loop. *)
Fixpoint date_loop (fuel : nat) (current_date end_date : Z) (dates : list Z)
    : outcome (list Z) :=
  match fuel with
  | O => Return dates
  | S fuel' =>
      if decide (current_date ≤ end_date) then
        match date_add_day current_date with
        | Return next_date => date_loop fuel' next_date end_date (dates ++ [current_date])
        | Raise e => Raise e
        end
      else Return dates
  end.

(** [_generate_date_range]: the days from the start date to the end date.
    The loop steps past the end date before it stops, so for a period
    that ends on [date.max] it raises [OverflowError]. *)
Definition _generate_date_range (period : SchedulePeriod) : outcome (list Z) :=
  date_loop (Z.to_nat (end_date period - start_date period + 1))
    (start_date period) (end_date period) [].

Definition _load_shift_requests (db : Database) (period : SchedulePeriod) : gmap (Z * Z) Z :=
  for_each (filter (λ r, request_period r = period_id period) (schedule_shift_request db))
    (λ request requests,
       <[(request_staff request, request_date request) := priority request]> requests)
    ∅.

Definition _load_daily_requirements (db : Database) (period : SchedulePeriod)
    : gmap (Z * Z) RequirementEntry :=
  for_each (filter (λ r, requirement_period r = period_id period)
              (schedule_daily_requirement db))
    (λ req requirements,
       <[(requirement_date req, requirement_job_type req) :=
           mkRequirementEntry (min_staff_count req) (required_staff_count req)]> requirements)
    ∅.

(** [ShiftOptimizer.__init__]. *)
Definition ShiftOptimizer_init (db : Database) (id : Z) : outcome ShiftOptimizer :=
  match SchedulePeriod_get db id with
  | Raise e => Raise e
  | Return period =>
      match _generate_date_range period with
      | Raise e => Raise e
      | Return date_range =>
          Return (mkShiftOptimizer period
                    (filter (λ s, is_active s = true) (schedule_staff_profile db))
                    date_range
                    (_load_shift_requests db period)
                    (_load_daily_requirements db period)
                    ∅ None)
      end
  end.

Definition _create_decision_variables (self : ShiftOptimizer) : gmap (Z * Z) LpVariable :=
  for_each (staff_list self) (λ staff is_working,
    for_each (date_range self) (λ date is_working,
      let date_str := strftime date in
      <[(staff_id staff, date_str) := work (staff_id staff) date_str]> is_working)
      is_working)
    (is_working self).

Definition _set_objective_function (self : ShiftOptimizer) (p : LpProblem) : LpProblem :=
  let objective_terms :=
    for_each (staff_list self) (λ staff terms,
      for_each (date_range self) (λ date terms,
        let date_str := strftime date in
        let var := is_working self !!! (staff_id staff, date_str) in
        let priority := default 2 (requests self !! (staff_id staff, date)) in
        if decide (priority = 3) then terms ++ [(10, var)]
        else if decide (priority = 2) then terms ++ [(1, var)]
        else if decide (priority = 1) then terms ++ [(-100, var)]
        else terms)
        terms)
      [] in
  set_objective objective_terms p.

(** [list(set(s.job_type.id for s in staff_list if s.job_type is not None))];
    the iteration order of a Python set is unspecified; the duplicate-free
    list [remove_dups] gives stands for it. *)
Definition _get_all_job_type_ids (self : ShiftOptimizer) : list Z :=
  remove_dups (omap job_type (staff_list self)).

Definition _add_daily_minimum_constraints (self : ShiftOptimizer) (p : LpProblem) : LpProblem :=
  for_each (date_range self) (λ date p,
    for_each (_get_all_job_type_ids self) (λ job_type_id p,
      match requirements self !! (date, job_type_id) with
      | Some req =>
          let staff_vars :=
            map (λ s, is_working self !!! (staff_id s, strftime date))
              (filter (λ s, job_type s = Some job_type_id) (staff_list self)) in
          match staff_vars with
          | [] => p
          | _ => add_constraint
                   (mkLpConstraint (daily_min date job_type_id) (lpSum_vars staff_vars)
                      LpConstraintGE (Z.of_nat (min_count req))) p
          end
      | None => p
      end) p) p.

Definition _add_monthly_workday_constraints (self : ShiftOptimizer) (p : LpProblem) : LpProblem :=
  for_each (staff_list self) (λ staff p,
    match work_style staff with
    | Some ws =>
        let monthly_vars :=
          map (λ date, is_working self !!! (staff_id staff, strftime date))
            (date_range self) in
        let p :=
          if decide (0 < min_shifts_per_month ws)%nat
          then add_constraint
                 (mkLpConstraint (min_monthly (staff_id staff)) (lpSum_vars monthly_vars)
                    LpConstraintGE (Z.of_nat (min_shifts_per_month ws))) p
          else p in
        add_constraint
          (mkLpConstraint (max_monthly (staff_id staff)) (lpSum_vars monthly_vars)
             LpConstraintLE (Z.of_nat (max_shifts_per_month ws))) p
    | None => p
    end) p.

Definition _add_consecutive_workday_constraints (self : ShiftOptimizer) (p : LpProblem)
    : LpProblem :=
  for_each (staff_list self) (λ staff p,
    match work_style staff with
    | Some ws =>
        if decide (0 < allow_consecutive_days ws)%nat then
          let max_consecutive := allow_consecutive_days ws in
          for_each (range (length (date_range self) - max_consecutive)) (λ i p,
            let consecutive_vars :=
              map (λ j, is_working self !!!
                          (staff_id staff, strftime (date_range self !!! (i + j)%nat)))
                (range (max_consecutive + 1)) in
            add_constraint
              (mkLpConstraint (consecutive (staff_id staff) i) (lpSum_vars consecutive_vars)
                 LpConstraintLE (Z.of_nat max_consecutive)) p) p
        else p
    | None => p
    end) p.

Definition _add_holiday_request_constraints (self : ShiftOptimizer) (p : LpProblem)
    : LpProblem :=
  for_each (staff_list self) (λ staff p,
    for_each (date_range self) (λ date p,
      if decide (requests self !! (staff_id staff, date) = Some 1) then
        let date_str := strftime date in
        let var := is_working self !!! (staff_id staff, date_str) in
        add_constraint
          (mkLpConstraint (holiday_request (staff_id staff) date_str) [(1, var)]
             LpConstraintEQ 0) p
      else p) p) p.

Definition _add_constraints (self : ShiftOptimizer) (p : LpProblem) : LpProblem :=
  let p := _add_daily_minimum_constraints self p in
  let p := _add_monthly_workday_constraints self p in
  let p := _add_consecutive_workday_constraints self p in
  _add_holiday_request_constraints self p.

Definition with_is_working (m : gmap (Z * Z) LpVariable) (self : ShiftOptimizer)
    : ShiftOptimizer :=
  mkShiftOptimizer (period self) (staff_list self) (date_range self) (requests self)
    (requirements self) m (problem self).

Definition with_problem (p : option LpProblem) (self : ShiftOptimizer) : ShiftOptimizer :=
  mkShiftOptimizer (period self) (staff_list self) (date_range self) (requests self)
    (requirements self) (is_working self) p.

Definition create_optimization_problem (self : ShiftOptimizer) : ShiftOptimizer :=
  let p := LpProblem_new in
  let self := with_is_working (_create_decision_variables self) self in
  let p := _set_objective_function self p in
  let p := _add_constraints self p in
  with_problem (Some p) self.

(** ** Python arithmetic used by the statistics *)

(** [float(z)] for an [int] of magnitude below [2^63]; exact below [2^53],
    which covers every row count. *)
Definition float_of_Z (z : Z) : float :=
  if decide (z < 0) then PrimFloat.opp (PrimFloat.of_uint63 (Uint63.of_Z (- z)))
  else PrimFloat.of_uint63 (Uint63.of_Z z).

(** [a / b] on two [int]s: the correctly rounded quotient, which for
    operands below [2^53] is the quotient of their floats. *)
Definition int_truediv (a b : Z) : float :=
  PrimFloat.div (float_of_Z a) (float_of_Z b).

Definition round_half_even (num den : Z) : Z :=
  let q := num / den in
  let r := num mod den in
  if decide (2 * r < den) then q
  else if decide (den < 2 * r) then q + 1
  else if Z.even q then q else q + 1.

(** [round(x, ndigits)] on a [float], as CPython computes it: the exact
    binary value of [x] is rounded half-even to [ndigits] decimals and the
    double nearest to that decimal is returned. Beyond [2^53] scaled units
    the double is already its own rounding. *)
Definition float_round (x : float) (ndigits : nat) : float :=
  match Prim2SF x with
  | S754_finite s m e =>
      let scale := 10 ^ Z.of_nat ndigits in
      let n := if decide (0 ≤ e) then scale * Z.pos m * 2 ^ e
               else round_half_even (scale * Z.pos m) (2 ^ (- e)) in
      if decide (n < 2 ^ 53) then
        let r := PrimFloat.div (float_of_Z n) (float_of_Z scale) in
        if s then PrimFloat.opp r else r
      else x
  | _ => x
  end.

(** [round(v, ndigits)]: an [int] is returned unchanged when
    [ndigits >= 0]. *)
Definition py_round (v : pyval) (ndigits : nat) : pyval :=
  match v with
  | PyFloat f => PyFloat (float_round f ndigits)
  | other => other
  end.

(** ** Computations over the database that may raise *)

Definition M (A : Type) : Type := Database → outcome A * Database.

Definition ret {A} (a : A) : M A := λ db, (Return a, db).

Definition raise {A} (e : Exception) : M A := λ db, (Raise e, db).

Definition bind {A B} (m : M A) (k : A → M B) : M B :=
  λ db, match m db with
        | (Return a, db') => k a db'
        | (Raise e, db') => (Raise e, db')
        end.

(** [try: body  except Exception as e: handler(e)]. *)
Definition try_except {A} (body : M A) (handler : Exception → M A) : M A :=
  λ db, match body db with
        | (Return a, db') => (Return a, db')
        | (Raise e, db') => handler e db'
        end.

(** [with transaction.atomic(): body]: an exception rolls the database
    back to where the block started. *)
Definition atomic {A} (body : M A) : M A :=
  λ db, match body db with
        | (Return a, db') => (Return a, db')
        | (Raise e, _) => (Raise e, db)
        end.

Notation "x <~ m ;; k" := (bind m (λ x, k))
  (at level 100, m at next level, right associativity).

(** The key of [unique_together = ('staff', 'date')]. *)
Definition assignment_key (a : ShiftAssignment) : Z * Z :=
  (assignment_staff a, assignment_date a).

(** [ShiftAssignment.objects.bulk_create(rows)]: the database refuses the
    insert when [(staff, date)] would stop being unique. *)
Definition bulk_create (rows : list ShiftAssignment) : M unit :=
  λ db,
    let table := schedule_shift_assignment db ++ rows in
    if decide (NoDup (map assignment_key table))
    then (Return tt, set_shift_assignment table db)
    else (Raise (mkException "IntegrityError" "UNIQUE constraint failed"), db).

(** [ShiftAssignment.objects.filter(date__range=(lo, hi))]. *)
Definition in_date_range (lo hi : Z) (a : ShiftAssignment) : Prop :=
  lo ≤ assignment_date a ∧ assignment_date a ≤ hi.

#[global] Instance in_date_range_dec lo hi a : Decision (in_date_range lo hi a).
Proof. unfold in_date_range. apply _. Defined.

(** [queryset.delete()] of the assignments in a date range. *)
Definition delete_date_range (lo hi : Z) : M unit :=
  λ db,
    (Return tt,
     set_shift_assignment
       (filter (λ a, ¬ in_date_range lo hi a) (schedule_shift_assignment db)) db).

(** The two foreign keys of a [ScheduleLog] row: [period] is mandatory,
    [user] is nullable. *)
Definition log_references_exist (log_entry : ScheduleLog) (db : Database) : Prop :=
  log_period_id log_entry ∈ map period_id (schedule_period db) ∧
  from_option (λ u, u ∈ auth_user db) True (log_user_id log_entry).

#[global] Instance log_references_exist_dec e db : Decision (log_references_exist e db).
Proof. unfold log_references_exist. destruct (log_user_id e); simpl; apply _. Defined.

(** [ScheduleLog(...).save()]: the database refuses a dangling reference. *)
Definition ScheduleLog_save (log_entry : ScheduleLog) : M unit :=
  λ db,
    if decide (log_references_exist log_entry db)
    then (Return tt, set_log (schedule_log db ++ [log_entry]) db)
    else (Raise (mkException "IntegrityError" "FOREIGN KEY constraint failed"), db).

(** ** [solve], [save_results] and [class ShiftSchedulerService] *)

(** What [problem.solve(pulp.PULP_CBC_CMD(msg=0))] leaves in the problem. *)
Definition solved (st : string) (vals : LpVariable → option Z) (p : LpProblem) : LpProblem :=
  mkLpProblem (objective p) (constraints p) st vals.

(** PuLP's contract for a solver: a status reporting a solution comes with
    values that satisfy the problem. *)
Definition solver_sound (cbc : LpProblem → outcome (string * (LpVariable → option Z)))
    (p : LpProblem) : Prop :=
  ∀ st vals, cbc p = Return (st, vals) → st = "Optimal" ∨ st = "Feasible" → feasible p vals.

Definition status_solved (p : LpProblem) : Prop :=
  status p = "Optimal" ∨ status p = "Feasible".

#[global] Instance status_solved_dec p : Decision (status_solved p).
Proof. unfold status_solved. apply _. Defined.

Section Service.

(** The CBC solver behind PuLP: it either raises or reports a status name
    and the values it assigned. *)
Variable cbc : LpProblem → outcome (string * (LpVariable → option Z)).

(** The seconds [datetime.now() - start_time] measures. *)
Variable execution_time : float.

Definition solve (self : ShiftOptimizer) : (bool * string) * ShiftOptimizer :=
  match problem self with
  | None => ((false, "最適化問題が定義されていません"), self)
  | Some p =>
      match cbc p with
      | Return (st, vals) =>
          let self := with_problem (Some (solved st vals p)) self in
          if decide (st = "Optimal") then ((true, "最適解が見つかりました"), self)
          else if decide (st = "Feasible") then ((true, "実行可能解が見つかりました"), self)
          else ((false, "解が見つかりませんでした: " +:+ st), self)
      | Raise e => ((false, "計算エラー: " +:+ exc_str e), self)
      end
  end.

(** The rows [save_results] builds, with the count of work days. *)
Definition assignments_to_create (self : ShiftOptimizer) (p : LpProblem) (db : Database)
    : list ShiftAssignment * Z :=
  for_each (staff_list self) (λ staff acc,
    for_each (date_range self) (λ date acc,
      let '(rows, assignment_count) := acc in
      let date_str := strftime date in
      let var := is_working self !!! (staff_id staff, date_str) in
      if decide (varValue p var = Some 1) then
        (rows ++ [mkShiftAssignment (staff_id staff) date true None true false],
         assignment_count + 1)
      else
        let default_holiday :=
          head (filter (λ h, holiday_type_name h = "週休") (schedule_holiday_type db)) in
        (rows ++ [mkShiftAssignment (staff_id staff) date false default_holiday true false],
         assignment_count)) acc) ([], 0).

Definition save_results (self : ShiftOptimizer) : M Z :=
  match problem self with
  | Some p =>
      if decide (status_solved p) then
        atomic (
          _ <~ delete_date_range (start_date (period self)) (end_date (period self)) ;;
          created <~ (λ db, (Return (assignments_to_create self p db), db)) ;;
          _ <~ bulk_create created.1 ;;
          ret created.2)
      else raise (mkException "ValueError" "有効な解が存在しません")
  | None => raise (mkException "ValueError" "有効な解が存在しません")
  end.

(** [_log_execution]: a failure to save the entry is logged and dropped. *)
Definition _log_execution (period_id : Z) (action : string) (user_id : option Z)
    (description : string) (success : bool) (execution_time : float) : M unit :=
  try_except
    (ScheduleLog_save
       (mkScheduleLog period_id action user_id description success execution_time))
    (λ _, ret tt).

(** The body of the [try] of [generate_schedule]. *)
Definition generate_schedule_try (period_id : Z) (user_id : option Z)
    : M (gmap string pyval) :=
  optimizer <~ (λ db, (ShiftOptimizer_init db period_id, db)) ;;
  let optimizer := create_optimization_problem optimizer in
  let '((success, message), optimizer) := solve optimizer in
  if negb success then
    _ <~ _log_execution period_id "ai_create" user_id message false execution_time ;;
    ret {[ "success" := PyBool false;
           "message" := PyStr message;
           "assignments_count" := PyInt 0 ]}
  else
    assignments_count <~ save_results optimizer ;;
    _ <~ _log_execution period_id "ai_create" user_id
           (pretty assignments_count +:+ "件の割り当てを作成") true execution_time ;;
    ret {[ "success" := PyBool true;
           "message" := PyStr ("シフトの自動作成が完了しました。" +:+ pretty assignments_count
                               +:+ "件の勤務を割り当てました。");
           "assignments_count" := PyInt assignments_count;
           "execution_time" := PyFloat execution_time ]}.

(** The [except Exception as e] of [generate_schedule]. *)
Definition generate_schedule_except (period_id : Z) (user_id : option Z) (e : Exception)
    : M (gmap string pyval) :=
  _ <~ _log_execution period_id "ai_create" user_id ("エラー: " +:+ exc_str e) false
         execution_time ;;
  ret {[ "success" := PyBool false;
         "message" := PyStr ("シフト作成中にエラーが発生しました: " +:+ exc_str e);
         "assignments_count" := PyInt 0 ]}.

Definition generate_schedule (period_id : Z) (user_id : option Z) : M (gmap string pyval) :=
  try_except (generate_schedule_try period_id user_id)
    (generate_schedule_except period_id user_id).

End Service.

(** The body of the [try] of [get_optimization_statistics]. *)
Definition get_optimization_statistics_try (id : Z) (db : Database)
    : outcome (gmap string pyval) :=
  match SchedulePeriod_get db id with
  | Raise e => Raise e
  | Return period =>
      let assignments :=
        filter (in_date_range (start_date period) (end_date period))
          (schedule_shift_assignment db) in
      let total_assignments := Z.of_nat (length assignments) in
      let workday_assignments :=
        Z.of_nat (length (filter (λ a, is_workday a = true) assignments)) in
      let holiday_assignments := total_assignments - workday_assignments in
      let period_requests :=
        filter (λ r, request_period r = period_id period) (schedule_shift_request db) in
      let total_requests := Z.of_nat (length period_requests) in
      let fulfilled_requests :=
        for_each period_requests (λ request fulfilled_requests,
          match head (filter (λ a, assignment_staff a = request_staff request ∧
                                   assignment_date a = request_date request) assignments) with
          | Some assignment =>
              if bool_decide (priority request = 1) && negb (is_workday assignment)
              then fulfilled_requests + 1
              else if bool_decide (priority request ∈ [2; 3]) && is_workday assignment
              then fulfilled_requests + 1
              else fulfilled_requests
          | None => fulfilled_requests
          end) 0 in
      let fulfillment_rate :=
        if decide (0 < total_requests)
        then PyFloat (PrimFloat.mul (int_truediv fulfilled_requests total_requests)
                        (float_of_Z 100))
        else PyInt 0 in
      Return {[ "total_assignments" := PyInt total_assignments;
                "workday_assignments" := PyInt workday_assignments;
                "holiday_assignments" := PyInt holiday_assignments;
                "total_requests" := PyInt total_requests;
                "fulfilled_requests" := PyInt fulfilled_requests;
                "fulfillment_rate" := py_round fulfillment_rate 1 ]}
  end.

(** [get_optimization_statistics]: any exception gives the empty dict. *)
Definition get_optimization_statistics (id : Z) (db : Database)
    : outcome (gmap string pyval) :=
  match get_optimization_statistics_try id db with
  | Return d => Return d
  | Raise _ => Return ∅
  end.

(** ** The days of a period

    The days from the start date to the end date inclusive: what
    [_generate_date_range] returns when it returns. *)
Definition period_days (period : SchedulePeriod) : list Z :=
  seqZ (start_date period) (end_date period - start_date period + 1).

(** ** The model in closed form

    What the loops of [create_optimization_problem] add, written as list
    comprehensions over workers and days; [create_optimization_problem_closed]
    proves the loops build exactly this. *)

Definition objective_term (self : ShiftOptimizer) (staff : StaffProfile) (date : Z)
    : LpAffineExpression :=
  let var := work (staff_id staff) (strftime date) in
  let priority := default 2 (requests self !! (staff_id staff, date)) in
  if decide (priority = 3) then [(10, var)]
  else if decide (priority = 2) then [(1, var)]
  else if decide (priority = 1) then [(-100, var)]
  else [].

Definition objective_terms (self : ShiftOptimizer) : LpAffineExpression :=
  flat_map (λ staff, flat_map (objective_term self staff) (date_range self))
    (staff_list self).

(** The decision variables of the workers of a job type on a day. *)
Definition staff_vars (self : ShiftOptimizer) (date job_type_id : Z) : list LpVariable :=
  map (λ s, work (staff_id s) (strftime date))
    (filter (λ s, job_type s = Some job_type_id) (staff_list self)).

Definition daily_minimum_constraint (self : ShiftOptimizer) (date job_type_id : Z)
    : list LpConstraint :=
  match requirements self !! (date, job_type_id) with
  | Some req =>
      match staff_vars self date job_type_id with
      | [] => []
      | vars => [mkLpConstraint (daily_min date job_type_id) (lpSum_vars vars)
                   LpConstraintGE (Z.of_nat (min_count req))]
      end
  | None => []
  end.

Definition daily_minimum_constraints (self : ShiftOptimizer) : list LpConstraint :=
  flat_map (λ date,
      flat_map (daily_minimum_constraint self date) (_get_all_job_type_ids self))
    (date_range self).

Definition monthly_vars (self : ShiftOptimizer) (staff : StaffProfile) : list LpVariable :=
  map (λ date, work (staff_id staff) (strftime date)) (date_range self).

Definition monthly_workday_constraint (self : ShiftOptimizer) (staff : StaffProfile)
    : list LpConstraint :=
  match work_style staff with
  | Some ws =>
      (if decide (0 < min_shifts_per_month ws)%nat
       then [mkLpConstraint (min_monthly (staff_id staff))
               (lpSum_vars (monthly_vars self staff))
               LpConstraintGE (Z.of_nat (min_shifts_per_month ws))]
       else []) ++
      [mkLpConstraint (max_monthly (staff_id staff))
         (lpSum_vars (monthly_vars self staff))
         LpConstraintLE (Z.of_nat (max_shifts_per_month ws))]
  | None => []
  end.

Definition monthly_workday_constraints (self : ShiftOptimizer) : list LpConstraint :=
  flat_map (monthly_workday_constraint self) (staff_list self).

(** The variables of [staff] over the [n] days starting at index [i]. *)
Definition consecutive_vars (self : ShiftOptimizer) (staff : StaffProfile) (i n : nat)
    : list LpVariable :=
  map (λ j, work (staff_id staff) (strftime (date_range self !!! (i + j)%nat))) (range n).

Definition consecutive_constraint (self : ShiftOptimizer) (staff : StaffProfile)
    (max_consecutive i : nat) : LpConstraint :=
  mkLpConstraint (consecutive (staff_id staff) i)
    (lpSum_vars (consecutive_vars self staff i (max_consecutive + 1)))
    LpConstraintLE (Z.of_nat max_consecutive).

Definition consecutive_workday_constraint (self : ShiftOptimizer) (staff : StaffProfile)
    : list LpConstraint :=
  match work_style staff with
  | Some ws =>
      if decide (0 < allow_consecutive_days ws)%nat then
        map (consecutive_constraint self staff (allow_consecutive_days ws))
          (range (length (date_range self) - allow_consecutive_days ws))
      else []
  | None => []
  end.

Definition consecutive_workday_constraints (self : ShiftOptimizer) : list LpConstraint :=
  flat_map (consecutive_workday_constraint self) (staff_list self).

Definition holiday_constraint (staff : StaffProfile) (date : Z) : LpConstraint :=
  mkLpConstraint (holiday_request (staff_id staff) (strftime date))
    [(1, work (staff_id staff) (strftime date))] LpConstraintEQ 0.

Definition holiday_request_constraint (self : ShiftOptimizer) (staff : StaffProfile)
    (date : Z) : list LpConstraint :=
  if decide (requests self !! (staff_id staff, date) = Some 1)
  then [holiday_constraint staff date] else [].

Definition holiday_request_constraints (self : ShiftOptimizer) : list LpConstraint :=
  flat_map (λ staff, flat_map (holiday_request_constraint self staff) (date_range self))
    (staff_list self).

Definition model_constraints (self : ShiftOptimizer) : list LpConstraint :=
  daily_minimum_constraints self ++ monthly_workday_constraints self ++
  consecutive_workday_constraints self ++ holiday_request_constraints self.

Definition model (self : ShiftOptimizer) : LpProblem :=
  mkLpProblem (objective_terms self) (model_constraints self) "Not Solved" (λ _, None).

(** Every key the builders look up in [is_working] is there: no lookup
    raises [KeyError]. *)
Definition vars_declared (self : ShiftOptimizer) : Prop :=
  ∀ s d, s ∈ staff_list self → d ∈ date_range self →
    is_working self !! (staff_id s, strftime d) = Some (work (staff_id s) (strftime d)).

(** ** The rows [save_results] writes, in closed form *)

Definition default_holiday (db : Database) : option HolidayType :=
  head (filter (λ h, holiday_type_name h = "週休") (schedule_holiday_type db)).

Definition assignment_row (vals : LpVariable → option Z) (db : Database)
    (staff : StaffProfile) (date : Z) : ShiftAssignment :=
  if decide (vals (work (staff_id staff) (strftime date)) = Some 1)
  then mkShiftAssignment (staff_id staff) date true None true false
  else mkShiftAssignment (staff_id staff) date false (default_holiday db) true false.

Definition assignment_rows (self : ShiftOptimizer) (vals : LpVariable → option Z)
    (db : Database) : list ShiftAssignment :=
  flat_map (λ staff, map (assignment_row vals db staff) (date_range self)) (staff_list self).

(** The number of work days among some rows, as [assignment_count] counts. *)
Definition workday_count (rows : list ShiftAssignment) : Z :=
  Z.of_nat (length (filter (λ a, is_workday a = true) rows)).

(** The assignments a run over [self]'s period leaves untouched. *)
Definition kept_assignments (self : ShiftOptimizer) (db : Database) : list ShiftAssignment :=
  filter (λ a, ¬ in_date_range (start_date (period self)) (end_date (period self)) a)
    (schedule_shift_assignment db).

(** The log row [_log_execution] tries to save for an [ai_create] run. *)
Definition ai_create_log (period_id : Z) (user_id : option Z) (description : string)
    (success : bool) (execution_time : float) : ScheduleLog :=
  mkScheduleLog period_id "ai_create" user_id description success execution_time.

(** The database after [_log_execution]: the entry is appended when its
    references exist, and dropped otherwise. *)
Definition logged (entry : ScheduleLog) (db : Database) : Database :=
  if decide (log_references_exist entry db)
  then set_log (schedule_log db ++ [entry]) db else db.

(** The result dict of a failed run. *)
Definition failure_result (message : string) : gmap string pyval :=
  {[ "success" := PyBool false;
     "message" := PyStr message;
     "assignments_count" := PyInt 0 ]}.

(** The result dict of a successful run. *)
Definition success_result (assignments_count : Z) (execution_time : float)
    : gmap string pyval :=
  {[ "success" := PyBool true;
     "message" := PyStr ("シフトの自動作成が完了しました。" +:+ pretty assignments_count
                         +:+ "件の勤務を割り当てました。");
     "assignments_count" := PyInt assignments_count;
     "execution_time" := PyFloat execution_time ]}.

(** ** [generate_schedule] in closed form *)

(** What the [except] branch returns and leaves in the database. *)
Definition except_path (execution_time : float) (period_id : Z) (user_id : option Z)
    (e : Exception) (db : Database) : outcome (gmap string pyval) * Database :=
  (Return (failure_result ("シフト作成中にエラーが発生しました: " +:+ exc_str e)),
   logged (ai_create_log period_id user_id ("エラー: " +:+ exc_str e) false execution_time) db).

(** What the [if not success] branch returns and leaves in the database. *)
Definition failure_path (execution_time : float) (period_id : Z) (user_id : option Z)
    (message : string) (db : Database) : outcome (gmap string pyval) * Database :=
  (Return (failure_result message),
   logged (ai_create_log period_id user_id message false execution_time) db).

Definition generate_schedule_closed
    (cbc : LpProblem → outcome (string * (LpVariable → option Z)))
    (execution_time : float) (period_id : Z) (user_id : option Z) (db : Database)
    : outcome (gmap string pyval) * Database :=
  match ShiftOptimizer_init db period_id with
  | Raise e => except_path execution_time period_id user_id e db
  | Return self =>
      match cbc (model self) with
      | Raise e =>
          failure_path execution_time period_id user_id ("計算エラー: " +:+ exc_str e) db
      | Return (st, vals) =>
          if decide (st = "Optimal" ∨ st = "Feasible") then
            let rows := assignment_rows self vals db in
            let table := kept_assignments self db ++ rows in
            if decide (NoDup (map assignment_key table)) then
              (Return (success_result (workday_count rows) execution_time),
               logged (ai_create_log period_id user_id
                         (pretty (workday_count rows) +:+ "件の割り当てを作成")
                         true execution_time)
                 (set_shift_assignment table db))
            else
              except_path execution_time period_id user_id
                (mkException "IntegrityError" "UNIQUE constraint failed") db
          else
            failure_path execution_time period_id user_id
              ("解が見つかりませんでした: " +:+ st) db
      end
  end.

(** ** Notions the statements use *)

(** A run succeeded when it returned a dict whose ['success'] is [True]. *)
Definition run_succeeded (r : outcome (gmap string pyval) * Database) : Prop :=
  ∃ d, r.1 = Return d ∧ d !! "success" = Some (PyBool true).

(** The assignments of the table whose day lies in the period. *)
Definition period_assignments (period : SchedulePeriod) (db : Database)
    : list ShiftAssignment :=
  filter (in_date_range (start_date period) (end_date period))
    (schedule_shift_assignment db).

(** The active workers, as [StaffProfile.objects.filter(is_active=True)]. *)
Definition active_staff (db : Database) : list StaffProfile :=
  filter (λ s, is_active s = true) (schedule_staff_profile db).

(** Primary key of [schedule_staff_profile]. *)
Definition staff_ids_unique (db : Database) : Prop :=
  NoDup (map staff_id (schedule_staff_profile db)).

(** [unique_together = ('staff', 'date')] of [schedule_shift_request]. *)
Definition request_key (r : ShiftRequest) : Z * Z := (request_staff r, request_date r).

Definition requests_unique (db : Database) : Prop :=
  NoDup (map request_key (schedule_shift_request db)).

(** [unique_together = ('staff', 'date')] of [schedule_shift_assignment]. *)
Definition assignments_unique (db : Database) : Prop :=
  NoDup (map assignment_key (schedule_shift_assignment db)).

(** [unique_together = ('date', 'job_type')] of [schedule_daily_requirement]. *)
Definition requirement_key (q : DailyRequirement) : Z * Z :=
  (requirement_date q, requirement_job_type q).

Definition requirements_unique (db : Database) : Prop :=
  NoDup (map requirement_key (schedule_daily_requirement db)).

(** The job type of the worker with primary key [id], as the join
    [assignment.staff.job_type] reads it. *)
Definition staff_job_type (db : Database) (id : Z) : option Z :=
  head (filter (λ s, staff_id s = id) (schedule_staff_profile db)) ≫= job_type.

(** The work-day assignments of the workers of a job type on a day. *)
Definition workday_assignments (db : Database) (date job_type_id : Z)
    : list ShiftAssignment :=
  filter (λ a, assignment_date a = date ∧ is_workday a = true ∧
               staff_job_type db (assignment_staff a) = Some job_type_id)
    (schedule_shift_assignment db).

(** ** The objective as the specification words it *)

Inductive Priority := OffRequested | Available | StronglyWantsToWork.

Definition Priority_of_Z (z : Z) : option Priority :=
  if decide (z = 1) then Some OffRequested
  else if decide (z = 2) then Some Available
  else if decide (z = 3) then Some StronglyWantsToWork
  else None.

Definition preference_weight (p : Priority) : Z :=
  match p with
  | OffRequested => -100
  | Available => 1
  | StronglyWantsToWork => 10
  end.

(** The preference of a worker for a day: the submitted one, [Available]
    when none was submitted. *)
Definition preference (self : ShiftOptimizer) (staff : StaffProfile) (date : Z) : Priority :=
  match requests self !! (staff_id staff, date) with
  | Some z => default Available (Priority_of_Z z)
  | None => Available
  end.

(** One term per (worker, day) variable: its preference weight times the
    variable. *)
Definition weighted_preferences (self : ShiftOptimizer) : LpAffineExpression :=
  flat_map (λ staff,
      map (λ date, (preference_weight (preference self staff date),
                    work (staff_id staff) (strftime date)))
        (date_range self))
    (staff_list self).

(** The priorities the model allows: [PRIORITY_CHOICES] and the validators
    of [ShiftRequest.priority]. *)
Definition priorities_valid (db : Database) : Prop :=
  Forall (λ r, 1 ≤ priority r ≤ 3) (schedule_shift_request db).

(** ** Fulfilment as the specification words it *)

(** An assignment matches a preference of the same worker and day when the
    preference is off-requested and the day is off, or the preference is
    available or strongly-wants-to-work and the day is a work day. *)
Definition matches (r : ShiftRequest) (a : ShiftAssignment) : Prop :=
  assignment_staff a = request_staff r ∧ assignment_date a = request_date r ∧
  ((priority r = 1 ∧ is_workday a = false) ∨
   ((priority r = 2 ∨ priority r = 3) ∧ is_workday a = true)).

#[global] Instance matches_dec r a : Decision (matches r a).
Proof. unfold matches. apply _. Defined.

(** A preference is fulfilled when an assignment of the period matches it. *)
Definition fulfilled (period : SchedulePeriod) (db : Database) (r : ShiftRequest) : Prop :=
  Exists (matches r) (period_assignments period db).

#[global] Instance fulfilled_dec period db r : Decision (fulfilled period db r).
Proof. unfold fulfilled. apply _. Defined.

(** The preferences submitted for a period. *)
Definition period_requests (period : SchedulePeriod) (db : Database) : list ShiftRequest :=
  filter (λ r, request_period r = period_id period) (schedule_shift_request db).

Definition fulfilled_count (period : SchedulePeriod) (db : Database) : Z :=
  Z.of_nat (length (filter (fulfilled period db) (period_requests period db))).

(** [k] is the integer nearest to [num / den], the even one of the two
    when [num / den] lies halfway between them. *)
Definition nearest_integer (num den k : Z) : Prop :=
  2 * Z.abs (num - k * den) ≤ den ∧
  (2 * Z.abs (num - k * den) = den → Z.even k = true).

(** [r] is the double [x] rounded to [ndigits] decimals. The exact value
    of a finite [x] is [m * 2 ^ e], negated when [s] is set; with [k] the
    integer nearest to that value times [10 ^ ndigits], [r] is the double
    nearest to [k / 10 ^ ndigits], which is what their division in
    doubles yields for [k] below [2 ^ 53]. A double with [k] at or beyond
    [2 ^ 53] is an integer and is its own rounding, as are zero, the
    infinities and NaN. *)
Definition rounded_to_decimals (ndigits : nat) (x r : float) : Prop :=
  match Prim2SF x with
  | S754_finite s m e =>
      ∃ k, nearest_integer (10 ^ Z.of_nat ndigits * Z.pos m * 2 ^ Z.max 0 e)
             (2 ^ Z.max 0 (- e)) k ∧
           r = if decide (k < 2 ^ 53)
               then let q := PrimFloat.div (float_of_Z k)
                               (float_of_Z (10 ^ Z.of_nat ndigits)) in
                    if s then PrimFloat.opp q else q
               else x
  | _ => r = x
  end.

(** [v] is the rate of [fulfilled] among [total] preferences: fulfilled
    over total times 100, in doubles, rounded to one decimal; the integer
    0 without any preference. *)
Definition fulfillment_rate (fulfilled total : Z) (v : pyval) : Prop :=
  if decide (0 < total)
  then ∃ r, v = PyFloat r ∧
            rounded_to_decimals 1
              (PrimFloat.mul (PrimFloat.div (float_of_Z fulfilled) (float_of_Z total))
                 (float_of_Z 100)) r
  else v = PyInt 0.

(** ** A small installation, used to instantiate the statements

    Two active nurses (job type 7), one of them full time with at most two
    consecutive work days, and one retired clerk; a four-day period
    [100 .. 103]; worker 10 asks for day 101 off, worker 11 strongly wants
    to work it; one nurse is required on day 101. *)

Definition demo_work_style : WorkStyle := mkWorkStyle 5 0 2.

Definition demo_staff_10 : StaffProfile := mkStaffProfile 10 (Some 7) (Some demo_work_style) true.
Definition demo_staff_11 : StaffProfile := mkStaffProfile 11 (Some 7) None true.
Definition demo_staff_12 : StaffProfile := mkStaffProfile 12 (Some 8) None false.

Definition demo_period : SchedulePeriod := mkSchedulePeriod 1 "2025-08" 100 103.

Definition demo_db : Database :=
  mkDatabase [1]
    [demo_staff_10; demo_staff_11; demo_staff_12]
    [mkHolidayType 1 "週休"]
    [demo_period]
    [mkShiftRequest 10 1 101 1; mkShiftRequest 11 1 101 3]
    [mkDailyRequirement 1 101 7 1 1]
    [] [].

(** A solver answer for [demo_db]: worker 11 works day 101, nobody else
    works. *)
Definition demo_vals (x : LpVariable) : option Z :=
  if decide (x = work 11 101) then Some 1 else Some 0.

Definition demo_cbc (p : LpProblem) : outcome (string * (LpVariable → option Z)) :=
  Return ("Optimal", demo_vals).

(** A solver that finds the model infeasible. *)
Definition infeasible_cbc (p : LpProblem) : outcome (string * (LpVariable → option Z)) :=
  Return ("Infeasible", λ _, None).

(** The optimizer [ShiftOptimizer(1)] builds over [demo_db]. *)
Definition demo_self : ShiftOptimizer :=
  mkShiftOptimizer demo_period (active_staff demo_db) (period_days demo_period)
    (_load_shift_requests demo_db demo_period)
    (_load_daily_requirements demo_db demo_period) ∅ None.

(** The off request of worker 10 for day 101. *)
Definition demo_off_request : ShiftRequest := mkShiftRequest 10 1 101 1.

(** The requirement of one nurse on day 101. *)
Definition demo_requirement : DailyRequirement := mkDailyRequirement 1 101 7 1 1.

(** [demo_db] with one more requirement: a clerk (job type 8) on day 101,
    although the only clerk is not active. *)
Definition unstaffed_requirement : DailyRequirement := mkDailyRequirement 1 101 8 1 1.

Definition unstaffed_db : Database :=
  mkDatabase (auth_user demo_db) (schedule_staff_profile demo_db)
    (schedule_holiday_type demo_db) (schedule_period demo_db)
    (schedule_shift_request demo_db)
    [demo_requirement; unstaffed_requirement] [] [].

Definition unstaffed_self : ShiftOptimizer :=
  mkShiftOptimizer demo_period (active_staff unstaffed_db) (period_days demo_period)
    (_load_shift_requests unstaffed_db demo_period)
    (_load_daily_requirements unstaffed_db demo_period) ∅ None.

(** The holiday types of a fresh installation: none.
    [create_initial_data] of [apps.py] stops at its first
    [JobType.objects.get_or_create], whose defaults name fields the model
    does not have ([start_time], [end_time], ...), which raises
    [FieldError] before the loop over the holiday types is reached. *)
Definition seeded_holiday_types : list HolidayType := [].

(** [demo_db] on a fresh installation. *)
Definition seeded_db : Database :=
  mkDatabase (auth_user demo_db) (schedule_staff_profile demo_db)
    seeded_holiday_types (schedule_period demo_db)
    (schedule_shift_request demo_db) (schedule_daily_requirement demo_db) [] [].

(** The holiday types [create_initial_data] lists in
    [default_holiday_types]; none is named 週休. *)
Definition default_holiday_types : list HolidayType :=
  [mkHolidayType 1 "有給休暇"; mkHolidayType 2 "特別休暇"; mkHolidayType 3 "欠勤"].

(** [demo_db] with the listed holiday types entered. *)
Definition listed_holidays_db : Database :=
  mkDatabase (auth_user demo_db) (schedule_staff_profile demo_db)
    default_holiday_types (schedule_period demo_db)
    (schedule_shift_request demo_db) (schedule_daily_requirement demo_db) [] [].

(** Ten submitted preferences of worker 10 over a ten-day period and the
    assignments of a finished run: seven days the worker was available for
    are work days; of the three days the worker strongly wanted to work,
    none is. *)
Definition stats_period : SchedulePeriod := mkSchedulePeriod 2 "2025-09" 200 209.

Definition stats_db : Database :=
  mkDatabase [1] [demo_staff_10] [mkHolidayType 1 "週休"] [stats_period]
    (map (λ d, mkShiftRequest 10 2 d 2) (seqZ 200 7) ++
     map (λ d, mkShiftRequest 10 2 d 3) (seqZ 207 3))
    []
    (map (λ d, mkShiftAssignment 10 d true None true false) (seqZ 200 7) ++
     map (λ d, mkShiftAssignment 10 d false (Some (mkHolidayType 1 "週休")) true false)
       (seqZ 207 3))
    [].

(** Three submitted preferences of worker 10, strongly wanting to work
    on each day of a three-day period, and the assignments of a finished
    run: the first day is a work day, the other two are off. *)
Definition thirds_period : SchedulePeriod := mkSchedulePeriod 3 "2025-10" 300 302.

Definition thirds_db : Database :=
  mkDatabase [1] [demo_staff_10] [mkHolidayType 1 "週休"] [thirds_period]
    (map (λ d, mkShiftRequest 10 3 d 3) (seqZ 300 3))
    []
    [mkShiftAssignment 10 300 true None true false;
     mkShiftAssignment 10 301 false (Some (mkHolidayType 1 "週休")) true false;
     mkShiftAssignment 10 302 false (Some (mkHolidayType 1 "週休")) true false]
    [].

(** A period that ends on [date.max]. *)
Definition last_period : SchedulePeriod := mkSchedulePeriod 1 "9999-12" 3652029 3652059.

Definition last_period_db : Database :=
  mkDatabase [1] (schedule_staff_profile demo_db) (schedule_holiday_type demo_db)
    [last_period] [] [] [] [].

(** Closed facts about the sample installations are decided by evaluation. *)
Ltac by_evaluation := apply (bool_decide_unpack _); vm_compute; exact I.

(** * The code around the optimizer

    The remaining validation methods of [shifta_models.py], the task
    wrapper of [views.py] that calls [generate_schedule], and the notions
    used to state what a run guarantees to its callers. *)

(** ** Validation in [shifta_models.py] *)

(** [WorkStyle.clean]. *)
Definition WorkStyle_clean (ws : WorkStyle) : outcome unit :=
  if decide (max_shifts_per_month ws < min_shifts_per_month ws)%nat then
    Raise (ValidationError "最低勤務日数は最大勤務日数以下である必要があります。")
  else Return tt.

(** [SchedulePeriod.days_count]: [(end_date - start_date).days + 1]. *)
Definition days_count (period : SchedulePeriod) : Z :=
  (end_date period - start_date period) + 1.

(** [ShiftRequest.clean], with the period row the request refers to; both
    [period] and [date] are mandatory fields, so the guard
    [if self.period and self.date] is passed. *)
Definition ShiftRequest_clean (period : SchedulePeriod) (r : ShiftRequest) : outcome unit :=
  if negb (bool_decide (start_date period ≤ request_date r ∧
                        request_date r ≤ end_date period)) then
    Raise (ValidationError "希望日は対象期間内である必要があります。")
  else Return tt.

(** ** The task wrappers *)

(** [d[k]]: a missing key raises [KeyError], whose [str] is the quoted
    key. *)
Definition getitem (d : gmap string pyval) (k : string) : outcome pyval :=
  match d !! k with
  | Some v => Return v
  | None => Raise (mkException "KeyError" ("'" +:+ k +:+ "'"))
  end.

(** [d.get(k, v)]. *)
Definition dict_get (d : gmap string pyval) (k : string) (v : pyval) : pyval :=
  default v (d !! k).

(** A computation that does not touch the database. *)
Definition lift {A} (r : outcome A) : M A := λ db, (r, db).

Section Task.

Variable cbc : LpProblem → outcome (string * (LpVariable → option Z)).
Variable execution_time : float.

(** [run_shift_optimization_task] of [ai_scheduler.py]. *)
Definition run_shift_optimization_task (period_id : Z) (user_id : option Z)
    : M (gmap string pyval) :=
  generate_schedule cbc execution_time period_id user_id.

(** [run_ai_scheduler_task] of [views.py], the synchronous fallback used
    when Celery is not installed. *)
Definition run_ai_scheduler_task_sync (period_id : Z) (user_id : option Z)
    : M (gmap string pyval) :=
  generate_schedule cbc execution_time period_id user_id.

(** [run_ai_scheduler_task] of [views.py], the Celery variant. Its import
    of [ShiftSchedulerService] names the module [schedule/scheduler/ai_engine.py],
    which is the path [ai_scheduler.py] gives for itself. *)
Definition run_ai_scheduler_task (period_id : Z) (user_id : option Z)
    : M (gmap string pyval) :=
  try_except
    (result <~ generate_schedule cbc execution_time period_id user_id ;;
     success <~ lift (getitem result "success") ;;
     message <~ lift (getitem result "message") ;;
     ret {[ "success" := success;
            "message" := message;
            "assignments_count" := dict_get result "assignments_count" (PyInt 0);
            "execution_time" := dict_get result "execution_time" (PyInt 0) ]})
    (λ e,
     ret {[ "success" := PyBool false;
            "message" := PyStr ("エラー: " +:+ exc_str e);
            "assignments_count" := PyInt 0;
            "execution_time" := PyInt 0 ]}).

End Task.

(** ** What a schedule says about a worker *)

(** The worker [id] is assigned to work on [date]: the table holds a
    work-day row for the pair. *)
Definition works_on (db : Database) (id date : Z) : Prop :=
  Exists (λ a, assignment_staff a = id ∧ assignment_date a = date ∧ is_workday a = true)
    (schedule_shift_assignment db).

#[global] Instance works_on_dec db id date : Decision (works_on db id date).
Proof. unfold works_on. apply _. Defined.

(** The number of days among [dates] the worker is assigned to work. *)
Definition work_days (db : Database) (id : Z) (dates : list Z) : nat :=
  length (filter (works_on db id) dates).

(** The solver keeps PuLP's contract on the model built for period [id]. *)
Definition solver_sound_for (cbc : LpProblem → outcome (string * (LpVariable → option Z)))
    (db : Database) (id : Z) : Prop :=
  ∀ self p,
    ShiftOptimizer_init db id = Return self →
    problem (create_optimization_problem self) = Some p →
    solver_sound cbc p.

(** The acting user of a run, when one is given, exists. *)
Definition user_exists (db : Database) (user_id : option Z) : Prop :=
  from_option (λ u, u ∈ auth_user db) True user_id.

(** ** Further sample installations *)

(** A solver that fails to run. *)
Definition crashing_cbc (p : LpProblem) : outcome (string * (LpVariable → option Z)) :=
  Raise (mkException "PulpSolverError" "Pulp: Error while executing cbc").

(** A work style that [WorkStyle.clean] rejects: at least 3 and at most 2
    shifts a month. *)
Definition inconsistent_work_style : WorkStyle := mkWorkStyle 2 3 2.

Definition inconsistent_staff : StaffProfile :=
  mkStaffProfile 10 (Some 7) (Some inconsistent_work_style) true.

Definition inconsistent_db : Database :=
  mkDatabase [1] [inconsistent_staff; demo_staff_11] [mkHolidayType 1 "週休"]
    [demo_period] [] [] [] [].

(** [demo_db] asking for three nurses on day 101, with two active nurses. *)
Definition understaffed_requirement : DailyRequirement := mkDailyRequirement 1 101 7 3 3.

Definition understaffed_db : Database :=
  mkDatabase (auth_user demo_db) (schedule_staff_profile demo_db)
    (schedule_holiday_type demo_db) (schedule_period demo_db)
    (schedule_shift_request demo_db) [understaffed_requirement] [] [].

(** [demo_db] after an earlier schedule: worker 10 has a manually adjusted
    work day inside the period, the retired worker 12 an old row inside it,
    and worker 10 a row of the month before. *)
Definition earlier_assignments : list ShiftAssignment :=
  [mkShiftAssignment 10 99 true None true false;
   mkShiftAssignment 10 101 true None false true;
   mkShiftAssignment 12 102 true None true false].

Definition rerun_db : Database := set_shift_assignment earlier_assignments demo_db.

(** A period whose end lies before its start. *)
Definition inverted_period : SchedulePeriod := mkSchedulePeriod 5 "inverted" 103 100.

Definition inverted_db : Database :=
  mkDatabase [1] (schedule_staff_profile demo_db) (schedule_holiday_type demo_db)
    [inverted_period] [] [] earlier_assignments [].

(** ** Requests the validation rejects *)

#[global] Instance is_raise_dec {A} (r : outcome A) : Decision (is_raise r).
Proof. destruct r; apply _. Defined.

Definition set_shift_request (l : list ShiftRequest) (db : Database) : Database :=
  mkDatabase (auth_user db) (schedule_staff_profile db) (schedule_holiday_type db)
    (schedule_period db) l (schedule_daily_requirement db)
    (schedule_shift_assignment db) (schedule_log db).

(** The database without the requests of [period] that [ShiftRequest.clean]
    rejects. *)
Definition without_rejected_requests (period : SchedulePeriod) (db : Database) : Database :=
  set_shift_request
    (filter (λ r, ¬ (request_period r = period_id period ∧
                     is_raise (ShiftRequest_clean period r)))
       (schedule_shift_request db)) db.

(** [demo_db] with a further request of worker 11 for the period, dated
    after its end. *)
Definition late_request : ShiftRequest := mkShiftRequest 11 1 110 1.

Definition late_request_db : Database :=
  set_shift_request (schedule_shift_request demo_db ++ [late_request]) demo_db.

(** ** Requirements with other required counts *)

Definition set_daily_requirement (l : list DailyRequirement) (db : Database) : Database :=
  mkDatabase (auth_user db) (schedule_staff_profile db) (schedule_holiday_type db)
    (schedule_period db) (schedule_shift_request db) l
    (schedule_shift_assignment db) (schedule_log db).

(** The database with [required_staff_count] of every requirement [q]
    replaced by [f q]. *)
Definition with_required_counts (f : DailyRequirement → nat) (db : Database) : Database :=
  set_daily_requirement
    (map (λ q, mkDailyRequirement (requirement_period q) (requirement_date q)
                 (requirement_job_type q) (f q) (min_staff_count q))
       (schedule_daily_requirement db)) db.

(** Two requirement dicts that agree on the minimum counts. *)
Definition same_min_counts (rq1 rq2 : gmap (Z * Z) RequirementEntry) : Prop :=
  ∀ k, min_count <$> rq1 !! k = min_count <$> rq2 !! k.

(** * Reasoning about the loops *)

Section ForEach.
Context {A S : Type}.

(** The loop-invariant rule for [for x in l: body]: [P pre s] says what
    holds of the state once the prefix [pre] has been processed. *)
Lemma for_each_invariant (P : list A → S → Prop) (body : A → S → S) (l : list A) (s : S) :
  P [] s →
  (∀ pre x st, x ∈ l → P pre st → P (pre ++ [x]) (body x st)) →
  P l (for_each l body s).
Proof.
  intros Hinit Hstep.
  assert (Hgen : ∀ suf pre st,
             (∀ x, x ∈ suf → x ∈ l) → P pre st → P (pre ++ suf) (for_each suf body st)).
  { induction suf as [|x suf IH]; intros pre st Hsub Hpre.
    - by rewrite app_nil_r.
    - cbn. replace (pre ++ x :: suf) with ((pre ++ [x]) ++ suf)
        by (by rewrite <- app_assoc).
      apply IH.
      + intros y Hy. apply Hsub. by right.
      + apply Hstep; [apply Hsub; by left | done]. }
  apply (Hgen l [] s); auto.
Qed.

(** A loop whose body appends [g x] to a list it threads. *)
Lemma for_each_app {B} (g : A → list B) (l : list A) (acc : list B) :
  for_each l (λ x acc, acc ++ g x) acc = acc ++ flat_map g l.
Proof.
  revert acc. induction l as [|x l IH]; intros acc; cbn.
  - by rewrite app_nil_r.
  - unfold for_each in IH. rewrite IH. by rewrite <- app_assoc.
Qed.

Lemma for_each_ext (body1 body2 : A → S → S) (l : list A) (s : S) :
  (∀ x st, x ∈ l → body1 x st = body2 x st) →
  for_each l body1 s = for_each l body2 s.
Proof.
  revert s. induction l as [|x l IH]; intros s Hext; cbn; [done|].
  rewrite Hext by (by left). apply IH. intros y st Hy. apply Hext. by right.
Qed.
End ForEach.

Lemma flat_map_snoc {A B} (g : A → list B) (l : list A) (x : A) :
  flat_map g (l ++ [x]) = flat_map g l ++ g x.
Proof. rewrite flat_map_app. cbn. by rewrite app_nil_r. Qed.

(** ** The day sequence *)

Lemma date_loop_done fuel current_date end_date dates :
  end_date < current_date →
  date_loop fuel current_date end_date dates = Return dates.
Proof. intros Hlt. destruct fuel; cbn [date_loop]; [done|]. by rewrite decide_False by lia. Qed.

Lemma date_loop_seqZ fuel current_date end_date dates :
  end_date < date_max →
  date_loop fuel current_date end_date dates =
  Return (dates ++ seqZ current_date (Z.min (Z.of_nat fuel) (end_date - current_date + 1))).
Proof.
  intros Hmax. revert current_date dates.
  induction fuel as [|fuel IH]; intros current_date dates; cbn [date_loop].
  - rewrite seqZ_nil by lia. by rewrite app_nil_r.
  - destruct (decide (current_date ≤ end_date)) as [Hle|Hgt].
    + unfold date_add_day. rewrite decide_True by lia.
      rewrite IH, <- app_assoc. do 2 f_equal.
      rewrite (seqZ_cons current_date) by lia. cbn. do 2 f_equal. lia.
    + rewrite seqZ_nil by lia. by rewrite app_nil_r.
Qed.

(** Stepping past [date.max] raises. *)
Lemma date_loop_overflow fuel current_date end_date dates :
  current_date ≤ end_date → date_max ≤ end_date →
  Z.max 0 (date_max - current_date) < Z.of_nat fuel →
  date_loop fuel current_date end_date dates =
  Raise (mkException "OverflowError" "date value out of range").
Proof.
  revert current_date dates.
  induction fuel as [|fuel IH]; intros current_date dates Hle Hmax Hfuel; [lia|].
  cbn [date_loop]. rewrite decide_True by done. unfold date_add_day.
  destruct (decide (current_date < date_max)) as [Hlt|Hge]; [|done].
  apply IH; lia.
Qed.

Lemma period_days_seqZ period :
  period_days period =
  seqZ (start_date period) (end_date period - start_date period + 1).
Proof. done. Qed.

(** The day sequence runs from the start date to the end date inclusive,
    for a period that ends before [date.max] or holds no day. *)
Lemma _generate_date_range_returns period :
  end_date period < date_max ∨ end_date period < start_date period →
  _generate_date_range period = Return (period_days period).
Proof.
  intros Hok. unfold _generate_date_range, period_days.
  destruct (decide (end_date period < start_date period)) as [Hlt|Hge].
  - rewrite date_loop_done by done. by rewrite seqZ_nil by lia.
  - rewrite date_loop_seqZ by lia. cbn. do 2 f_equal. lia.
Qed.

(** For a period that ends on [date.max] it raises. *)
Lemma _generate_date_range_overflow period :
  start_date period ≤ end_date period → date_max ≤ end_date period →
  _generate_date_range period =
  Raise (mkException "OverflowError" "date value out of range").
Proof.
  intros Hle Hmax. unfold _generate_date_range. apply date_loop_overflow; lia.
Qed.

Lemma _generate_date_range_inv period dates :
  _generate_date_range period = Return dates →
  dates = period_days period ∧
  (end_date period < date_max ∨ end_date period < start_date period).
Proof.
  intros Hret.
  destruct (decide (end_date period < date_max ∨ end_date period < start_date period))
    as [Hok|Hno].
  - rewrite _generate_date_range_returns in Hret by done. by injection Hret as <-.
  - rewrite _generate_date_range_overflow in Hret by lia. done.
Qed.

(** More fuel changes nothing: the loop ends on its own condition. *)
Lemma date_loop_fuel period extra :
  date_loop (Z.to_nat (end_date period - start_date period + 1) + extra)
    (start_date period) (end_date period) [] = _generate_date_range period.
Proof.
  destruct (decide (end_date period < start_date period)) as [Hlt|Hge].
  - rewrite _generate_date_range_returns by (by right). rewrite date_loop_done by done.
    unfold period_days. by rewrite seqZ_nil by lia.
  - destruct (decide (end_date period < date_max)) as [Hok|Hmax].
    + rewrite _generate_date_range_returns by (by left).
      rewrite date_loop_seqZ by done. unfold period_days. cbn. do 2 f_equal. lia.
    + rewrite _generate_date_range_overflow by lia. apply date_loop_overflow; lia.
Qed.

Lemma elem_of_date_range period d :
  d ∈ period_days period ↔ start_date period ≤ d ≤ end_date period.
Proof. rewrite period_days_seqZ, elem_of_seqZ. lia. Qed.

Lemma length_date_range period :
  length (period_days period) =
  Z.to_nat (end_date period - start_date period + 1).
Proof. by rewrite period_days_seqZ, length_seqZ. Qed.

Lemma NoDup_date_range period : NoDup (period_days period).
Proof. rewrite period_days_seqZ. apply NoDup_seqZ. Qed.

(** ** The decision variables *)

Lemma create_decision_variables_lookup self s d :
  s ∈ staff_list self → d ∈ date_range self →
  _create_decision_variables self !! (staff_id s, strftime d) =
  Some (work (staff_id s) (strftime d)).
Proof.
  intros Hs Hd. unfold _create_decision_variables.
  set (P := λ (m : gmap (Z * Z) LpVariable),
         m !! (staff_id s, strftime d) = Some (work (staff_id s) (strftime d))).
  assert (Hinner : ∀ staff m, P m →
             P (for_each (date_range self) (λ date is_working,
                  <[(staff_id staff, strftime date) :=
                      work (staff_id staff) (strftime date)]> is_working) m)).
  { intros staff m Hm.
    apply (for_each_invariant (λ _ m, P m)); [done|].
    intros _ date m' _ Hm'. unfold P in *.
    destruct (decide ((staff_id staff, strftime date) = (staff_id s, strftime d)))
      as [Heq|Hne].
    - injection Heq as Hs1 Hd1. rewrite Hs1, Hd1. by rewrite lookup_insert_eq.
    - by rewrite lookup_insert_ne. }
  apply (for_each_invariant (λ pre m, s ∈ pre → P m)
           (λ staff m, for_each (date_range self) _ m) (staff_list self) (is_working self)
           ltac:(by intros ?%elem_of_nil)); [|done].
  intros pre staff m _ IH [Hin | Heq%list_elem_of_singleton]%elem_of_app.
  - apply Hinner. by apply IH.
  - clear IH. subst staff.
    apply (for_each_invariant (λ pre' m, d ∈ pre' → P m)
             _ (date_range self) m ltac:(by intros ?%elem_of_nil)); [|done].
    intros pre' date m' _ IH' [Hin | Heq%list_elem_of_singleton]%elem_of_app.
    + unfold P in *.
      destruct (decide ((staff_id s, strftime date) = (staff_id s, strftime d)))
        as [Heq|Hne].
      * injection Heq as Hd1. rewrite Hd1. by rewrite lookup_insert_eq.
      * rewrite lookup_insert_ne by done. by apply IH'.
    + subst date. unfold P. by rewrite lookup_insert_eq.
Qed.

Lemma vars_declared_created self :
  vars_declared (with_is_working (_create_decision_variables self) self).
Proof. intros s d Hs Hd. by apply create_decision_variables_lookup. Qed.

Lemma is_working_total self s d :
  vars_declared self → s ∈ staff_list self → d ∈ date_range self →
  is_working self !!! (staff_id s, strftime d) = work (staff_id s) (strftime d).
Proof. intros Hv Hs Hd. rewrite lookup_total_alt, (Hv s d Hs Hd). done. Qed.

(** ** The builders in closed form *)

Lemma extend_nil p : extend p [] = p.
Proof. destruct p. unfold extend. cbn. by rewrite app_nil_r. Qed.

Lemma extend_extend p cs1 cs2 : extend (extend p cs1) cs2 = extend p (cs1 ++ cs2).
Proof. unfold extend. cbn. by rewrite app_assoc. Qed.

Lemma add_constraint_extend c p : add_constraint c p = extend p [c].
Proof. done. Qed.

Lemma for_each_extend {A} (g : A → list LpConstraint) (l : list A) (p : LpProblem) :
  for_each l (λ x p, extend p (g x)) p = extend p (flat_map g l).
Proof.
  revert p. induction l as [|x l IH]; intros p; cbn.
  - by rewrite extend_nil.
  - unfold for_each in IH. rewrite IH. apply extend_extend.
Qed.

Lemma set_objective_function_closed self p :
  vars_declared self →
  _set_objective_function self p = set_objective (objective_terms self) p.
Proof.
  intros Hv. unfold _set_objective_function, objective_terms. f_equal.
  rewrite <- (app_nil_l (flat_map _ _)), <- for_each_app.
  apply for_each_ext. intros staff terms Hstaff.
  rewrite <- for_each_app. apply for_each_ext. intros date terms' Hdate.
  cbn zeta. rewrite is_working_total by done. unfold objective_term.
  repeat case_decide; try done. by rewrite app_nil_r.
Qed.

Lemma add_daily_minimum_constraints_closed self p :
  vars_declared self →
  _add_daily_minimum_constraints self p = extend p (daily_minimum_constraints self).
Proof.
  intros Hv. unfold _add_daily_minimum_constraints, daily_minimum_constraints.
  rewrite <- for_each_extend. apply for_each_ext. intros date p1 Hdate.
  rewrite <- for_each_extend. apply for_each_ext. intros job_type_id p2 _.
  unfold daily_minimum_constraint, staff_vars.
  destruct (requirements self !! (date, job_type_id)) as [req|]; [|by rewrite extend_nil].
  cbn zeta.
  assert (Hmap : map (λ s, is_working self !!! (staff_id s, strftime date))
                   (filter (λ s, job_type s = Some job_type_id) (staff_list self)) =
                 map (λ s, work (staff_id s) (strftime date))
                   (filter (λ s, job_type s = Some job_type_id) (staff_list self))).
  { apply map_ext_in. intros s Hs%list_elem_of_In%list_elem_of_filter.
    apply is_working_total; tauto. }
  rewrite Hmap. clear Hmap.
  destruct (map (λ s, work (staff_id s) (strftime date)) _);
    [by rewrite extend_nil | done].
Qed.

Lemma add_monthly_workday_constraints_closed self p :
  vars_declared self →
  _add_monthly_workday_constraints self p = extend p (monthly_workday_constraints self).
Proof.
  intros Hv. unfold _add_monthly_workday_constraints, monthly_workday_constraints.
  rewrite <- for_each_extend. apply for_each_ext. intros staff p1 Hstaff.
  unfold monthly_workday_constraint, monthly_vars.
  destruct (work_style staff) as [ws|]; [|by rewrite extend_nil].
  cbn zeta.
  assert (Hmap : map (λ date, is_working self !!! (staff_id staff, strftime date))
                   (date_range self) =
                 map (λ date, work (staff_id staff) (strftime date)) (date_range self)).
  { apply map_ext_in. intros d Hd%list_elem_of_In. by apply is_working_total. }
  rewrite Hmap. case_decide.
  - by rewrite !add_constraint_extend, extend_extend.
  - done.
Qed.

Lemma lookup_total_date_range (l : list Z) (i : nat) :
  (i < length l)%nat → l !!! i ∈ l.
Proof.
  intros Hi. destruct (lookup_lt_is_Some_2 l i Hi) as [d Hd].
  rewrite (list_lookup_total_correct _ _ _ Hd). by eapply list_elem_of_lookup_2.
Qed.

Lemma flat_map_singleton {A B} (f : A → B) (l : list A) :
  flat_map (λ x, [f x]) l = map f l.
Proof. induction l as [|x l IH]; cbn; [done | by rewrite IH]. Qed.

Lemma add_consecutive_workday_constraints_closed self p :
  vars_declared self →
  _add_consecutive_workday_constraints self p =
  extend p (consecutive_workday_constraints self).
Proof.
  intros Hv.
  unfold _add_consecutive_workday_constraints, consecutive_workday_constraints.
  rewrite <- for_each_extend. apply for_each_ext. intros staff p1 Hstaff.
  unfold consecutive_workday_constraint.
  destruct (work_style staff) as [ws|]; [|by rewrite extend_nil].
  case_decide; [|by rewrite extend_nil].
  cbn zeta. rewrite <- flat_map_singleton.
  rewrite <- for_each_extend. apply for_each_ext. intros i p2 Hi.
  rewrite add_constraint_extend. do 2 f_equal.
  unfold consecutive_constraint, consecutive_vars. do 2 f_equal.
  apply map_ext_in. intros j Hj%list_elem_of_In.
  apply is_working_total; [done..|].
  apply lookup_total_date_range.
  unfold range in Hi, Hj. apply elem_of_seq in Hi, Hj. lia.
Qed.

Lemma add_holiday_request_constraints_closed self p :
  vars_declared self →
  _add_holiday_request_constraints self p = extend p (holiday_request_constraints self).
Proof.
  intros Hv. unfold _add_holiday_request_constraints, holiday_request_constraints.
  rewrite <- for_each_extend. apply for_each_ext. intros staff p1 Hstaff.
  rewrite <- for_each_extend. apply for_each_ext. intros date p2 Hdate.
  unfold holiday_request_constraint. case_decide; [|by rewrite extend_nil].
  cbn zeta. by rewrite is_working_total.
Qed.

(** The loops of [create_optimization_problem] build exactly [model]. *)
Theorem create_optimization_problem_closed self :
  problem (create_optimization_problem self) = Some (model self).
Proof.
  unfold create_optimization_problem. cbn zeta.
  set (self' := with_is_working (_create_decision_variables self) self).
  pose proof (vars_declared_created self) as Hv. fold self' in Hv.
  unfold _add_constraints. cbn [problem with_problem].
  rewrite set_objective_function_closed by done.
  rewrite add_daily_minimum_constraints_closed by done.
  rewrite add_monthly_workday_constraints_closed by done.
  rewrite add_consecutive_workday_constraints_closed by done.
  rewrite add_holiday_request_constraints_closed by done.
  rewrite !extend_extend. done.
Qed.

(** ** The service in closed form *)

Lemma workday_count_app rows1 rows2 :
  workday_count (rows1 ++ rows2) = workday_count rows1 + workday_count rows2.
Proof. unfold workday_count. rewrite filter_app, length_app. lia. Qed.

Lemma assignment_row_work vals db staff date :
  vals (work (staff_id staff) (strftime date)) = Some 1 →
  assignment_row vals db staff date =
  mkShiftAssignment (staff_id staff) date true None true false.
Proof. intros H. unfold assignment_row. by rewrite decide_True. Qed.

Lemma assignment_row_off vals db staff date :
  vals (work (staff_id staff) (strftime date)) ≠ Some 1 →
  assignment_row vals db staff date =
  mkShiftAssignment (staff_id staff) date false (default_holiday db) true false.
Proof. intros H. unfold assignment_row. by rewrite decide_False. Qed.

Lemma assignments_to_create_closed self p db :
  vars_declared self →
  assignments_to_create self p db =
  (assignment_rows self (varValue p) db,
   workday_count (assignment_rows self (varValue p) db)).
Proof.
  intros Hv. unfold assignments_to_create, assignment_rows.
  apply (for_each_invariant
           (λ pre acc, acc = (flat_map (λ staff, map (assignment_row (varValue p) db staff)
                                          (date_range self)) pre,
                              workday_count (flat_map (λ staff,
                                 map (assignment_row (varValue p) db staff)
                                   (date_range self)) pre)))); [done|].
  intros pre staff acc Hstaff ->. rewrite flat_map_snoc.
  set (rows0 := flat_map _ pre).
  apply (for_each_invariant
           (λ pre' acc, acc = (rows0 ++ map (assignment_row (varValue p) db staff) pre',
                               workday_count (rows0 ++
                                  map (assignment_row (varValue p) db staff) pre')))).
  { by rewrite app_nil_r. }
  intros pre' date acc Hdate ->. cbn zeta. cbn iota beta.
  rewrite (is_working_total self staff date) by done.
  rewrite map_app, app_assoc. cbn [map].
  rewrite (workday_count_app (_ ++ _) [_]).
  fold (default_holiday db).
  case_decide as Hval.
  - rewrite (assignment_row_work _ _ _ _ Hval). done.
  - rewrite (assignment_row_off _ _ _ _ Hval). f_equal.
    change (workday_count [_]) with 0. lia.
Qed.

Lemma log_execution_closed pid action uid description ok t db :
  _log_execution pid action uid description ok t db =
  (Return tt, logged (mkScheduleLog pid action uid description ok t) db).
Proof.
  unfold _log_execution, try_except, ScheduleLog_save, logged.
  by case_decide.
Qed.

Lemma assignment_rows_set_shift_assignment self vals l db :
  assignment_rows self vals (set_shift_assignment l db) = assignment_rows self vals db.
Proof. done. Qed.

Lemma save_results_closed self st vals p db :
  vars_declared self →
  problem self = Some (solved st vals p) →
  st = "Optimal" ∨ st = "Feasible" →
  save_results self db =
  let table := kept_assignments self db ++ assignment_rows self vals db in
  if decide (NoDup (map assignment_key table))
  then (Return (workday_count (assignment_rows self vals db)),
        set_shift_assignment table db)
  else (Raise (mkException "IntegrityError" "UNIQUE constraint failed"), db).
Proof.
  intros Hv Hp Hst. unfold save_results. rewrite Hp.
  rewrite decide_True by done.
  unfold atomic, bind, delete_date_range, bulk_create, ret.
  rewrite assignments_to_create_closed by done. cbn.
  fold (kept_assignments self db).
  rewrite !assignment_rows_set_shift_assignment.
  case_decide; [|done]. by destruct db.
Qed.

Lemma vars_declared_solved self st vals :
  vars_declared
    (with_problem (Some (solved st vals (model self))) (create_optimization_problem self)).
Proof. intros s d Hs Hd. by apply create_decision_variables_lookup. Qed.

(** [generate_schedule] computes [generate_schedule_closed]. *)
Theorem generate_schedule_eq cbc t pid uid db :
  generate_schedule cbc t pid uid db = generate_schedule_closed cbc t pid uid db.
Proof.
  unfold generate_schedule, generate_schedule_closed, try_except, generate_schedule_try.
  unfold bind at 1.
  destruct (ShiftOptimizer_init db pid) as [self|e]; [|unfold generate_schedule_except, bind;
    rewrite log_execution_closed; done].
  unfold solve. rewrite create_optimization_problem_closed.
  destruct (cbc (model self)) as [[st vals]|e].
  - assert (Hsave := λ Hst, save_results_closed
        (with_problem (Some (solved st vals (model self))) (create_optimization_problem self))
        st vals (model self) db (vars_declared_solved self st vals) eq_refl Hst).
    cbn zeta in Hsave.
    change (kept_assignments (with_problem _ (create_optimization_problem self)) db)
      with (kept_assignments self db) in Hsave.
    change (assignment_rows (with_problem _ (create_optimization_problem self)) vals db)
      with (assignment_rows self vals db) in Hsave.
    destruct (decide (st = "Optimal")) as [Ho|Ho].
    + rewrite (decide_True (P := _ ∨ _)) by tauto. cbn [negb].
      unfold bind at 1. rewrite Hsave by tauto. cbn zeta.
      case_decide.
      * unfold bind, ret. rewrite log_execution_closed. done.
      * unfold generate_schedule_except, bind. rewrite log_execution_closed. done.
    + destruct (decide (st = "Feasible")) as [Hf|Hf].
      * rewrite (decide_True (P := _ ∨ _)) by tauto. cbn [negb].
        unfold bind at 1. rewrite Hsave by tauto. cbn zeta.
        case_decide.
        -- unfold bind, ret. rewrite log_execution_closed. done.
        -- unfold generate_schedule_except, bind. rewrite log_execution_closed. done.
      * rewrite (decide_False (P := _ ∨ _)) by tauto. cbn [negb].
        unfold bind, ret. rewrite log_execution_closed. done.
  - cbn [negb]. unfold bind, ret. rewrite log_execution_closed. done.
Qed.

(** ** What a run leaves behind *)

Lemma ShiftOptimizer_init_inv db pid self :
  ShiftOptimizer_init db pid = Return self →
  SchedulePeriod_get db pid = Return (period self) ∧
  staff_list self = active_staff db ∧
  date_range self = period_days (period self) ∧
  requests self = _load_shift_requests db (period self) ∧
  requirements self = _load_daily_requirements db (period self).
Proof.
  unfold ShiftOptimizer_init.
  destruct (SchedulePeriod_get db pid) as [period|e]; [|done].
  destruct (_generate_date_range period) as [dates|e] eqn:Hrange; [|done].
  apply _generate_date_range_inv in Hrange as [-> _].
  intros [= <-]. done.
Qed.

(** The optimizer is built for every period the day sequence is produced
    for. *)
Lemma ShiftOptimizer_init_returns db pid period :
  SchedulePeriod_get db pid = Return period →
  end_date period < date_max ∨ end_date period < start_date period →
  ShiftOptimizer_init db pid =
  Return (mkShiftOptimizer period (active_staff db) (period_days period)
            (_load_shift_requests db period) (_load_daily_requirements db period) ∅ None).
Proof.
  intros Hget Hok. unfold ShiftOptimizer_init.
  by rewrite Hget, _generate_date_range_returns.
Qed.

Lemma ShiftOptimizer_init_date_bound db pid self :
  ShiftOptimizer_init db pid = Return self →
  end_date (period self) < date_max ∨ end_date (period self) < start_date (period self).
Proof.
  intros Hinit. pose proof (ShiftOptimizer_init_inv _ _ _ Hinit) as (_ & _ & Hdays & _).
  unfold ShiftOptimizer_init in Hinit.
  destruct (SchedulePeriod_get db pid) as [period|e]; [|done].
  destruct (_generate_date_range period) as [dates|e] eqn:Hrange; [|done].
  apply _generate_date_range_inv in Hrange as [_ Hok].
  by injection Hinit as <-.
Qed.

Lemma SchedulePeriod_get_inv db pid period :
  SchedulePeriod_get db pid = Return period →
  period ∈ schedule_period db ∧ period_id period = pid.
Proof.
  unfold SchedulePeriod_get.
  destruct (filter _ _) as [|p [|q l]] eqn:Hf; [done| |done].
  intros [= <-].
  assert (Hin : p ∈ filter (λ p, period_id p = pid) (schedule_period db))
    by (rewrite Hf; by left).
  by apply list_elem_of_filter in Hin as [? ?].
Qed.

Lemma logged_shift_assignment entry db :
  schedule_shift_assignment (logged entry db) = schedule_shift_assignment db.
Proof. unfold logged. by case_decide. Qed.

Lemma logged_log entry db :
  log_references_exist entry db →
  schedule_log (logged entry db) = schedule_log db ++ [entry].
Proof. intros H. unfold logged. by rewrite decide_True. Qed.

Lemma failure_result_success message :
  failure_result message !! "success" = Some (PyBool false).
Proof. done. Qed.

(** A successful run went through the solver and the insert. *)
Lemma run_succeeded_inv cbc t pid uid db :
  run_succeeded (generate_schedule cbc t pid uid db) →
  ∃ self st vals,
    ShiftOptimizer_init db pid = Return self ∧
    cbc (model self) = Return (st, vals) ∧
    (st = "Optimal" ∨ st = "Feasible") ∧
    NoDup (map assignment_key (kept_assignments self db ++ assignment_rows self vals db)) ∧
    schedule_shift_assignment (generate_schedule cbc t pid uid db).2 =
      kept_assignments self db ++ assignment_rows self vals db ∧
    (generate_schedule cbc t pid uid db).1 =
      Return (success_result (workday_count (assignment_rows self vals db)) t).
Proof.
  rewrite generate_schedule_eq. unfold generate_schedule_closed.
  intros (d & Hd & Hsucc).
  destruct (ShiftOptimizer_init db pid) as [self|e] eqn:Hinit.
  2: { cbn in Hd. injection Hd as <-. by rewrite failure_result_success in Hsucc. }
  destruct (cbc (model self)) as [[st vals]|e] eqn:Hcbc.
  2: { cbn in Hd. injection Hd as <-. by rewrite failure_result_success in Hsucc. }
  destruct (decide (st = "Optimal" ∨ st = "Feasible")) as [Hst|Hst].
  2: { cbn in Hd. injection Hd as <-. by rewrite failure_result_success in Hsucc. }
  cbn zeta in *.
  destruct (decide (NoDup _)) as [Hnd|Hnd].
  2: { cbn in Hd. injection Hd as <-. by rewrite failure_result_success in Hsucc. }
  exists self, st, vals. cbn [fst snd]. rewrite logged_shift_assignment. done.
Qed.

(** ** List facts *)

Lemma filter_all {A} (P : A → Prop) `{!∀ x, Decision (P x)} (l : list A) :
  Forall P l → filter P l = l.
Proof.
  induction 1 as [|x l Hx _ IH]; [done|].
  rewrite filter_cons_True by done. by rewrite IH.
Qed.

Lemma filter_none {A} (P : A → Prop) `{!∀ x, Decision (P x)} (l : list A) :
  Forall (λ x, ¬ P x) l → filter P l = [].
Proof.
  induction 1 as [|x l Hx _ IH]; [done|].
  by rewrite filter_cons_False.
Qed.

(** A key that is unique in a list selects exactly one element. *)
Lemma filter_unique_key {A K} `{EqDecision K} (key : A → K) (l : list A) (x : A) :
  NoDup (map key l) → x ∈ l → filter (λ a, key a = key x) l = [x].
Proof.
  induction l as [|y l IH]; intros Hnd Hx; [by apply elem_of_nil in Hx|].
  cbn in Hnd. apply NoDup_cons in Hnd as [Hy Hnd].
  apply elem_of_cons in Hx as [->|Hx].
  - rewrite filter_cons_True by done. f_equal.
    apply filter_none, Forall_forall. intros a Ha Heq.
    apply Hy. rewrite <- Heq. apply list_elem_of_In, in_map. by apply list_elem_of_In.
  - rewrite filter_cons_False; [by apply IH|].
    intros Heq. apply Hy. rewrite Heq.
    apply list_elem_of_In, in_map. by apply list_elem_of_In.
Qed.

Lemma length_flat_map_const {A B} (g : A → list B) (l : list A) (n : nat) :
  (∀ x, x ∈ l → length (g x) = n) → length (flat_map g l) = (length l * n)%nat.
Proof.
  induction l as [|x l IH]; intros Hg; [done|].
  cbn. rewrite length_app, Hg by (by left). f_equal. apply IH.
  intros y Hy. apply Hg. by right.
Qed.

Lemma elem_of_flat_map {A B} (g : A → list B) (l : list A) (b : B) :
  b ∈ flat_map g l ↔ ∃ x, x ∈ l ∧ b ∈ g x.
Proof.
  rewrite list_elem_of_In, in_flat_map. split; intros (x & Hx & Hb); exists x;
    by rewrite ?list_elem_of_In in *.
Qed.

(** ** The rows of a run *)

Lemma assignment_row_key vals db s d :
  assignment_key (assignment_row vals db s d) = (staff_id s, d).
Proof. unfold assignment_row. by case_decide. Qed.

Lemma assignment_row_is_workday vals db s d :
  is_workday (assignment_row vals db s d) = true ↔
  vals (work (staff_id s) (strftime d)) = Some 1.
Proof. unfold assignment_row. case_decide; cbn; naive_solver. Qed.

Lemma elem_of_assignment_rows self vals db a :
  a ∈ assignment_rows self vals db ↔
  ∃ s d, s ∈ staff_list self ∧ d ∈ date_range self ∧ a = assignment_row vals db s d.
Proof.
  unfold assignment_rows. rewrite elem_of_flat_map. split.
  - intros (s & Hs & Ha). apply list_elem_of_In, in_map_iff in Ha as (d & <- & Hd).
    apply list_elem_of_In in Hd. by exists s, d.
  - intros (s & d & Hs & Hd & ->). exists s. split; [done|].
    apply list_elem_of_In, in_map. by apply list_elem_of_In.
Qed.

Lemma length_assignment_rows self vals db :
  length (assignment_rows self vals db) =
  (length (staff_list self) * length (date_range self))%nat.
Proof.
  unfold assignment_rows. apply length_flat_map_const.
  intros s _. by rewrite length_map.
Qed.

(** After a run, the assignments of the period are exactly the new rows. *)
Lemma period_assignments_rows self vals db :
  date_range self = period_days (period self) →
  filter (in_date_range (start_date (period self)) (end_date (period self)))
    (kept_assignments self db ++ assignment_rows self vals db) =
  assignment_rows self vals db.
Proof.
  intros Hrange. rewrite filter_app.
  rewrite (filter_none _ (kept_assignments self db)), app_nil_l.
  - apply filter_all, Forall_forall. intros a (s & d & Hs & Hd & ->)%elem_of_assignment_rows.
    rewrite Hrange in Hd. apply elem_of_date_range in Hd.
    unfold in_date_range. pose proof (assignment_row_key vals db s d) as Hk.
    unfold assignment_key in Hk. injection Hk as _ ->. done.
  - apply Forall_forall. intros a Ha. unfold kept_assignments in Ha.
    by apply list_elem_of_filter in Ha as [? _].
Qed.

(** ** The assignments of a successful run *)

(** C3. After a successful run, the assignments of the period hold exactly
    one row per active worker and day: their number is the number of active
    workers times the number of days from the start date to the end date
    inclusive, every (active worker, day) pair has exactly one row, and
    every row belongs to an active worker. *)
Theorem successful_run_one_row_per_worker_and_day cbc t pid uid db :
  run_succeeded (generate_schedule cbc t pid uid db) →
  ∃ period,
    SchedulePeriod_get db pid = Return period ∧
    let persisted := period_assignments period (generate_schedule cbc t pid uid db).2 in
    length persisted =
      (length (active_staff db) *
       Z.to_nat (end_date period - start_date period + 1))%nat ∧
    (∀ s d, s ∈ active_staff db → start_date period ≤ d ≤ end_date period →
       length (filter (λ a, assignment_key a = (staff_id s, d)) persisted) = 1%nat) ∧
    (∀ a, a ∈ persisted → ∃ s, s ∈ active_staff db ∧ assignment_staff a = staff_id s).
Proof.
  intros (self & st & vals & Hinit & _ & _ & Hnd & Htable & _)%run_succeeded_inv.
  apply ShiftOptimizer_init_inv in Hinit as (Hget & Hstaff & Hrange & _ & _).
  exists (period self). split; [done|]. cbn zeta.
  unfold period_assignments. rewrite Htable, period_assignments_rows by done.
  rewrite map_app in Hnd. apply NoDup_app in Hnd as (_ & _ & Hnd).
  split; [|split].
  - by rewrite length_assignment_rows, Hstaff, Hrange, length_date_range.
  - intros s d Hs Hd.
    rewrite <- (assignment_row_key vals db s d).
    rewrite (filter_unique_key assignment_key); [done..|].
    apply elem_of_assignment_rows. exists s, d.
    by rewrite Hstaff, Hrange, elem_of_date_range.
  - intros a (s & d & Hs & _ & ->)%elem_of_assignment_rows.
    exists s. rewrite <- Hstaff. split; [done|].
    pose proof (assignment_row_key vals db s d) as Hk. by injection Hk.
Qed.

Lemma successful_run_one_row_per_worker_and_day_witness :
  run_succeeded (generate_schedule demo_cbc 1.5 1 (Some 1) demo_db) ∧
  length (period_assignments demo_period
            (generate_schedule demo_cbc 1.5 1 (Some 1) demo_db).2) = 8%nat ∧
  length (filter (λ a, assignment_key a = (10, 101))
            (period_assignments demo_period
               (generate_schedule demo_cbc 1.5 1 (Some 1) demo_db).2)) = 1%nat.
Proof.
  assert (Hrun : run_succeeded (generate_schedule demo_cbc 1.5 1 (Some 1) demo_db)).
  { exists (success_result 1 1.5). split; reflexivity. }
  split; [exact Hrun|].
  destruct (successful_run_one_row_per_worker_and_day _ _ _ _ _ Hrun)
    as (period & Hget & Hlen & Hone & _).
  assert (period = demo_period) as -> by (by injection Hget).
  split.
  - rewrite Hlen. reflexivity.
  - apply (Hone demo_staff_10 101); [by left | done].
Defined.

(** ** Loading a table into a dict *)

Section LoadDict.
Context {A K V : Type} `{Countable K} (key : A → K) (val : A → V).

Lemma load_lookup_notin (l : list A) (m : gmap K V) (k : K) :
  k ∉ map key l →
  for_each l (λ x m, <[key x := val x]> m) m !! k = m !! k.
Proof.
  revert m. induction l as [|x l IH]; intros m Hk; [done|].
  cbn in *. apply not_elem_of_cons in Hk as [Hne Hk].
  unfold for_each in IH. rewrite IH by done. by rewrite lookup_insert_ne.
Qed.

(** With unique keys every row is found under its key. *)
Lemma load_lookup_unique (l : list A) (m : gmap K V) (x : A) :
  NoDup (map key l) → x ∈ l →
  for_each l (λ x m, <[key x := val x]> m) m !! key x = Some (val x).
Proof.
  revert m. induction l as [|y l IH]; intros m Hnd Hx; [by apply elem_of_nil in Hx|].
  cbn in Hnd. apply NoDup_cons in Hnd as [Hy Hnd].
  apply elem_of_cons in Hx as [->|Hx]; cbn.
  - pose proof (load_lookup_notin l (<[key y := val y]> m) (key y) Hy) as Hl.
    unfold for_each in Hl. rewrite Hl. by rewrite lookup_insert_eq.
  - unfold for_each in IH. by apply IH.
Qed.

(** Whatever is found under a key was put there by some row. *)
Lemma load_lookup_inv (l : list A) (m : gmap K V) (k : K) (v : V) :
  for_each l (λ x m, <[key x := val x]> m) m !! k = Some v →
  m !! k = Some v ∨ ∃ x, x ∈ l ∧ key x = k ∧ val x = v.
Proof.
  revert m. induction l as [|y l IH]; intros m Hl; [by left|].
  cbn in Hl. unfold for_each in IH. apply IH in Hl as [Hl | (x & Hx & Hk & Hv)].
  - destruct (decide (key y = k)) as [Heq|Hne].
    + rewrite <- Heq, lookup_insert_eq in Hl. injection Hl as <-.
      right. exists y. split; [by left | done].
    + rewrite lookup_insert_ne in Hl by done. by left.
  - right. exists x. split; [by right | done].
Qed.
End LoadDict.

Lemma NoDup_map_filter {A K} (key : A → K) (P : A → Prop) `{!∀ x, Decision (P x)}
    (l : list A) :
  NoDup (map key l) → NoDup (map key (filter P l)).
Proof.
  induction l as [|x l IH]; intros Hnd; [done|].
  cbn in Hnd. apply NoDup_cons in Hnd as [Hx Hnd].
  destruct (decide (P x)).
  - rewrite filter_cons_True by done. cbn. apply NoDup_cons. split; [|by apply IH].
    intros Hin. apply Hx.
    apply list_elem_of_In, in_map_iff in Hin as (y & Hy & Hin).
    apply list_elem_of_In, list_elem_of_filter in Hin as [_ Hin].
    rewrite <- Hy. apply list_elem_of_In, in_map. by apply list_elem_of_In.
  - rewrite filter_cons_False by done. by apply IH.
Qed.

(** A submitted preference is what the optimizer finds in [requests]. *)
Lemma load_shift_requests_lookup db period r :
  requests_unique db →
  r ∈ schedule_shift_request db → request_period r = period_id period →
  _load_shift_requests db period !! (request_staff r, request_date r) = Some (priority r).
Proof.
  intros Hu Hr Hp. unfold _load_shift_requests.
  apply (load_lookup_unique request_key priority).
  - by apply NoDup_map_filter.
  - by apply list_elem_of_filter.
Qed.

Lemma load_shift_requests_inv db period k z :
  _load_shift_requests db period !! k = Some z →
  ∃ r, r ∈ schedule_shift_request db ∧ request_period r = period_id period ∧
       request_key r = k ∧ priority r = z.
Proof.
  unfold _load_shift_requests. intros Hl.
  apply (load_lookup_inv request_key priority) in Hl as [Hl | (r & Hr & Hk & Hv)];
    [by rewrite lookup_empty in Hl|].
  apply list_elem_of_filter in Hr as [Hp Hr]. by exists r.
Qed.

(** ** Forced days off *)

Lemma elem_of_holiday_request_constraints self s d :
  s ∈ staff_list self → d ∈ date_range self →
  requests self !! (staff_id s, d) = Some 1 →
  holiday_constraint s d ∈ holiday_request_constraints self.
Proof.
  intros Hs Hd Hreq. unfold holiday_request_constraints.
  apply elem_of_flat_map. exists s. split; [done|].
  apply elem_of_flat_map. exists d. split; [done|].
  unfold holiday_request_constraint. rewrite decide_True by done. by left.
Qed.

Lemma holds_holiday_constraint vals s d :
  holds vals (holiday_constraint s d) → vals (work (staff_id s) (strftime d)) ≠ Some 1.
Proof.
  unfold holds, holiday_constraint, expr_value, value. cbn.
  intros Hv Hone. rewrite Hone in Hv. cbn in Hv. lia.
Qed.

Lemma kept_assignments_out_of_range self db a :
  a ∈ kept_assignments self db →
  ¬ in_date_range (start_date (period self)) (end_date (period self)) a.
Proof. unfold kept_assignments. by intros [? _]%list_elem_of_filter. Qed.

(** C1. A submitted preference with priority 1 of an active worker for a
    day of the period puts the equality constraint [var == 0] on that
    pair's variable into the constructed model; after a successful run
    whose solver answer satisfies the model, the table holds an assignment
    for that worker and day, and it is not a work day. *)
Theorem off_request_is_forced_day_off cbc t pid uid db self s r :
  ShiftOptimizer_init db pid = Return self →
  requests_unique db →
  s ∈ active_staff db →
  r ∈ schedule_shift_request db →
  request_period r = pid → request_staff r = staff_id s → priority r = 1 →
  start_date (period self) ≤ request_date r ≤ end_date (period self) →
  ∃ p,
    problem (create_optimization_problem self) = Some p ∧
    mkLpConstraint (holiday_request (staff_id s) (strftime (request_date r)))
      [(1, work (staff_id s) (strftime (request_date r)))] LpConstraintEQ 0
      ∈ constraints p ∧
    (run_succeeded (generate_schedule cbc t pid uid db) → solver_sound cbc p →
     let persisted := schedule_shift_assignment (generate_schedule cbc t pid uid db).2 in
     (∃ a, a ∈ persisted ∧ assignment_key a = (staff_id s, request_date r)) ∧
     (∀ a, a ∈ persisted → assignment_key a = (staff_id s, request_date r) →
           is_workday a = false)).
Proof.
  intros Hinit Hu Hs Hr Hpid Hstaff Hprio Hday.
  pose proof Hinit as (Hget & Hsl & Hrange & Hreq & _)%ShiftOptimizer_init_inv.
  apply SchedulePeriod_get_inv in Hget as [_ Hpid'].
  assert (Hlookup : requests self !! (staff_id s, request_date r) = Some 1).
  { rewrite Hreq, <- Hstaff, <- Hprio. apply load_shift_requests_lookup; congruence. }
  assert (Hd : request_date r ∈ date_range self)
    by (by rewrite Hrange, elem_of_date_range).
  assert (Hc : holiday_constraint s (request_date r) ∈ constraints (model self)).
  { cbn. unfold model_constraints. rewrite !elem_of_app. do 3 right.
    apply elem_of_holiday_request_constraints; [by rewrite Hsl | done..]. }
  exists (model self). split; [apply create_optimization_problem_closed|].
  split; [exact Hc|].
  intros (self' & st & vals & Hinit' & Hcbc & Hst & _ & Htable & _)%run_succeeded_inv Hsound.
  rewrite Hinit in Hinit'. injection Hinit' as <-.
  cbn zeta. rewrite Htable.
  destruct (Hsound st vals Hcbc Hst) as [Hholds _].
  rewrite Forall_forall in Hholds. apply Hholds, holds_holiday_constraint in Hc.
  split.
  - exists (assignment_row vals db s (request_date r)). split.
    + apply elem_of_app. right. apply elem_of_assignment_rows.
      exists s, (request_date r). by rewrite Hsl.
    + apply assignment_row_key.
  - intros a [Ha | Ha]%elem_of_app Hkey.
    + apply kept_assignments_out_of_range in Ha. exfalso. apply Ha.
      unfold in_date_range. injection Hkey as _ ->. done.
    + apply elem_of_assignment_rows in Ha as (s' & d' & _ & _ & ->).
      rewrite assignment_row_key in Hkey. injection Hkey as Hs' ->.
      apply not_true_is_false. rewrite assignment_row_is_workday, Hs'. done.
Qed.

(** ** The sample installation *)

Lemma demo_self_init : ShiftOptimizer_init demo_db 1 = Return demo_self.
Proof. reflexivity. Qed.

Lemma demo_cbc_sound : solver_sound demo_cbc (model demo_self).
Proof. intros st vals [= <- <-] _. by_evaluation. Qed.

Lemma off_request_is_forced_day_off_witness :
  ShiftOptimizer_init demo_db 1 = Return demo_self ∧
  requests_unique demo_db ∧
  demo_staff_10 ∈ active_staff demo_db ∧
  demo_off_request ∈ schedule_shift_request demo_db ∧
  run_succeeded (generate_schedule demo_cbc 1.5 1 (Some 1) demo_db) ∧
  solver_sound demo_cbc (model demo_self) ∧
  ∀ a, a ∈ schedule_shift_assignment (generate_schedule demo_cbc 1.5 1 (Some 1) demo_db).2 →
       assignment_key a = (10, 101) → is_workday a = false.
Proof.
  assert (Hu : requests_unique demo_db) by by_evaluation.
  assert (Hs : demo_staff_10 ∈ active_staff demo_db) by (by left).
  assert (Hr : demo_off_request ∈ schedule_shift_request demo_db) by (by left).
  assert (Hrun : run_succeeded (generate_schedule demo_cbc 1.5 1 (Some 1) demo_db)).
  { exists (success_result 1 1.5). split; reflexivity. }
  pose proof demo_cbc_sound as Hsound.
  do 6 (split; [done|]).
  destruct (off_request_is_forced_day_off demo_cbc 1.5 1 (Some 1) demo_db demo_self
              demo_staff_10 demo_off_request demo_self_init Hu Hs Hr eq_refl eq_refl eq_refl
              ltac:(done))
    as (p & Hp & _ & Hoff).
  rewrite create_optimization_problem_closed in Hp. injection Hp as <-.
  apply (Hoff Hrun Hsound).
Defined.

(** ** Minimum staffing *)

Lemma load_daily_requirements_lookup db period q :
  requirements_unique db →
  q ∈ schedule_daily_requirement db → requirement_period q = period_id period →
  _load_daily_requirements db period !! (requirement_date q, requirement_job_type q) =
  Some (mkRequirementEntry (min_staff_count q) (required_staff_count q)).
Proof.
  intros Hu Hq Hp. unfold _load_daily_requirements.
  apply (load_lookup_unique requirement_key
           (λ q, mkRequirementEntry (min_staff_count q) (required_staff_count q))).
  - by apply NoDup_map_filter.
  - by apply list_elem_of_filter.
Qed.

Lemma elem_of_get_all_job_type_ids self j :
  j ∈ _get_all_job_type_ids self ↔ ∃ s, s ∈ staff_list self ∧ job_type s = Some j.
Proof.
  unfold _get_all_job_type_ids. rewrite elem_of_remove_dups, list_elem_of_omap. done.
Qed.

(** The constraint [_add_daily_minimum_constraints] adds for a day and a
    job type that some listed worker has. *)
Lemma elem_of_daily_minimum_constraints self d j req :
  d ∈ date_range self →
  (∃ s, s ∈ staff_list self ∧ job_type s = Some j) →
  requirements self !! (d, j) = Some req →
  mkLpConstraint (daily_min d j) (lpSum_vars (staff_vars self d j)) LpConstraintGE
    (Z.of_nat (min_count req)) ∈ daily_minimum_constraints self.
Proof.
  intros Hd Hj Hreq. unfold daily_minimum_constraints.
  apply elem_of_flat_map. exists d. split; [done|].
  apply elem_of_flat_map. exists j. split; [by apply elem_of_get_all_job_type_ids|].
  unfold daily_minimum_constraint. rewrite Hreq.
  destruct Hj as (s & Hs & Hjt).
  assert (Hin : work (staff_id s) (strftime d) ∈ staff_vars self d j).
  { unfold staff_vars. apply list_elem_of_In, in_map_iff. exists s. split; [done|].
    apply list_elem_of_In, list_elem_of_filter. done. }
  destruct (staff_vars self d j) as [|x l]; [by apply elem_of_nil in Hin | by left].
Qed.

Lemma elem_of_variables p c k x :
  c ∈ constraints p → (k, x) ∈ constraint_expr c → x ∈ variables p.
Proof.
  intros Hc Hx. unfold variables. apply elem_of_app. right.
  apply elem_of_flat_map. exists c. split; [done|].
  apply list_elem_of_In, in_map_iff. exists (k, x). by rewrite <- list_elem_of_In.
Qed.

Lemma filter_length_pos {A} (P : A → Prop) `{!∀ x, Decision (P x)} (l : list A) (x : A) :
  x ∈ l → P x → (1 ≤ length (filter P l))%nat.
Proof.
  intros Hx HP. assert (Hin : x ∈ filter P l) by (by apply list_elem_of_filter).
  destruct (filter P l); [by apply elem_of_nil in Hin | cbn; lia].
Qed.

(** With unique primary keys the join finds the worker itself. *)
Lemma staff_job_type_of_row db s :
  staff_ids_unique db → s ∈ schedule_staff_profile db →
  staff_job_type db (staff_id s) = job_type s.
Proof.
  intros Hu Hs. unfold staff_job_type.
  by rewrite (filter_unique_key staff_id _ s Hu Hs).
Qed.

(** The sum a staffing constraint bounds counts work days: it is at most the
    number of work-day rows written for the workers of the job type. *)
Lemma staff_vars_value_le_rows vals db (P : ShiftAssignment → Prop)
    `{!∀ a, Decision (P a)} (dates : list Z) (d j : Z) (l : list StaffProfile) :
  d ∈ dates →
  (∀ s, s ∈ l → job_type s = Some j →
        vals (work (staff_id s) (strftime d)) = Some 0 ∨
        vals (work (staff_id s) (strftime d)) = Some 1) →
  (∀ s, s ∈ l → job_type s = Some j →
        vals (work (staff_id s) (strftime d)) = Some 1 → P (assignment_row vals db s d)) →
  expr_value vals
    (lpSum_vars (map (λ s, work (staff_id s) (strftime d))
                   (filter (λ s, job_type s = Some j) l))) ≤
  Z.of_nat (length (filter P (flat_map (λ s, map (assignment_row vals db s) dates) l))).
Proof.
  intros Hd. induction l as [|s l IH]; intros Hbin HP; [done|].
  cbn [flat_map]. rewrite filter_app, length_app, Nat2Z.inj_add.
  assert (IH' := IH (λ s' Hs', Hbin s' (list_elem_of_further _ _ _ Hs'))
                    (λ s' Hs', HP s' (list_elem_of_further _ _ _ Hs'))).
  destruct (decide (job_type s = Some j)) as [Hj|Hj].
  - rewrite filter_cons_True by done.
    change (expr_value vals (lpSum_vars (map ?f (s :: ?L))))
      with (1 * value vals (f s) + expr_value vals (lpSum_vars (map f L))).
    destruct (Hbin s ltac:(by left) Hj) as [Hv|Hv]; unfold value at 1; rewrite Hv; cbn [default from_option]; unfold id.
    + lia.
    + assert (1 ≤ length (filter P (map (assignment_row vals db s) dates)))%nat.
      { apply (filter_length_pos P _ (assignment_row vals db s d)).
        - apply list_elem_of_In, in_map. by apply list_elem_of_In.
        - apply HP; [by left | done..]. }
      lia.
  - rewrite filter_cons_False by done. lia.
Qed.

Lemma holds_GE vals name e rhs :
  holds vals (mkLpConstraint name e LpConstraintGE rhs) → rhs ≤ expr_value vals e.
Proof. done. Qed.

(** A run never touches the staff table. *)
Lemma generate_schedule_staff_profile cbc t pid uid db :
  schedule_staff_profile (generate_schedule cbc t pid uid db).2 = schedule_staff_profile db.
Proof.
  rewrite generate_schedule_eq. unfold generate_schedule_closed, except_path, failure_path.
  assert (Hlog : ∀ e db', schedule_staff_profile (logged e db') = schedule_staff_profile db')
    by (intros; unfold logged; by case_decide).
  destruct (ShiftOptimizer_init db pid); [|apply Hlog].
  destruct (cbc (model a)) as [[st vals]|e]; [|apply Hlog].
  repeat case_decide; cbn; by rewrite Hlog.
Qed.

Lemma elem_of_lpSum_vars x vars : x ∈ vars → (1, x) ∈ lpSum_vars vars.
Proof.
  intros Hx. unfold lpSum_vars. apply list_elem_of_In, in_map_iff.
  exists x. by rewrite <- list_elem_of_In.
Qed.

(** C2, amended. A recorded requirement for a day of the period and a job
    type that at least one active worker has puts into the constructed
    model the constraint that the variables of the active workers of that
    job type on that day sum to at least the minimum count; after a
    successful run whose solver answer satisfies the model, at least that
    many work-day assignments of the job type exist on that day. *)
Theorem daily_minimum_is_enforced cbc t pid uid db self q :
  ShiftOptimizer_init db pid = Return self →
  requirements_unique db →
  q ∈ schedule_daily_requirement db →
  requirement_period q = pid →
  start_date (period self) ≤ requirement_date q ≤ end_date (period self) →
  (∃ s, s ∈ active_staff db ∧ job_type s = Some (requirement_job_type q)) →
  ∃ p,
    problem (create_optimization_problem self) = Some p ∧
    mkLpConstraint (daily_min (requirement_date q) (requirement_job_type q))
      (lpSum_vars
         (map (λ s, work (staff_id s) (strftime (requirement_date q)))
            (filter (λ s, job_type s = Some (requirement_job_type q)) (active_staff db))))
      LpConstraintGE (Z.of_nat (min_staff_count q)) ∈ constraints p ∧
    (run_succeeded (generate_schedule cbc t pid uid db) → solver_sound cbc p →
     staff_ids_unique db →
     (min_staff_count q ≤
      length (workday_assignments (generate_schedule cbc t pid uid db).2
                (requirement_date q) (requirement_job_type q)))%nat).
Proof.
  intros Hinit Hu Hq Hpid Hday Hworker.
  set (d := requirement_date q) in *. set (j := requirement_job_type q) in *.
  pose proof Hinit as (Hget & Hsl & Hrange & _ & Hreqs)%ShiftOptimizer_init_inv.
  apply SchedulePeriod_get_inv in Hget as [_ Hpid'].
  assert (Hlookup : requirements self !! (d, j) =
            Some (mkRequirementEntry (min_staff_count q) (required_staff_count q))).
  { rewrite Hreqs. apply load_daily_requirements_lookup; congruence. }
  assert (Hd : d ∈ date_range self) by (by rewrite Hrange, elem_of_date_range).
  assert (Hc : mkLpConstraint (daily_min d j) (lpSum_vars (staff_vars self d j))
                 LpConstraintGE (Z.of_nat (min_staff_count q)) ∈ constraints (model self)).
  { cbn. unfold model_constraints. rewrite !elem_of_app. left.
    apply (elem_of_daily_minimum_constraints self d j _ Hd ltac:(by rewrite Hsl) Hlookup). }
  exists (model self). split; [apply create_optimization_problem_closed|].
  split; [unfold staff_vars in Hc; by rewrite Hsl in Hc|].
  intros (self' & st & vals & Hinit' & Hcbc & Hst & _ & Htable & _)%run_succeeded_inv
    Hsound Hids.
  rewrite Hinit in Hinit'. injection Hinit' as <-.
  destruct (Hsound st vals Hcbc Hst) as [Hholds Hbinary].
  rewrite Forall_forall in Hholds. rewrite Forall_forall in Hbinary.
  pose proof (holds_GE _ _ _ _ (Hholds _ Hc)) as Hsum.
  unfold workday_assignments, staff_job_type.
  rewrite generate_schedule_staff_profile, Htable, filter_app, length_app.
  match goal with
  | |- (_ ≤ _ + length ?rows)%nat =>
      enough (expr_value vals (lpSum_vars (staff_vars self d j)) ≤ Z.of_nat (length rows))
        by lia
  end.
  unfold staff_vars, assignment_rows.
  apply staff_vars_value_le_rows; [done| |].
  - intros s Hs Hj. apply Hbinary.
    apply (elem_of_variables _ _ 1 _ Hc). cbn. apply elem_of_lpSum_vars.
    unfold staff_vars. apply list_elem_of_In, in_map_iff. exists s. split; [done|].
    apply list_elem_of_In, list_elem_of_filter. done.
  - intros s Hs Hj Hone.
    pose proof (assignment_row_key vals db s d) as Hk. injection Hk as Hks Hkd.
    rewrite Hks, Hkd, assignment_row_is_workday. split; [done|]. split; [done|].
    assert (Hjt : staff_job_type db (staff_id s) = job_type s).
    { apply staff_job_type_of_row; [done|].
      rewrite Hsl in Hs. unfold active_staff in Hs.
      by apply list_elem_of_filter in Hs as [_ ?]. }
    unfold staff_job_type in Hjt. by rewrite Hjt.
Qed.

Lemma daily_minimum_is_enforced_witness :
  ShiftOptimizer_init demo_db 1 = Return demo_self ∧
  requirements_unique demo_db ∧
  demo_requirement ∈ schedule_daily_requirement demo_db ∧
  (∃ s, s ∈ active_staff demo_db ∧ job_type s = Some 7) ∧
  run_succeeded (generate_schedule demo_cbc 1.5 1 (Some 1) demo_db) ∧
  solver_sound demo_cbc (model demo_self) ∧
  staff_ids_unique demo_db ∧
  (1 ≤ length (workday_assignments
                 (generate_schedule demo_cbc 1.5 1%Z (Some 1%Z) demo_db).2 101%Z 7%Z))%nat.
Proof.
  assert (Hu : requirements_unique demo_db) by by_evaluation.
  assert (Hq : demo_requirement ∈ schedule_daily_requirement demo_db) by (by left).
  assert (Hw : ∃ s, s ∈ active_staff demo_db ∧ job_type s = Some 7).
  { exists demo_staff_10. split; [by left | done]. }
  assert (Hrun : run_succeeded (generate_schedule demo_cbc 1.5 1 (Some 1) demo_db)).
  { exists (success_result 1 1.5). split; reflexivity. }
  pose proof demo_cbc_sound as Hsound.
  assert (Hids : staff_ids_unique demo_db) by by_evaluation.
  do 7 (split; [done|]).
  destruct (daily_minimum_is_enforced demo_cbc 1.5 1 (Some 1) demo_db demo_self
              demo_requirement demo_self_init Hu Hq eq_refl ltac:(done) Hw)
    as (p & Hp & _ & Hmin).
  rewrite create_optimization_problem_closed in Hp. injection Hp as <-.
  apply (Hmin Hrun Hsound Hids).
Defined.

Lemma unstaffed_self_init : ShiftOptimizer_init unstaffed_db 1 = Return unstaffed_self.
Proof. reflexivity. Qed.

(** C2 as stated fails: a requirement is recorded for a clerk on day 101,
    no active worker is a clerk, the model has no constraint for it, the
    solver answer satisfies the model, the run succeeds, and no clerk works
    that day although one is required. *)
Lemma requirement_without_active_worker_not_enforced :
  unstaffed_requirement ∈ schedule_daily_requirement unstaffed_db ∧
  min_staff_count unstaffed_requirement = 1%nat ∧
  requirements_unique unstaffed_db ∧
  ShiftOptimizer_init unstaffed_db 1 = Return unstaffed_self ∧
  problem (create_optimization_problem unstaffed_self) = Some (model unstaffed_self) ∧
  Forall (λ c, constraint_name c ≠ daily_min 101 8) (constraints (model unstaffed_self)) ∧
  feasible (model unstaffed_self) demo_vals ∧
  run_succeeded (generate_schedule demo_cbc 1.5 1 (Some 1) unstaffed_db) ∧
  workday_assignments (generate_schedule demo_cbc 1.5 1 (Some 1) unstaffed_db).2 101 8 = [].
Proof.
  split; [by right; left|]. split; [done|]. split; [by_evaluation|].
  split; [reflexivity|]. split; [apply create_optimization_problem_closed|].
  split; [by_evaluation|]. split; [by_evaluation|].
  split; [exists (success_result 1 1.5); split; reflexivity | reflexivity].
Qed.

(** ** The objective *)

Lemma flat_map_ext_elem {A B} (g1 g2 : A → list B) (l : list A) :
  (∀ x, x ∈ l → g1 x = g2 x) → flat_map g1 l = flat_map g2 l.
Proof.
  induction l as [|x l IH]; intros Hext; [done|].
  cbn. rewrite Hext by (by left). f_equal. apply IH.
  intros y Hy. apply Hext. by right.
Qed.

(** With a valid priority the term of a (worker, day) pair is its
    preference weight times its variable. *)
Lemma objective_term_weighted self staff date :
  (∀ z, requests self !! (staff_id staff, date) = Some z → 1 ≤ z ≤ 3) →
  objective_term self staff date =
  [(preference_weight (preference self staff date), work (staff_id staff) (strftime date))].
Proof.
  intros Hvalid. unfold objective_term, preference. cbn zeta.
  destruct (requests self !! (staff_id staff, date)) as [z|]; cbn; [|done].
  specialize (Hvalid z eq_refl). unfold Priority_of_Z.
  repeat case_decide; try done; lia.
Qed.

(** C4. For valid priorities the objective of the constructed model is the
    sum, over every (worker, day) decision variable, of the weight of that
    worker's preference for that day times the variable: -100 for
    off-requested, +1 for available, which is also the default when no
    preference was submitted, and +10 for strongly-wants-to-work. *)
Theorem objective_is_weighted_preference_sum db pid self :
  ShiftOptimizer_init db pid = Return self →
  priorities_valid db →
  ∃ p,
    problem (create_optimization_problem self) = Some p ∧
    objective p = weighted_preferences self ∧
    preference_weight OffRequested = -100 ∧
    preference_weight Available = 1 ∧
    preference_weight StronglyWantsToWork = 10 ∧
    (∀ staff date, requests self !! (staff_id staff, date) = None →
                   preference self staff date = Available).
Proof.
  intros Hinit Hvalid.
  apply ShiftOptimizer_init_inv in Hinit as (_ & _ & _ & Hreq & _).
  exists (model self). split; [apply create_optimization_problem_closed|].
  split; [|repeat split; intros staff date Hnone; unfold preference; by rewrite Hnone].
  cbn. unfold objective_terms, weighted_preferences.
  apply flat_map_ext_elem. intros staff _.
  rewrite <- flat_map_singleton. apply flat_map_ext_elem. intros date _.
  apply objective_term_weighted. intros z Hz. rewrite Hreq in Hz.
  apply load_shift_requests_inv in Hz as (r & Hr & _ & _ & <-).
  unfold priorities_valid in Hvalid. rewrite Forall_forall in Hvalid. by apply Hvalid.
Qed.

Lemma objective_is_weighted_preference_sum_witness :
  ShiftOptimizer_init demo_db 1 = Return demo_self ∧
  priorities_valid demo_db ∧
  ∃ p,
    problem (create_optimization_problem demo_self) = Some p ∧
    objective p =
      [(1, work 10 100); (-100, work 10 101); (1, work 10 102); (1, work 10 103);
       (1, work 11 100); (10, work 11 101); (1, work 11 102); (1, work 11 103)].
Proof.
  assert (Hvalid : priorities_valid demo_db) by by_evaluation.
  split; [reflexivity|]. split; [exact Hvalid|].
  destruct (objective_is_weighted_preference_sum demo_db 1 demo_self demo_self_init Hvalid)
    as (p & Hp & Hobj & _).
  exists p. split; [done|]. rewrite Hobj. reflexivity.
Defined.

(** ** Constraint names never overlap *)

Lemma map_flat_map {A B C} (f : B → C) (g : A → list B) (l : list A) :
  map f (flat_map g l) = flat_map (λ x, map f (g x)) l.
Proof. induction l as [|x l IH]; cbn; [done|]. by rewrite map_app, IH. Qed.

(** Lists generated from elements with distinct keys are disjoint when
    what they generate tells the key. *)
Lemma NoDup_flat_map_key {A B K} (key : A → K) (g : A → list B) (l : list A) :
  NoDup (map key l) →
  (∀ x, x ∈ l → NoDup (g x)) →
  (∀ x y b, x ∈ l → y ∈ l → b ∈ g x → b ∈ g y → key x = key y) →
  NoDup (flat_map g l).
Proof.
  induction l as [|x l IH]; intros Hnd Hg Hkey; [constructor|].
  cbn in Hnd. apply NoDup_cons in Hnd as [Hx Hnd]. cbn.
  apply NoDup_app. split; [apply Hg; by left|]. split.
  - intros b Hb (y & Hy & Hby)%elem_of_flat_map. apply Hx.
    rewrite (Hkey x y b); [|by left|by right|done..].
    apply list_elem_of_In, in_map. by apply list_elem_of_In.
  - apply IH; [done| |].
    + intros y Hy. apply Hg. by right.
    + intros y z b Hy Hz. apply Hkey; by right.
Qed.

Lemma NoDup_map_inj {A B} (f : A → B) (l : list A) :
  (∀ x y, x ∈ l → y ∈ l → f x = f y → x = y) → NoDup l → NoDup (map f l).
Proof.
  induction l as [|x l IH]; intros Hinj Hnd; [constructor|].
  apply NoDup_cons in Hnd as [Hx Hnd]. cbn. apply NoDup_cons. split.
  - intros (y & Hxy & Hy)%list_elem_of_In%in_map_iff. apply list_elem_of_In in Hy.
    apply Hx. rewrite (Hinj x y); [done|by left|by right|done].
  - apply IH; [|done]. intros y z Hy Hz. apply Hinj; by right.
Qed.

Lemma NoDup_option_list {A} (l : list A) : (length l ≤ 1)%nat → NoDup l.
Proof.
  destruct l as [|x [|y l]]; cbn; intros Hl; [constructor| |lia].
  apply NoDup_singleton.
Qed.

(** The names each family of constraints uses. *)

Lemma daily_minimum_constraint_names self d j n :
  n ∈ map constraint_name (daily_minimum_constraint self d j) → n = daily_min d j.
Proof.
  unfold daily_minimum_constraint.
  destruct (requirements self !! (d, j)); [|by intros ?%elem_of_nil].
  destruct (staff_vars self d j); [by intros ?%elem_of_nil|].
  by intros ->%list_elem_of_singleton.
Qed.

Lemma daily_minimum_constraint_length self d j :
  (length (map constraint_name (daily_minimum_constraint self d j)) ≤ 1)%nat.
Proof.
  unfold daily_minimum_constraint.
  destruct (requirements self !! (d, j)); [|cbn; lia].
  destruct (staff_vars self d j); cbn; lia.
Qed.

Lemma daily_minimum_names self n :
  n ∈ map constraint_name (daily_minimum_constraints self) → ∃ d j, n = daily_min d j.
Proof.
  unfold daily_minimum_constraints. rewrite map_flat_map.
  intros (d & _ & Hn)%elem_of_flat_map. rewrite map_flat_map in Hn.
  apply elem_of_flat_map in Hn as (j & _ & Hn).
  exists d, j. by apply daily_minimum_constraint_names in Hn.
Qed.

Lemma monthly_workday_constraint_names self s n :
  n ∈ map constraint_name (monthly_workday_constraint self s) →
  n = min_monthly (staff_id s) ∨ n = max_monthly (staff_id s).
Proof.
  unfold monthly_workday_constraint.
  destruct (work_style s) as [ws|]; [|by intros ?%elem_of_nil].
  case_decide; cbn; rewrite ?elem_of_cons, ?elem_of_nil; tauto.
Qed.

Lemma monthly_workday_names self n :
  n ∈ map constraint_name (monthly_workday_constraints self) →
  ∃ id, n = min_monthly id ∨ n = max_monthly id.
Proof.
  unfold monthly_workday_constraints. rewrite map_flat_map.
  intros (s & _ & Hn)%elem_of_flat_map.
  exists (staff_id s). by apply monthly_workday_constraint_names in Hn.
Qed.

Lemma consecutive_workday_constraint_names self s n :
  n ∈ map constraint_name (consecutive_workday_constraint self s) →
  ∃ i, n = consecutive (staff_id s) i.
Proof.
  unfold consecutive_workday_constraint.
  destruct (work_style s) as [ws|]; [|by intros ?%elem_of_nil].
  case_decide; [|by intros ?%elem_of_nil].
  rewrite map_map. intros (i & <- & _)%list_elem_of_In%in_map_iff. by exists i.
Qed.

Lemma consecutive_workday_names self n :
  n ∈ map constraint_name (consecutive_workday_constraints self) →
  ∃ id i, n = consecutive id i.
Proof.
  unfold consecutive_workday_constraints. rewrite map_flat_map.
  intros (s & _ & Hn)%elem_of_flat_map.
  exists (staff_id s). by apply consecutive_workday_constraint_names in Hn.
Qed.

Lemma holiday_request_constraint_names self s d n :
  n ∈ map constraint_name (holiday_request_constraint self s d) →
  n = holiday_request (staff_id s) (strftime d).
Proof.
  unfold holiday_request_constraint.
  case_decide; [|by intros ?%elem_of_nil]. by intros ->%list_elem_of_singleton.
Qed.

Lemma holiday_request_names self n :
  n ∈ map constraint_name (holiday_request_constraints self) →
  ∃ id d, n = holiday_request id d.
Proof.
  unfold holiday_request_constraints. rewrite map_flat_map.
  intros (s & _ & Hn)%elem_of_flat_map. rewrite map_flat_map in Hn.
  apply elem_of_flat_map in Hn as (d & _ & Hn).
  exists (staff_id s), (strftime d). by apply holiday_request_constraint_names in Hn.
Qed.

(** Each family names its constraints without repetition. *)

Lemma NoDup_daily_minimum_names self :
  NoDup (date_range self) →
  NoDup (map constraint_name (daily_minimum_constraints self)).
Proof.
  intros Hdates. unfold daily_minimum_constraints. rewrite map_flat_map.
  apply (NoDup_flat_map_key id); [by rewrite map_id| |].
  - intros d _. rewrite map_flat_map.
    apply (NoDup_flat_map_key id).
    + rewrite map_id. apply NoDup_remove_dups.
    + intros j _. apply NoDup_option_list, daily_minimum_constraint_length.
    + intros j j' n _ _ Hn Hn'. apply daily_minimum_constraint_names in Hn, Hn'.
      congruence.
  - intros d d' n _ _. rewrite !map_flat_map.
    intros (j & _ & Hn)%elem_of_flat_map (j' & _ & Hn')%elem_of_flat_map.
    apply daily_minimum_constraint_names in Hn, Hn'. congruence.
Qed.

Lemma NoDup_monthly_workday_names self :
  NoDup (map staff_id (staff_list self)) →
  NoDup (map constraint_name (monthly_workday_constraints self)).
Proof.
  intros Hids. unfold monthly_workday_constraints. rewrite map_flat_map.
  apply (NoDup_flat_map_key staff_id); [done| |].
  - intros s _. unfold monthly_workday_constraint.
    destruct (work_style s) as [ws|]; [|constructor].
    case_decide; cbn; [|apply NoDup_singleton].
    apply NoDup_cons. split; [|apply NoDup_singleton].
    by intros [=]%list_elem_of_singleton.
  - intros s s' n _ _ Hn Hn'.
    apply monthly_workday_constraint_names in Hn, Hn'.
    destruct Hn as [-> | ->], Hn' as [Hn' | Hn']; congruence.
Qed.

Lemma NoDup_consecutive_workday_names self :
  NoDup (map staff_id (staff_list self)) →
  NoDup (map constraint_name (consecutive_workday_constraints self)).
Proof.
  intros Hids. unfold consecutive_workday_constraints. rewrite map_flat_map.
  apply (NoDup_flat_map_key staff_id); [done| |].
  - intros s _. unfold consecutive_workday_constraint.
    destruct (work_style s) as [ws|]; [|constructor].
    case_decide; [|constructor]. rewrite map_map.
    apply NoDup_map_inj; [|apply NoDup_seq].
    intros i i' _ _ Heq. cbn in Heq. congruence.
  - intros s s' n _ _ Hn Hn'.
    apply consecutive_workday_constraint_names in Hn as [i ->].
    apply consecutive_workday_constraint_names in Hn' as [i' Heq]. congruence.
Qed.

Lemma NoDup_holiday_request_names self :
  NoDup (map staff_id (staff_list self)) → NoDup (date_range self) →
  NoDup (map constraint_name (holiday_request_constraints self)).
Proof.
  intros Hids Hdates. unfold holiday_request_constraints. rewrite map_flat_map.
  apply (NoDup_flat_map_key staff_id); [done| |].
  - intros s _. rewrite map_flat_map.
    apply (NoDup_flat_map_key id); [by rewrite map_id| |].
    + intros d _. unfold holiday_request_constraint.
      case_decide; [apply NoDup_singleton | constructor].
    + intros d d' n _ _ Hn Hn'. apply holiday_request_constraint_names in Hn, Hn'.
      unfold strftime in *. congruence.
  - intros s s' n _ _. rewrite !map_flat_map.
    intros (d & _ & Hn)%elem_of_flat_map (d' & _ & Hn')%elem_of_flat_map.
    apply holiday_request_constraint_names in Hn, Hn'. congruence.
Qed.

(** No two constraints of the model share a name, so PuLP never refuses a
    constraint for an overlapping name. *)
Theorem constraint_names_NoDup self :
  NoDup (map staff_id (staff_list self)) → NoDup (date_range self) →
  NoDup (map constraint_name (model_constraints self)).
Proof.
  intros Hids Hdates. unfold model_constraints. rewrite !map_app.
  repeat (apply NoDup_app; split; [|split]).
  - by apply NoDup_daily_minimum_names.
  - intros n (d & j & ->)%daily_minimum_names.
    rewrite !elem_of_app.
    intros [(id & [?|?])%monthly_workday_names |
            [(id & i & ?)%consecutive_workday_names |
             (id & d' & ?)%holiday_request_names]]; done.
  - by apply NoDup_monthly_workday_names.
  - intros n (id & Hn)%monthly_workday_names.
    rewrite !elem_of_app.
    intros [(id' & i & ?)%consecutive_workday_names |
            (id' & d' & ?)%holiday_request_names]; destruct Hn; congruence.
  - by apply NoDup_consecutive_workday_names.
  - intros n (id & i & ->)%consecutive_workday_names
             (id' & d' & ?)%holiday_request_names. done.
  - by apply NoDup_holiday_request_names.
Qed.

(** ** Consecutive work days *)

Lemma seqZ_map m (n : nat) :
  seqZ m (Z.of_nat n) = map (λ j, m + Z.of_nat j) (seq 0 n).
Proof.
  induction n as [|n IH]; [done|].
  rewrite seqZ_S, seq_S, map_app, IH. done.
Qed.

(** The window starting at index [i] covers the [n] consecutive days from
    [start_date + i] on. *)
Lemma consecutive_vars_window self s i n :
  date_range self = period_days (period self) →
  (i + n ≤ length (date_range self))%nat →
  consecutive_vars self s i n =
  map (λ d, work (staff_id s) (strftime d))
    (seqZ (start_date (period self) + Z.of_nat i) (Z.of_nat n)).
Proof.
  intros Hrange Hlen. unfold consecutive_vars, range.
  rewrite seqZ_map, map_map. apply map_ext_in. intros j Hj%list_elem_of_In%elem_of_seq.
  do 2 f_equal. rewrite Hrange in *. rewrite period_days_seqZ in *.
  rewrite length_seqZ in Hlen. rewrite lookup_total_seqZ_lt by lia. lia.
Qed.

Lemma elem_of_consecutive_workday_constraints self s ws i :
  s ∈ staff_list self → work_style s = Some ws →
  (0 < allow_consecutive_days ws)%nat →
  (i + allow_consecutive_days ws < length (date_range self))%nat →
  consecutive_constraint self s (allow_consecutive_days ws) i
    ∈ consecutive_workday_constraints self.
Proof.
  intros Hs Hws Hpos Hi. unfold consecutive_workday_constraints.
  apply elem_of_flat_map. exists s. split; [done|].
  unfold consecutive_workday_constraint. rewrite Hws, decide_True by done.
  apply list_elem_of_In, in_map, list_elem_of_In. unfold range.
  apply elem_of_seq. lia.
Qed.

(** C5. For a worker whose work style allows at most [C > 0] consecutive
    work days and every window of [C + 1] consecutive days of the period,
    given by the index [i] of its first day, the constructed model holds
    exactly one constraint named after that worker and window start, and it
    bounds the sum of the worker's variables over the window by [C]. *)
Theorem consecutive_window_has_one_constraint db pid self s ws i :
  ShiftOptimizer_init db pid = Return self →
  staff_ids_unique db →
  s ∈ active_staff db →
  work_style s = Some ws →
  (0 < allow_consecutive_days ws)%nat →
  start_date (period self) + Z.of_nat i + Z.of_nat (allow_consecutive_days ws)
    ≤ end_date (period self) →
  ∃ p,
    problem (create_optimization_problem self) = Some p ∧
    filter (λ c, constraint_name c = consecutive (staff_id s) i) (constraints p) =
    [mkLpConstraint (consecutive (staff_id s) i)
       (lpSum_vars
          (map (λ d, work (staff_id s) (strftime d))
             (seqZ (start_date (period self) + Z.of_nat i)
                (Z.of_nat (allow_consecutive_days ws) + 1))))
       LpConstraintLE (Z.of_nat (allow_consecutive_days ws))].
Proof.
  intros Hinit Hids Hs Hws Hpos Hfit.
  apply ShiftOptimizer_init_inv in Hinit as (_ & Hsl & Hrange & _ & _).
  assert (Hlen : (i + allow_consecutive_days ws < length (date_range self))%nat).
  { rewrite Hrange, length_date_range. lia. }
  exists (model self). split; [apply create_optimization_problem_closed|].
  cbn [constraints model].
  set (c := consecutive_constraint self s (allow_consecutive_days ws) i).
  assert (Hc : c ∈ model_constraints self).
  { unfold model_constraints. rewrite !elem_of_app. right. right. left.
    apply (elem_of_consecutive_workday_constraints self s ws i); [by rewrite Hsl|done..]. }
  assert (Hnd : NoDup (map constraint_name (model_constraints self))).
  { apply constraint_names_NoDup.
    - rewrite Hsl. by apply NoDup_map_filter.
    - rewrite Hrange. apply NoDup_date_range. }
  rewrite (filter_unique_key constraint_name _ c Hnd Hc : filter
             (λ a, constraint_name a = consecutive (staff_id s) i) _ = _).
  unfold c, consecutive_constraint.
  rewrite (consecutive_vars_window self s i _ Hrange) by lia.
  do 5 f_equal. lia.
Qed.

Lemma consecutive_window_has_one_constraint_witness :
  ShiftOptimizer_init demo_db 1 = Return demo_self ∧
  staff_ids_unique demo_db ∧
  demo_staff_10 ∈ active_staff demo_db ∧
  work_style demo_staff_10 = Some demo_work_style ∧
  ∃ p,
    problem (create_optimization_problem demo_self) = Some p ∧
    filter (λ c, constraint_name c = consecutive 10 1) (constraints p) =
    [mkLpConstraint (consecutive 10 1)
       [(1, work 10 101); (1, work 10 102); (1, work 10 103)] LpConstraintLE 2].
Proof.
  assert (Hids : staff_ids_unique demo_db) by by_evaluation.
  assert (Hs : demo_staff_10 ∈ active_staff demo_db) by (by left).
  do 4 (split; [done|]).
  apply (consecutive_window_has_one_constraint demo_db 1 demo_self demo_staff_10
           demo_work_style 1 demo_self_init Hids Hs eq_refl); cbn; lia.
Defined.

(** ** The statistics *)

(** A loop that counts the elements passing a test. *)
Lemma for_each_count {A} (P : A → Prop) `{!∀ x, Decision (P x)} (l : list A)
    (body : A → Z → Z) (n : Z) :
  (∀ x k, x ∈ l → body x k = if decide (P x) then k + 1 else k) →
  for_each l body n = n + Z.of_nat (length (filter P l)).
Proof.
  revert n. induction l as [|x l IH]; intros n Hbody; [cbn; lia|].
  change (for_each (x :: l) body n) with (for_each l body (body x n)).
  rewrite IH by (intros y k Hy; apply Hbody; by right).
  rewrite Hbody by (by left).
  destruct (decide (P x)).
  - rewrite filter_cons_True by done. cbn [length]. lia.
  - rewrite filter_cons_False by done. lia.
Qed.

Lemma NoDup_map_key_inj {A K} (key : A → K) (l : list A) (x y : A) :
  NoDup (map key l) → x ∈ l → y ∈ l → key x = key y → x = y.
Proof.
  induction l as [|z l IH]; intros Hnd Hx Hy Heq; [by apply elem_of_nil in Hx|].
  cbn in Hnd. apply NoDup_cons in Hnd as [Hz Hnd].
  apply elem_of_cons in Hx as [->|Hx], Hy as [->|Hy]; [done| | |by apply IH].
  - exfalso. apply Hz. rewrite Heq. apply list_elem_of_In, in_map. by apply list_elem_of_In.
  - exfalso. apply Hz. rewrite <- Heq.
    apply list_elem_of_In, in_map. by apply list_elem_of_In.
Qed.

Lemma head_filter_Some {A} (P : A → Prop) `{!∀ x, Decision (P x)} (l : list A) (x : A) :
  head (filter P l) = Some x → x ∈ l ∧ P x.
Proof.
  intros Hh. assert (Hin : x ∈ filter P l).
  { destruct (filter P l); [done|]. injection Hh as ->. by left. }
  apply list_elem_of_filter in Hin. tauto.
Qed.

Lemma head_filter_None {A} (P : A → Prop) `{!∀ x, Decision (P x)} (l : list A) :
  head (filter P l) = None → ∀ x, x ∈ l → ¬ P x.
Proof.
  intros Hh x Hx HP. assert (Hin : x ∈ filter P l) by (by apply list_elem_of_filter).
  destruct (filter P l); [by apply elem_of_nil in Hin | done].
Qed.

(** The test the loop of [get_optimization_statistics] applies to a
    preference decides whether it is fulfilled. *)
Lemma fulfilled_test period db r (n : Z) :
  assignments_unique db →
  match head (filter (λ a, assignment_staff a = request_staff r ∧
                           assignment_date a = request_date r)
                (period_assignments period db)) with
  | Some assignment =>
      if bool_decide (priority r = 1) && negb (is_workday assignment) then n + 1
      else if bool_decide (priority r ∈ [2; 3]) && is_workday assignment then n + 1
      else n
  | None => n
  end = if decide (fulfilled period db r) then n + 1 else n.
Proof.
  intros Hu.
  assert (Hnd : NoDup (map assignment_key (period_assignments period db)))
    by (by apply NoDup_map_filter).
  destruct (head _) as [a|] eqn:Hhead.
  - apply head_filter_Some in Hhead as (Ha & Hs & Hd).
    assert (Hiff : fulfilled period db r ↔ matches r a).
    { unfold fulfilled. rewrite Exists_exists. split; [|by exists a].
      intros (a' & Ha' & Hm). pose proof Hm as (Hs' & Hd' & _).
      rewrite (NoDup_map_key_inj assignment_key _ a a' Hnd Ha Ha'); [done|].
      unfold assignment_key. congruence. }
    assert (Hmem : priority r ∈ [2; 3] ↔ priority r = 2 ∨ priority r = 3).
    { rewrite !elem_of_cons, elem_of_nil. tauto. }
    destruct (decide (fulfilled period db r)) as [Hf|Hf].
    + apply Hiff in Hf as (_ & _ & [[Hp Hw] | [Hp Hw]]).
      * by rewrite bool_decide_eq_true_2, Hw.
      * rewrite Hw, andb_false_r, (bool_decide_eq_true_2 (_ ∈ _)); [done|by apply Hmem].
    + assert (Hno : ¬ (priority r = 1 ∧ is_workday a = false) ∧
                    ¬ (priority r ∈ [2; 3] ∧ is_workday a = true)).
      { split; intros [Hp Hw]; apply Hf, Hiff; unfold matches; rewrite ?Hmem in *; tauto. }
      destruct Hno as [Hno1 Hno23].
      destruct (decide (priority r = 1)) as [Hp1|Hp1],
               (decide (priority r ∈ [2; 3])) as [Hp23|Hp23],
               (is_workday a) eqn:Hw;
        rewrite ?(bool_decide_eq_true_2 _ Hp1), ?(bool_decide_eq_false_2 _ Hp1),
                ?(bool_decide_eq_true_2 _ Hp23), ?(bool_decide_eq_false_2 _ Hp23);
        cbn [andb negb]; try done; tauto.
  - rewrite decide_False; [done|].
    unfold fulfilled. rewrite Exists_exists. intros (a & Ha & Hs & Hd & _).
    by apply (head_filter_None _ _ Hhead a Ha).
Qed.

(** ** Rounding to decimals *)

Lemma round_half_even_nearest num den :
  0 < den → nearest_integer num den (round_half_even num den).
Proof.
  intros Hden. unfold nearest_integer, round_half_even.
  pose proof (Z.div_mod num den ltac:(lia)) as Hdm.
  pose proof (Z.mod_pos_bound num den Hden) as Hr.
  set (q := num / den) in *. set (r := num mod den) in *. clearbody q r.
  assert (Hq : den * q = q * den) by lia.
  repeat case_decide.
  - split; lia.
  - split; lia.
  - destruct (Z.even q) eqn:He.
    + split; [lia|done].
    + split; [lia|]. intros _. by rewrite Z.even_add, He.
Qed.

(** The nearest integer, ties to even, is determined. *)
Lemma nearest_integer_unique num den k1 k2 :
  0 < den → nearest_integer num den k1 → nearest_integer num den k2 → k1 = k2.
Proof.
  intros Hden [H1 E1] [H2 E2].
  assert (Hclose : k1 = k2 ∨ k1 = k2 + 1 ∨ k2 = k1 + 1) by nia.
  destruct Hclose as [->|[->| ->]]; [done| |].
  - assert (Ht : 2 * Z.abs (num - k2 * den) = den) by nia.
    assert (Ht' : 2 * Z.abs (num - (k2 + 1) * den) = den) by nia.
    specialize (E1 Ht'). specialize (E2 Ht).
    rewrite Z.even_add, E2 in E1. done.
  - assert (Ht : 2 * Z.abs (num - k1 * den) = den) by nia.
    assert (Ht' : 2 * Z.abs (num - (k1 + 1) * den) = den) by nia.
    specialize (E1 Ht). specialize (E2 Ht').
    rewrite Z.even_add, E1 in E2. done.
Qed.

(** [round(x, ndigits)] is [x] rounded to [ndigits] decimals. *)
Lemma float_round_rounded x ndigits : rounded_to_decimals ndigits x (float_round x ndigits).
Proof.
  unfold rounded_to_decimals, float_round.
  destruct (Prim2SF x) as [| | |s m e]; try done.
  cbn zeta. destruct (decide (0 ≤ e)) as [He|He].
  - exists (10 ^ Z.of_nat ndigits * Z.pos m * 2 ^ e).
    split; [|repeat case_decide; (done || lia)].
    rewrite Z.max_r, Z.max_l by lia. unfold nearest_integer.
    change (2 ^ 0) with 1. split; lia.
  - eexists. split; [|repeat case_decide; (done || lia)].
    rewrite Z.max_l, Z.max_r by lia. rewrite Z.mul_1_r.
    apply round_half_even_nearest. apply Z.pow_pos_nonneg; lia.
Qed.

(** Rounding to decimals has one result. *)
Lemma rounded_to_decimals_unique ndigits x r1 r2 :
  rounded_to_decimals ndigits x r1 → rounded_to_decimals ndigits x r2 → r1 = r2.
Proof.
  unfold rounded_to_decimals. destruct (Prim2SF x) as [| | |s m e]; try congruence.
  intros (k1 & Hk1 & ->) (k2 & Hk2 & ->).
  assert (Hden : 0 < 2 ^ Z.max 0 (- e)) by (apply Z.pow_pos_nonneg; lia).
  by rewrite (nearest_integer_unique _ _ k1 k2 Hden Hk1 Hk2).
Qed.

(** C6. For an existing period the statistics report, as fulfilled, the
    number of submitted preferences matched by an assignment of the period
    for the same worker and day (priority 1 by an off day, priority 2 or 3
    by a work day), and as rate that number over the number of submitted
    preferences times 100, rounded to one decimal: the double nearest to
    the multiple of 0.1 nearest to the product. *)
Theorem statistics_count_fulfilled_preferences db pid period :
  SchedulePeriod_get db pid = Return period →
  assignments_unique db →
  ∃ d rate,
    get_optimization_statistics pid db = Return d ∧
    d !! "total_requests" = Some (PyInt (Z.of_nat (length (period_requests period db)))) ∧
    d !! "fulfilled_requests" = Some (PyInt (fulfilled_count period db)) ∧
    d !! "fulfillment_rate" = Some rate ∧
    fulfillment_rate (fulfilled_count period db)
      (Z.of_nat (length (period_requests period db))) rate.
Proof.
  intros Hget Hu.
  unfold get_optimization_statistics, get_optimization_statistics_try. rewrite Hget.
  eexists _, _. split; [reflexivity|].
  fold (period_assignments period db). fold (period_requests period db).
  assert (Hcount :
    for_each (period_requests period db) (λ request fulfilled_requests,
      match head (filter (λ a, assignment_staff a = request_staff request ∧
                               assignment_date a = request_date request)
                    (period_assignments period db)) with
      | Some assignment =>
          if bool_decide (priority request = 1) && negb (is_workday assignment)
          then fulfilled_requests + 1
          else if bool_decide (priority request ∈ [2; 3]) && is_workday assignment
          then fulfilled_requests + 1
          else fulfilled_requests
      | None => fulfilled_requests
      end) 0 = fulfilled_count period db).
  { rewrite (for_each_count (fulfilled period db)); [done|].
    intros r k _. by apply fulfilled_test. }
  rewrite Hcount. split; [reflexivity|]. split; [reflexivity|].
  split; [reflexivity|].
  unfold fulfillment_rate, int_truediv. case_decide; [|done].
  eexists. split; [reflexivity|]. apply float_round_rounded.
Qed.

(** One preference of three is fulfilled: the product 33.333333333333329
    is reported as [333 / 10], the double Python prints as 33.3. *)
Lemma statistics_count_fulfilled_preferences_witness :
  SchedulePeriod_get thirds_db 3 = Return thirds_period ∧
  assignments_unique thirds_db ∧
  PrimFloat.mul (int_truediv 1 3) (float_of_Z 100) ≠ (333 / 10)%float ∧
  ∃ d rate,
    get_optimization_statistics 3 thirds_db = Return d ∧
    d !! "total_requests" = Some (PyInt 3) ∧
    d !! "fulfilled_requests" = Some (PyInt 1) ∧
    d !! "fulfillment_rate" = Some rate ∧
    fulfillment_rate 1 3 rate ∧
    rate = PyFloat (333 / 10).
Proof.
  assert (Hu : assignments_unique thirds_db) by by_evaluation.
  split; [reflexivity|]. split; [exact Hu|].
  split.
  { intros Heq. apply (f_equal (PrimFloat.eqb (333 / 10))) in Heq.
    vm_compute in Heq. done. }
  destruct (statistics_count_fulfilled_preferences thirds_db 3 thirds_period eq_refl Hu)
    as (d & rate & Hd & Htotal & Hfulfilled & Hrate & Hrounded).
  exists d, rate. split; [exact Hd|].
  split; [rewrite Htotal; vm_compute; reflexivity|].
  split; [rewrite Hfulfilled; vm_compute; reflexivity|].
  split; [exact Hrate|].
  assert (Hcount : fulfilled_count thirds_period thirds_db = 1) by (vm_compute; reflexivity).
  assert (Hlen : Z.of_nat (length (period_requests thirds_period thirds_db)) = 3)
    by (vm_compute; reflexivity).
  rewrite Hcount, Hlen in Hrounded. split; [exact Hrounded|].
  destruct Hrounded as (r & -> & Hr). f_equal.
  apply (rounded_to_decimals_unique 1 _ _ _ Hr).
  assert (Hround : float_round (PrimFloat.mul (PrimFloat.div (float_of_Z 1) (float_of_Z 3))
                                  (float_of_Z 100)) 1 = (333 / 10)%float)
    by (vm_compute; reflexivity).
  rewrite <- Hround. apply float_round_rounded.
Defined.

(** Seven preferences of ten: 70.0, which the rounding leaves as it is. *)
Lemma statistics_of_seven_in_ten :
  ∃ d,
    get_optimization_statistics 2 stats_db = Return d ∧
    d !! "total_requests" = Some (PyInt 10) ∧
    d !! "fulfilled_requests" = Some (PyInt 7) ∧
    d !! "fulfillment_rate" = Some (PyFloat 70).
Proof. eexists. split; [reflexivity|]. repeat split; vm_compute; reflexivity. Qed.

(** ** The off-type invariant *)

(** When a holiday type named 週休 exists, every row [save_results] writes
    passes [ShiftAssignment.clean]. *)
Lemma rows_clean_with_default_holiday self vals db a :
  is_Some (default_holiday db) →
  a ∈ assignment_rows self vals db → ShiftAssignment_clean a = Return tt.
Proof.
  intros [h Hh] (s & d & _ & _ & ->)%elem_of_assignment_rows.
  unfold assignment_row, ShiftAssignment_clean. rewrite Hh. by case_decide.
Qed.

(** Without it, every off day is written with no holiday type and fails
    [ShiftAssignment.clean]. *)
Lemma off_rows_unclean_without_default_holiday self vals db a :
  default_holiday db = None →
  a ∈ assignment_rows self vals db → is_workday a = false →
  holiday_type a = None ∧ is_raise (ShiftAssignment_clean a).
Proof.
  intros Hh (s & d & _ & _ & ->)%elem_of_assignment_rows.
  unfold assignment_row, ShiftAssignment_clean. rewrite Hh. by case_decide.
Qed.

(** C7 fails on a fresh installation, whose holiday type table is empty:
    no holiday type is named 週休, the run succeeds, and the off day
    written for worker 10 on day 101 carries no holiday type, which
    [ShiftAssignment.clean] rejects. Entering the holiday types that
    [apps.py] lists changes nothing, as none of them is named 週休. *)
Theorem off_day_without_holiday_type_on_fresh_installation :
  (default_holiday seeded_db = None ∧
   run_succeeded (generate_schedule demo_cbc 1.5 1 (Some 1) seeded_db) ∧
   mkShiftAssignment 10 101 false None true false
     ∈ schedule_shift_assignment (generate_schedule demo_cbc 1.5 1 (Some 1) seeded_db).2) ∧
  (default_holiday listed_holidays_db = None ∧
   run_succeeded (generate_schedule demo_cbc 1.5 1 (Some 1) listed_holidays_db) ∧
   mkShiftAssignment 10 101 false None true false
     ∈ schedule_shift_assignment
         (generate_schedule demo_cbc 1.5 1 (Some 1) listed_holidays_db).2) ∧
  ShiftAssignment_clean (mkShiftAssignment 10 101 false None true false) =
    Raise (mkException "ValidationError" "['休日の場合は休日種別を指定してください。']").
Proof.
  split; [|split; [|reflexivity]].
  - split; [reflexivity|].
    split; [exists (success_result 1 1.5); split; reflexivity|]. by_evaluation.
  - split; [reflexivity|].
    split; [exists (success_result 1 1.5); split; reflexivity|]. by_evaluation.
Qed.

(** ** Outcomes of a run *)

(** [generate_schedule] returns a dict on every path. *)
Lemma generate_schedule_returns cbc t pid uid db :
  ∃ d, (generate_schedule cbc t pid uid db).1 = Return d.
Proof.
  rewrite generate_schedule_eq. unfold generate_schedule_closed, except_path, failure_path.
  destruct (ShiftOptimizer_init db pid) as [self|e]; [|by eexists].
  destruct (cbc (model self)) as [[st vals]|e]; [|by eexists].
  repeat case_decide; by eexists.
Qed.

(** C8. When the solver reports a status other than Optimal or Feasible,
    the run writes no assignment, appends a failure log entry whose
    description carries the status, and returns success = False with an
    assignments count of 0. The log entry needs the acting user, when one
    is given, to exist. *)
Theorem unsolved_status_aborts_before_saving cbc t pid uid db self p st vals :
  ShiftOptimizer_init db pid = Return self →
  problem (create_optimization_problem self) = Some p →
  cbc p = Return (st, vals) →
  st ≠ "Optimal" → st ≠ "Feasible" →
  from_option (λ u, u ∈ auth_user db) True uid →
  ∃ d db',
    generate_schedule cbc t pid uid db = (Return d, db') ∧
    d !! "success" = Some (PyBool false) ∧
    d !! "assignments_count" = Some (PyInt 0) ∧
    d !! "message" = Some (PyStr ("解が見つかりませんでした: " +:+ st)) ∧
    schedule_shift_assignment db' = schedule_shift_assignment db ∧
    schedule_log db' =
      schedule_log db ++
      [mkScheduleLog pid "ai_create" uid ("解が見つかりませんでした: " +:+ st) false t].
Proof.
  intros Hinit Hp Hcbc Hopt Hfeas Huser.
  rewrite create_optimization_problem_closed in Hp. injection Hp as <-.
  rewrite generate_schedule_eq. unfold generate_schedule_closed.
  rewrite Hinit, Hcbc, decide_False by tauto.
  eexists _, _. split; [reflexivity|]. do 3 (split; [reflexivity|]).
  split; [apply logged_shift_assignment|].
  apply logged_log. split; [|done]. cbn.
  apply ShiftOptimizer_init_inv in Hinit as (Hget & _).
  apply SchedulePeriod_get_inv in Hget as [Hin <-].
  apply list_elem_of_In, in_map. by apply list_elem_of_In.
Qed.

Lemma unsolved_status_aborts_before_saving_witness :
  ShiftOptimizer_init demo_db 1 = Return demo_self ∧
  problem (create_optimization_problem demo_self) = Some (model demo_self) ∧
  infeasible_cbc (model demo_self) = Return ("Infeasible", λ _, None) ∧
  ∃ d db',
    generate_schedule infeasible_cbc 1.5 1 (Some 1) demo_db = (Return d, db') ∧
    d !! "success" = Some (PyBool false) ∧
    d !! "assignments_count" = Some (PyInt 0) ∧
    d !! "message" = Some (PyStr "解が見つかりませんでした: Infeasible") ∧
    schedule_shift_assignment db' = [] ∧
    schedule_log db' =
      [mkScheduleLog 1 "ai_create" (Some 1) "解が見つかりませんでした: Infeasible" false 1.5].
Proof.
  pose proof (create_optimization_problem_closed demo_self) as Hp.
  do 3 (split; [done|]).
  apply (unsolved_status_aborts_before_saving infeasible_cbc 1.5 1 (Some 1) demo_db
           demo_self (model demo_self) "Infeasible" (λ _, None) demo_self_init Hp eq_refl);
    [done | done | by left].
Defined.

(** C9, amended. An exception raised inside the [try] of
    [generate_schedule] is caught; the service tries to append a failure
    log entry whose description carries the exception's message, which is
    stored when the period and the user it refers to exist, and returns
    success = False with the message and an assignments count of 0. *)
Theorem exception_is_logged_and_reported cbc t pid uid db e db1 :
  generate_schedule_try cbc t pid uid db = (Raise e, db1) →
  ∃ d db',
    generate_schedule cbc t pid uid db = (Return d, db') ∧
    d !! "success" = Some (PyBool false) ∧
    d !! "assignments_count" = Some (PyInt 0) ∧
    d !! "message" = Some (PyStr ("シフト作成中にエラーが発生しました: " +:+ exc_str e)) ∧
    db' = (_log_execution pid "ai_create" uid ("エラー: " +:+ exc_str e) false t db1).2 ∧
    (log_references_exist
       (mkScheduleLog pid "ai_create" uid ("エラー: " +:+ exc_str e) false t) db1 →
     schedule_log db' =
       schedule_log db1 ++
       [mkScheduleLog pid "ai_create" uid ("エラー: " +:+ exc_str e) false t]).
Proof.
  intros Htry. unfold generate_schedule, try_except. rewrite Htry.
  unfold generate_schedule_except, bind, ret. rewrite log_execution_closed.
  eexists _, _. split; [reflexivity|]. do 3 (split; [reflexivity|]).
  split; [reflexivity|]. apply logged_log.
Qed.

Lemma exception_is_logged_and_reported_witness :
  generate_schedule_try demo_cbc 1.5 99 (Some 1) demo_db =
    (Raise (mkException "DoesNotExist" "SchedulePeriod matching query does not exist."),
     demo_db) ∧
  ∃ d db',
    generate_schedule demo_cbc 1.5 99 (Some 1) demo_db = (Return d, db') ∧
    d !! "success" = Some (PyBool false).
Proof.
  assert (Htry : generate_schedule_try demo_cbc 1.5 99 (Some 1) demo_db =
    (Raise (mkException "DoesNotExist" "SchedulePeriod matching query does not exist."),
     demo_db)) by reflexivity.
  split; [exact Htry|].
  destruct (exception_is_logged_and_reported _ _ _ _ _ _ _ Htry)
    as (d & db' & Hrun & Hsuccess & _).
  by exists d, db'.
Defined.

(** C9 as stated fails: for a period that does not exist the [try] raises
    [DoesNotExist], and [generate_schedule] returns a failure dict to its
    caller where the claim has it raise again. *)
Lemma missing_period_is_reported_not_raised :
  generate_schedule_try demo_cbc 1.5 99 (Some 1) demo_db =
    (Raise (mkException "DoesNotExist" "SchedulePeriod matching query does not exist."),
     demo_db) ∧
  (generate_schedule demo_cbc 1.5 99 (Some 1) demo_db).1 =
    Return (failure_result
              ("シフト作成中にエラーが発生しました: "
               +:+ "SchedulePeriod matching query does not exist.")) ∧
  (is_raise (generate_schedule demo_cbc 1.5 99 (Some 1) demo_db).1 ↔ False).
Proof. split; [reflexivity|]. split; [reflexivity|]. done. Qed.

(** For that period the log entry is not stored either: its period
    reference dangles and [_log_execution] swallows the refusal. *)
Lemma missing_period_leaves_no_log_entry :
  schedule_log (generate_schedule demo_cbc 1.5 99 (Some 1) demo_db).2 = [].
Proof. reflexivity. Qed.

(** C10. [get_optimization_statistics] returns on every input: whenever
    its [try] raises, as for a period that does not exist, it returns the
    empty dict; for a period without submitted preferences it returns the
    counters with a fulfillment rate of 0. *)
Theorem statistics_never_raise pid db :
  (∃ d, get_optimization_statistics pid db = Return d) ∧
  (is_raise (get_optimization_statistics_try pid db) →
   get_optimization_statistics pid db = Return ∅) ∧
  (filter (λ p, period_id p = pid) (schedule_period db) = [] →
   get_optimization_statistics pid db = Return ∅) ∧
  (∀ period,
     SchedulePeriod_get db pid = Return period →
     period_requests period db = [] →
     ∃ d,
       get_optimization_statistics pid db = Return d ∧
       d !! "fulfillment_rate" = Some (PyInt 0) ∧
       d !! "total_requests" = Some (PyInt 0) ∧
       d !! "fulfilled_requests" = Some (PyInt 0) ∧
       d !! "total_assignments" =
         Some (PyInt (Z.of_nat (length (period_assignments period db)))) ∧
       d !! "workday_assignments" = Some (PyInt (workday_count (period_assignments period db))) ∧
       d !! "holiday_assignments" =
         Some (PyInt (Z.of_nat (length (period_assignments period db)) -
                      workday_count (period_assignments period db)))).
Proof.
  unfold get_optimization_statistics. split; [|split; [|split]].
  - destruct (get_optimization_statistics_try pid db); by eexists.
  - by destruct (get_optimization_statistics_try pid db).
  - intros Hnone. unfold get_optimization_statistics_try, SchedulePeriod_get.
    by rewrite Hnone.
  - intros period Hget Hreq. unfold get_optimization_statistics_try. rewrite Hget.
    fold (period_assignments period db). fold (period_requests period db).
    rewrite Hreq. eexists. split; [reflexivity|]. repeat split; reflexivity.
Qed.

(** * What a run guarantees to its callers *)

(** ** Successful runs *)

(** A successful run under a solver that keeps its contract: the values
    written satisfy the model. *)
Lemma run_succeeded_feasible cbc t pid uid db :
  run_succeeded (generate_schedule cbc t pid uid db) →
  solver_sound_for cbc db pid →
  ∃ self vals,
    ShiftOptimizer_init db pid = Return self ∧
    feasible (model self) vals ∧
    schedule_shift_assignment (generate_schedule cbc t pid uid db).2 =
      kept_assignments self db ++ assignment_rows self vals db.
Proof.
  intros Hrun Hsound.
  apply run_succeeded_inv in Hrun as (self & st & vals & Hinit & Hcbc & Hst & _ & Htable & _).
  exists self, vals. split; [done|]. split; [|done].
  by apply (Hsound self (model self) Hinit (create_optimization_problem_closed self) st vals).
Qed.

Lemma demo_sound_for : solver_sound_for demo_cbc demo_db 1.
Proof.
  intros self p Hinit Hp. rewrite demo_self_init in Hinit. injection Hinit as <-.
  rewrite create_optimization_problem_closed in Hp. injection Hp as <-.
  apply demo_cbc_sound.
Qed.

Lemma demo_run_succeeded : run_succeeded (generate_schedule demo_cbc 1.5 1 (Some 1) demo_db).
Proof. exists (success_result 1 1.5). split; reflexivity. Qed.

Lemma demo_staff_10_active : demo_staff_10 ∈ active_staff demo_db.
Proof. by left. Qed.

(** The sum of binary variables counts those set to 1. *)
Lemma lpSum_binary_count vals (xs : list LpVariable) :
  (∀ x, x ∈ xs → vals x = Some 0 ∨ vals x = Some 1) →
  expr_value vals (lpSum_vars xs) = Z.of_nat (length (filter (λ x, vals x = Some 1) xs)).
Proof.
  induction xs as [|x xs IH]; intros Hbin; [done|].
  cbn [lpSum_vars map expr_value foldr fst snd].
  fold (lpSum_vars xs). fold (expr_value vals (lpSum_vars xs)).
  rewrite IH by (intros y Hy; apply Hbin; by right).
  destruct (Hbin x) as [Hx|Hx]; [by left| |].
  - rewrite filter_cons_False by congruence. unfold value. rewrite Hx. cbn [default from_option]. unfold id. lia.
  - rewrite filter_cons_True by done. unfold value. rewrite Hx. cbn [default from_option length]. unfold id. lia.
Qed.

Lemma length_filter_le {A} (P : A → Prop) `{!∀ x, Decision (P x)} (l : list A) :
  (length (filter P l) ≤ length l)%nat.
Proof.
  induction l as [|x l IH]; [done|].
  destruct (decide (P x)).
  - rewrite filter_cons_True by done. cbn. lia.
  - rewrite filter_cons_False by done. cbn. lia.
Qed.

Lemma length_filter_ext {A} (P Q : A → Prop) `{!∀ x, Decision (P x)} `{!∀ x, Decision (Q x)}
    (l : list A) :
  (∀ x, x ∈ l → P x ↔ Q x) → length (filter P l) = length (filter Q l).
Proof.
  induction l as [|x l IH]; intros Hext; [done|].
  assert (Hl : length (filter P l) = length (filter Q l)).
  { apply IH. intros y Hy. apply Hext. by right. }
  destruct (decide (P x)) as [HP|HP].
  - rewrite !filter_cons_True; [cbn; lia|by apply (Hext x); [left|] |done].
  - rewrite !filter_cons_False; [done| |done].
    intros HQ. apply HP, (Hext x); [by left|done].
Qed.

Lemma length_filter_map {A B} (f : A → B) (P : B → Prop) `{!∀ x, Decision (P x)}
    (l : list A) :
  length (filter P (map f l)) = length (filter (λ x, P (f x)) l).
Proof.
  induction l as [|x l IH]; [done|]. cbn [map].
  destruct (decide (P (f x))).
  - rewrite !filter_cons_True by done. cbn. lia.
  - rewrite !filter_cons_False by done. done.
Qed.

(** After a successful run, a worker who was scheduled works on a day of
    the period exactly when the solver set the variable of the pair to 1. *)
Lemma works_on_after_run self vals db db' s d :
  schedule_shift_assignment db' = kept_assignments self db ++ assignment_rows self vals db →
  date_range self = period_days (period self) →
  s ∈ staff_list self → d ∈ date_range self →
  works_on db' (staff_id s) d ↔ vals (work (staff_id s) (strftime d)) = Some 1.
Proof.
  intros Htable Hrange Hs Hd. unfold works_on. rewrite Htable, Exists_exists. split.
  - intros (a & Ha & Hstaff & Hdate & Hwork).
    apply elem_of_app in Ha as [Ha|Ha].
    + exfalso. apply kept_assignments_out_of_range in Ha. apply Ha.
      unfold in_date_range. rewrite Hdate.
      rewrite Hrange in Hd. by apply elem_of_date_range in Hd.
    + apply elem_of_assignment_rows in Ha as (s' & d' & _ & _ & ->).
      apply assignment_row_is_workday in Hwork.
      pose proof (assignment_row_key vals db s' d') as Hkey.
      unfold assignment_key in Hkey. injection Hkey as Hks Hkd.
      rewrite Hks in Hstaff. rewrite Hkd in Hdate. by rewrite <- Hstaff, <- Hdate.
  - intros Hv. exists (assignment_row vals db s d). split.
    + apply elem_of_app. right. apply elem_of_assignment_rows. by exists s, d.
    + pose proof (assignment_row_key vals db s d) as Hkey.
      unfold assignment_key in Hkey. injection Hkey as Hks Hkd.
      split; [done|]. split; [done|]. by apply assignment_row_is_workday.
Qed.

(** The days a worker works among [dates], read off the solver's values. *)
Lemma work_days_after_run self vals db db' s (dates : list Z) :
  schedule_shift_assignment db' = kept_assignments self db ++ assignment_rows self vals db →
  date_range self = period_days (period self) →
  s ∈ staff_list self → (∀ d, d ∈ dates → d ∈ date_range self) →
  (∀ d, d ∈ dates → vals (work (staff_id s) (strftime d)) = Some 0 ∨
                     vals (work (staff_id s) (strftime d)) = Some 1) →
  Z.of_nat (work_days db' (staff_id s) dates) =
  expr_value vals (lpSum_vars (map (λ d, work (staff_id s) (strftime d)) dates)).
Proof.
  intros Htable Hrange Hs Hsub Hbin. unfold work_days.
  rewrite lpSum_binary_count.
  - f_equal. rewrite length_filter_map. apply length_filter_ext.
    intros d Hd. apply (works_on_after_run self vals db db' s d); auto.
  - intros x (d & -> & Hd)%list_elem_of_fmap. by apply Hbin.
Qed.

Lemma elem_of_monthly_max self s ws :
  s ∈ staff_list self → work_style s = Some ws →
  mkLpConstraint (max_monthly (staff_id s)) (lpSum_vars (monthly_vars self s))
    LpConstraintLE (Z.of_nat (max_shifts_per_month ws)) ∈ model_constraints self.
Proof.
  intros Hs Hws. unfold model_constraints.
  apply elem_of_app. right. apply elem_of_app. left.
  apply elem_of_flat_map. exists s. split; [done|].
  unfold monthly_workday_constraint. rewrite Hws.
  apply elem_of_app. right. by left.
Qed.

Lemma elem_of_monthly_min self s ws :
  s ∈ staff_list self → work_style s = Some ws → (0 < min_shifts_per_month ws)%nat →
  mkLpConstraint (min_monthly (staff_id s)) (lpSum_vars (monthly_vars self s))
    LpConstraintGE (Z.of_nat (min_shifts_per_month ws)) ∈ model_constraints self.
Proof.
  intros Hs Hws Hmin. unfold model_constraints.
  apply elem_of_app. right. apply elem_of_app. left.
  apply elem_of_flat_map. exists s. split; [done|].
  unfold monthly_workday_constraint. rewrite Hws.
  apply elem_of_app. left. rewrite decide_True by done. by left.
Qed.

(** The variables of a constraint of a feasible model are binary. *)
Lemma feasible_binary p vals c x :
  feasible p vals → c ∈ constraints p → x ∈ map snd (constraint_expr c) →
  vals x = Some 0 ∨ vals x = Some 1.
Proof.
  intros [_ Hbin] Hc Hx. rewrite Forall_forall in Hbin. apply Hbin.
  apply list_elem_of_fmap in Hx as ([k y] & -> & Hy). by apply (elem_of_variables p c k y).
Qed.

Lemma feasible_holds p vals c : feasible p vals → c ∈ constraints p → holds vals c.
Proof. intros [Hall _] Hc. rewrite Forall_forall in Hall. by apply Hall. Qed.

Lemma map_snd_lpSum_vars xs : map snd (lpSum_vars xs) = xs.
Proof. induction xs as [|x xs IH]; [done|]. cbn. by rewrite <- IH at 2. Qed.

(** X1. After a successful run the number of work days of a scheduled
    worker with a work style lies between the style's minimum and maximum
    shifts per month. *)
Theorem monthly_work_days_within_bounds cbc t pid uid db period s ws :
  run_succeeded (generate_schedule cbc t pid uid db) →
  solver_sound_for cbc db pid →
  SchedulePeriod_get db pid = Return period →
  s ∈ active_staff db → work_style s = Some ws →
  (min_shifts_per_month ws ≤
   work_days (generate_schedule cbc t pid uid db).2 (staff_id s) (period_days period)
   ≤ max_shifts_per_month ws)%nat.
Proof.
  intros Hrun Hsound Hget Hs Hws.
  destruct (run_succeeded_feasible _ _ _ _ _ Hrun Hsound) as (self & vals & Hinit & Hfeas & Htable).
  destruct (ShiftOptimizer_init_inv _ _ _ Hinit) as (Hget' & Hstaff & Hrange & _).
  rewrite Hget in Hget'. injection Hget' as ->.
  rewrite <- Hstaff in Hs. rewrite <- Hrange.
  pose proof (elem_of_monthly_max self s ws Hs Hws) as Hmax.
  assert (Hbin : ∀ d, d ∈ date_range self →
            vals (work (staff_id s) (strftime d)) = Some 0 ∨
            vals (work (staff_id s) (strftime d)) = Some 1).
  { intros d Hd. apply (feasible_binary (model self) vals _ _ Hfeas Hmax).
    cbn [constraint_expr]. rewrite map_snd_lpSum_vars.
    unfold monthly_vars. apply list_elem_of_fmap. by exists d. }
  pose proof (work_days_after_run self vals db _ s (date_range self) Htable Hrange Hs
                (λ d Hd, Hd) Hbin) as Hcount.
  fold (monthly_vars self s) in Hcount.
  pose proof (feasible_holds _ _ _ Hfeas Hmax) as Hle.
  unfold holds in Hle. cbn [constraint_sense constraint_expr constraint_rhs consecutive_constraint] in Hle.
  split; [|lia].
  destruct (decide (0 < min_shifts_per_month ws)%nat) as [Hpos|Hzero]; [|lia].
  pose proof (feasible_holds _ _ _ Hfeas (elem_of_monthly_min self s ws Hs Hws Hpos)) as Hge.
  unfold holds in Hge. cbn [constraint_sense constraint_expr constraint_rhs] in Hge. lia.
Qed.

Lemma monthly_work_days_within_bounds_witness :
  (0 ≤ work_days (generate_schedule demo_cbc 1.5 1%Z (Some 1%Z) demo_db).2 10%Z
         (period_days demo_period) ≤ 5)%nat.
Proof.
  apply (monthly_work_days_within_bounds demo_cbc 1.5 1 (Some 1) demo_db demo_period
           demo_staff_10 demo_work_style demo_run_succeeded demo_sound_for eq_refl
           demo_staff_10_active eq_refl).
Defined.

(** X2. After a successful run a scheduled worker whose work style allows
    [C > 0] consecutive days works at most [C] of any [C + 1] consecutive
    days of the period. *)
Theorem consecutive_work_days_within_limit cbc t pid uid db period s ws i :
  run_succeeded (generate_schedule cbc t pid uid db) →
  solver_sound_for cbc db pid →
  SchedulePeriod_get db pid = Return period →
  s ∈ active_staff db → work_style s = Some ws →
  (0 < allow_consecutive_days ws)%nat →
  start_date period + Z.of_nat i + Z.of_nat (allow_consecutive_days ws) ≤ end_date period →
  (work_days (generate_schedule cbc t pid uid db).2 (staff_id s)
     (seqZ (start_date period + Z.of_nat i) (Z.of_nat (allow_consecutive_days ws) + 1))
   ≤ allow_consecutive_days ws)%nat.
Proof.
  intros Hrun Hsound Hget Hs Hws Hpos Hfit.
  destruct (run_succeeded_feasible _ _ _ _ _ Hrun Hsound) as (self & vals & Hinit & Hfeas & Htable).
  destruct (ShiftOptimizer_init_inv _ _ _ Hinit) as (Hget' & Hstaff & Hrange & _).
  rewrite Hget in Hget'. injection Hget' as ->.
  rewrite <- Hstaff in Hs.
  set (C := allow_consecutive_days ws) in *.
  assert (Hlen : (i + C < length (date_range self))%nat).
  { rewrite Hrange, length_date_range. lia. }
  pose proof (elem_of_consecutive_workday_constraints self s ws i Hs Hws Hpos Hlen) as Hc.
  fold C in Hc.
  assert (Hc' : consecutive_constraint self s C i ∈ constraints (model self)).
  { cbn. unfold model_constraints. rewrite !elem_of_app. tauto. }
  assert (Hvars : consecutive_vars self s i (C + 1) =
            map (λ d, work (staff_id s) (strftime d))
              (seqZ (start_date (period self) + Z.of_nat i) (Z.of_nat C + 1))).
  { rewrite consecutive_vars_window by (done || lia). do 2 f_equal. lia. }
  assert (Hsub : ∀ d, d ∈ seqZ (start_date (period self) + Z.of_nat i) (Z.of_nat C + 1) →
                      d ∈ date_range self).
  { intros d Hd. rewrite Hrange. apply elem_of_date_range.
    apply elem_of_seqZ in Hd. lia. }
  assert (Hbin : ∀ d, d ∈ seqZ (start_date (period self) + Z.of_nat i) (Z.of_nat C + 1) →
            vals (work (staff_id s) (strftime d)) = Some 0 ∨
            vals (work (staff_id s) (strftime d)) = Some 1).
  { intros d Hd. apply (feasible_binary (model self) vals _ _ Hfeas Hc').
    cbn [constraint_expr consecutive_constraint]. rewrite map_snd_lpSum_vars, Hvars.
    apply list_elem_of_fmap. by exists d. }
  pose proof (work_days_after_run self vals db _ s _ Htable Hrange Hs Hsub Hbin) as Hcount.
  pose proof (feasible_holds _ _ _ Hfeas Hc') as Hle.
  unfold holds in Hle. cbn [constraint_sense constraint_expr constraint_rhs consecutive_constraint] in Hle. rewrite Hvars in Hle. lia.
Qed.

Lemma consecutive_work_days_within_limit_witness :
  (work_days (generate_schedule demo_cbc 1.5 1%Z (Some 1%Z) demo_db).2 10%Z
     (seqZ 101%Z 3%Z) ≤ 2)%nat.
Proof.
  apply (consecutive_work_days_within_limit demo_cbc 1.5 1 (Some 1) demo_db demo_period
           demo_staff_10 demo_work_style 1 demo_run_succeeded demo_sound_for eq_refl
           demo_staff_10_active eq_refl); cbn; lia.
Defined.

(** ** Every run, classified *)

(** A run returns a dict and tries to store one log entry; it either
    failed and changed nothing else, or succeeded and replaced the
    assignments of the period. *)
Lemma generate_schedule_cases cbc t pid uid db :
  ∃ d entry db1,
    generate_schedule cbc t pid uid db = (Return d, logged entry db1) ∧
    log_period_id entry = pid ∧ log_action entry = "ai_create" ∧
    log_user_id entry = uid ∧ log_execution_time entry = t ∧
    d !! "success" = Some (PyBool (log_success entry)) ∧
    ((log_success entry = false ∧ db1 = db ∧
      d !! "assignments_count" = Some (PyInt 0) ∧ d !! "execution_time" = None) ∨
     (log_success entry = true ∧
      ∃ self st vals,
        ShiftOptimizer_init db pid = Return self ∧
        cbc (model self) = Return (st, vals) ∧
        (st = "Optimal" ∨ st = "Feasible") ∧
        db1 = set_shift_assignment
                (kept_assignments self db ++ assignment_rows self vals db) db ∧
        d = success_result (workday_count (assignment_rows self vals db)) t)).
Proof.
  rewrite generate_schedule_eq.
  unfold generate_schedule_closed, except_path, failure_path, ai_create_log.
  destruct (ShiftOptimizer_init db pid) as [self|e] eqn:Hinit.
  2: { eexists _, _, _. split; [reflexivity|]. do 5 (split; [reflexivity|]). left. done. }
  destruct (cbc (model self)) as [[st vals]|e] eqn:Hcbc.
  2: { eexists _, _, _. split; [reflexivity|]. do 5 (split; [reflexivity|]). left. done. }
  destruct (decide (st = "Optimal" ∨ st = "Feasible")) as [Hst|Hst].
  2: { eexists _, _, _. split; [reflexivity|]. do 5 (split; [reflexivity|]). left. done. }
  cbn zeta. destruct (decide (NoDup _)) as [Hnd|Hnd].
  2: { eexists _, _, _. split; [reflexivity|]. do 5 (split; [reflexivity|]). left. done. }
  eexists _, _, _. split; [reflexivity|]. do 5 (split; [reflexivity|]). right.
  split; [reflexivity|]. by exists self, st, vals.
Qed.

Lemma logged_frame entry db :
  auth_user (logged entry db) = auth_user db ∧
  schedule_staff_profile (logged entry db) = schedule_staff_profile db ∧
  schedule_holiday_type (logged entry db) = schedule_holiday_type db ∧
  schedule_period (logged entry db) = schedule_period db ∧
  schedule_shift_request (logged entry db) = schedule_shift_request db ∧
  schedule_daily_requirement (logged entry db) = schedule_daily_requirement db.
Proof. unfold logged. by case_decide. Qed.

(** A run writes to the assignment table and the log only. *)
Lemma generate_schedule_frame cbc t pid uid db :
  auth_user (generate_schedule cbc t pid uid db).2 = auth_user db ∧
  schedule_staff_profile (generate_schedule cbc t pid uid db).2 = schedule_staff_profile db ∧
  schedule_holiday_type (generate_schedule cbc t pid uid db).2 = schedule_holiday_type db ∧
  schedule_period (generate_schedule cbc t pid uid db).2 = schedule_period db ∧
  schedule_shift_request (generate_schedule cbc t pid uid db).2 = schedule_shift_request db ∧
  schedule_daily_requirement (generate_schedule cbc t pid uid db).2 =
    schedule_daily_requirement db.
Proof.
  destruct (generate_schedule_cases cbc t pid uid db)
    as (d & entry & db1 & -> & _ & _ & _ & _ & _ & [(_ & -> & _)|(_ & self & st & vals & _ & _ & _ & -> & _)]);
    cbn [snd];
    match goal with
    | |- context [logged ?e ?x] =>
        destruct (logged_frame e x) as (-> & -> & -> & -> & -> & ->)
    end; done.
Qed.

Lemma run_succeeded_success_true r d :
  r.1 = Return d → run_succeeded r ↔ d !! "success" = Some (PyBool true).
Proof.
  intros Hr. unfold run_succeeded. split.
  - intros (d' & Hd' & Hs). rewrite Hr in Hd'. by injection Hd' as <-.
  - intros Hs. by exists d.
Qed.

(** Outside the success path nothing but the log is written. *)
Lemma failed_run_unchanged cbc t pid uid db :
  ¬ run_succeeded (generate_schedule cbc t pid uid db) →
  schedule_shift_assignment (generate_schedule cbc t pid uid db).2 =
    schedule_shift_assignment db ∧
  ∃ d, (generate_schedule cbc t pid uid db).1 = Return d ∧
       d !! "success" = Some (PyBool false) ∧
       d !! "assignments_count" = Some (PyInt 0).
Proof.
  intros Hfail.
  destruct (generate_schedule_cases cbc t pid uid db)
    as (d & entry & db1 & Hrun & _ & _ & _ & _ & Hsucc & [(Hf & -> & Hcount & _)|(Ht & _)]).
  - rewrite Hrun. cbn [fst snd]. rewrite logged_shift_assignment. split; [done|].
    exists d. rewrite Hf in Hsucc. done.
  - exfalso. apply Hfail. exists d. rewrite Hrun, Hsucc, Ht. done.
Qed.

(** X3. A run that does not succeed, for whatever reason, leaves the
    assignment table exactly as it was and reports success = False with
    an assignments count of 0. *)
Theorem failed_run_keeps_assignments cbc t pid uid db :
  ¬ run_succeeded (generate_schedule cbc t pid uid db) →
  schedule_shift_assignment (generate_schedule cbc t pid uid db).2 =
    schedule_shift_assignment db ∧
  ∃ d, (generate_schedule cbc t pid uid db).1 = Return d ∧
       d !! "success" = Some (PyBool false) ∧
       d !! "assignments_count" = Some (PyInt 0).
Proof.
  intros Hfail.
  destruct (generate_schedule_cases cbc t pid uid db)
    as (d & entry & db1 & Hrun & _ & _ & _ & _ & Hsucc & Hcases).
  destruct Hcases as [(Hf & -> & Hcount & _)|(Ht & _)].
  - rewrite Hrun. cbn [fst snd]. split; [apply logged_shift_assignment|].
    exists d. split; [done|]. split; [by rewrite Hsucc, Hf|done].
  - exfalso. apply Hfail. exists d. split; [by rewrite Hrun|]. by rewrite Hsucc, Ht.
Qed.

Lemma failed_run_keeps_assignments_witness :
  schedule_shift_assignment (generate_schedule infeasible_cbc 1.5 1 (Some 1) rerun_db).2 =
    earlier_assignments.
Proof.
  apply (failed_run_keeps_assignments infeasible_cbc 1.5 1 (Some 1) rerun_db).
  intros (d & Hd & Hs). apply (f_equal (λ r, match r with
                                            | Return d => d !! "success"
                                            | Raise _ => None
                                            end)) in Hd.
  cbn in Hd. rewrite Hs in Hd. discriminate Hd.
Defined.

(** X4. When the solver itself raises, [solve] turns the exception into
    the message 計算エラー: ..., and the run reports it, writes no
    assignment and appends a failure log entry with that message. *)
Theorem solver_exception_is_reported cbc t pid uid db self p e :
  ShiftOptimizer_init db pid = Return self →
  problem (create_optimization_problem self) = Some p →
  cbc p = Raise e →
  user_exists db uid →
  ∃ d db',
    generate_schedule cbc t pid uid db = (Return d, db') ∧
    d !! "success" = Some (PyBool false) ∧
    d !! "message" = Some (PyStr ("計算エラー: " +:+ exc_str e)) ∧
    d !! "assignments_count" = Some (PyInt 0) ∧
    schedule_shift_assignment db' = schedule_shift_assignment db ∧
    schedule_log db' =
      schedule_log db ++
      [mkScheduleLog pid "ai_create" uid ("計算エラー: " +:+ exc_str e) false t].
Proof.
  intros Hinit Hp Hcbc Huser.
  rewrite create_optimization_problem_closed in Hp. injection Hp as <-.
  rewrite generate_schedule_eq. unfold generate_schedule_closed.
  rewrite Hinit, Hcbc.
  eexists _, _. split; [reflexivity|]. do 3 (split; [reflexivity|]).
  split; [apply logged_shift_assignment|].
  apply logged_log. split; [|done]. cbn.
  apply ShiftOptimizer_init_inv in Hinit as (Hget & _).
  apply SchedulePeriod_get_inv in Hget as [Hin <-].
  apply list_elem_of_In, in_map. by apply list_elem_of_In.
Qed.

Lemma solver_exception_is_reported_witness :
  ∃ d db',
    generate_schedule crashing_cbc 1.5 1 (Some 1) demo_db = (Return d, db') ∧
    d !! "success" = Some (PyBool false) ∧
    d !! "message" = Some (PyStr "計算エラー: Pulp: Error while executing cbc") ∧
    d !! "assignments_count" = Some (PyInt 0) ∧
    schedule_shift_assignment db' = [] ∧
    schedule_log db' =
      [mkScheduleLog 1 "ai_create" (Some 1) "計算エラー: Pulp: Error while executing cbc"
         false 1.5].
Proof.
  apply (solver_exception_is_reported crashing_cbc 1.5 1 (Some 1) demo_db demo_self
           (model demo_self)
           (mkException "PulpSolverError" "Pulp: Error while executing cbc")
           demo_self_init (create_optimization_problem_closed demo_self) eq_refl).
  by left.
Defined.

(** X5. Every run stores one log entry when the period exists and the
    acting user, if given, exists: it carries the period, the action
    [ai_create], the user and the execution time, and its success flag is
    the ['success'] of the returned dict. *)
Theorem run_appends_one_log_entry cbc t pid uid db period :
  SchedulePeriod_get db pid = Return period →
  user_exists db uid →
  ∃ d db' entry,
    generate_schedule cbc t pid uid db = (Return d, db') ∧
    schedule_log db' = schedule_log db ++ [entry] ∧
    log_period_id entry = pid ∧ log_action entry = "ai_create" ∧
    log_user_id entry = uid ∧ log_execution_time entry = t ∧
    d !! "success" = Some (PyBool (log_success entry)).
Proof.
  intros Hget Huser.
  destruct (generate_schedule_cases cbc t pid uid db)
    as (d & entry & db1 & Hrun & Hpid & Hact & Huid & Ht & Hsucc & Hcases).
  exists d, (logged entry db1), entry. split; [done|].
  assert (Hframe : auth_user db1 = auth_user db ∧ schedule_period db1 = schedule_period db ∧
                   schedule_log db1 = schedule_log db).
  { destruct Hcases as [(_ & -> & _)|(_ & self & st & vals & _ & _ & _ & -> & _)]; done. }
  destruct Hframe as (Hu & Hp & Hl).
  split; [|done].
  rewrite logged_log, Hl; [done|].
  unfold log_references_exist. rewrite Hpid, Huid, Hu, Hp. split; [|done].
  apply SchedulePeriod_get_inv in Hget as [Hin <-].
  apply list_elem_of_In, in_map. by apply list_elem_of_In.
Qed.

Lemma run_appends_one_log_entry_witness :
  ∃ d db' entry,
    generate_schedule demo_cbc 1.5 1 (Some 1) demo_db = (Return d, db') ∧
    schedule_log db' = schedule_log demo_db ++ [entry] ∧
    log_period_id entry = 1 ∧ log_action entry = "ai_create" ∧
    log_user_id entry = Some 1 ∧ log_execution_time entry = 1.5%float ∧
    d !! "success" = Some (PyBool (log_success entry)).
Proof.
  apply (run_appends_one_log_entry demo_cbc 1.5 1 (Some 1) demo_db demo_period eq_refl).
  by left.
Defined.

(** ** What a run replaces and what it keeps *)

Lemma kept_assignments_of_table self vals db :
  date_range self = period_days (period self) →
  filter (λ a, ¬ in_date_range (start_date (period self)) (end_date (period self)) a)
    (kept_assignments self db ++ assignment_rows self vals db) =
  kept_assignments self db.
Proof.
  intros Hrange. rewrite filter_app.
  rewrite (filter_all _ (kept_assignments self db)).
  - rewrite filter_none; [by rewrite app_nil_r|].
    apply Forall_forall. intros a (s & d & Hs & Hd & ->)%elem_of_assignment_rows Hout.
    apply Hout. rewrite Hrange in Hd. apply elem_of_date_range in Hd.
    unfold in_date_range. pose proof (assignment_row_key vals db s d) as Hk.
    unfold assignment_key in Hk. injection Hk as _ ->. done.
  - apply Forall_forall. intros a Ha. by apply kept_assignments_out_of_range in Ha.
Qed.

(** The first component of a successful run and its table. *)
Lemma run_succeeded_table cbc t pid uid db per :
  run_succeeded (generate_schedule cbc t pid uid db) →
  SchedulePeriod_get db pid = Return per →
  ∃ self vals,
    period self = per ∧
    staff_list self = active_staff db ∧
    date_range self = period_days per ∧
    schedule_shift_assignment (generate_schedule cbc t pid uid db).2 =
      kept_assignments self db ++ assignment_rows self vals db ∧
    period_assignments per (generate_schedule cbc t pid uid db).2 =
      assignment_rows self vals db ∧
    (generate_schedule cbc t pid uid db).1 =
      Return (success_result (workday_count (assignment_rows self vals db)) t).
Proof.
  intros Hrun Hget.
  apply run_succeeded_inv in Hrun as (self & st & vals & Hinit & _ & _ & _ & Htable & Hres).
  destruct (ShiftOptimizer_init_inv _ _ _ Hinit) as (Hget' & Hstaff & Hrange & _).
  rewrite Hget in Hget'. injection Hget' as ->.
  exists self, vals. do 4 (split; [done|]). split; [|done].
  unfold period_assignments. rewrite Htable. by apply period_assignments_rows.
Qed.

Lemma run_succeeded_or_not cbc t pid uid db :
  run_succeeded (generate_schedule cbc t pid uid db) ∨
  ¬ run_succeeded (generate_schedule cbc t pid uid db).
Proof.
  destruct (generate_schedule_cases cbc t pid uid db)
    as (d & entry & db1 & Hrun & _ & _ & _ & _ & Hsucc & _).
  destruct (log_success entry).
  - left. exists d. by rewrite Hrun.
  - right. intros (d' & Hd' & Hs). rewrite Hrun in Hd'. injection Hd' as <-. congruence.
Qed.

(** X7. A run never touches an assignment dated outside the period it
    schedules: those rows are the same, in the same order, before and
    after, whether the run succeeds or fails. *)
Theorem assignments_outside_period_untouched cbc t pid uid db period :
  SchedulePeriod_get db pid = Return period →
  filter (λ a, ¬ in_date_range (start_date period) (end_date period) a)
    (schedule_shift_assignment (generate_schedule cbc t pid uid db).2) =
  filter (λ a, ¬ in_date_range (start_date period) (end_date period) a)
    (schedule_shift_assignment db).
Proof.
  intros Hget.
  destruct (run_succeeded_or_not cbc t pid uid db) as [Hrun|Hfail].
  - destruct (run_succeeded_table _ _ _ _ _ _ Hrun Hget)
      as (self & vals & Hperiod & _ & Hrange & Htable & _).
    rewrite Htable, <- Hperiod. apply kept_assignments_of_table. by rewrite Hperiod.
  - apply failed_run_unchanged in Hfail as [-> _]. done.
Qed.

Lemma assignments_outside_period_untouched_witness :
  filter (λ a, ¬ in_date_range 100 103 a)
    (schedule_shift_assignment (generate_schedule demo_cbc 1.5 1 (Some 1) rerun_db).2) =
  [mkShiftAssignment 10 99 true None true false].
Proof.
  apply (assignments_outside_period_untouched demo_cbc 1.5 1 (Some 1) rerun_db demo_period
           eq_refl).
Defined.

(** X8. After a successful run every assignment of the period is one the
    run wrote: it is flagged as created by the AI and not manually
    adjusted, a work day carries no holiday type and an off day the type
    named 週休 (none when there is no such type). Manual adjustments made
    before the run are gone. *)
Theorem successful_run_replaces_period_rows cbc t pid uid db period a :
  run_succeeded (generate_schedule cbc t pid uid db) →
  SchedulePeriod_get db pid = Return period →
  a ∈ period_assignments period (generate_schedule cbc t pid uid db).2 →
  created_by_ai a = true ∧ manually_adjusted a = false ∧
  holiday_type a = (if is_workday a then None else default_holiday db).
Proof.
  intros Hrun Hget Ha.
  destruct (run_succeeded_table _ _ _ _ _ _ Hrun Hget)
    as (self & vals & _ & _ & _ & _ & Hrows & _).
  rewrite Hrows in Ha. apply elem_of_assignment_rows in Ha as (s & d & _ & _ & ->).
  unfold assignment_row. by case_decide.
Qed.

Lemma rerun_db_run_succeeded :
  run_succeeded (generate_schedule demo_cbc 1.5 1 (Some 1) rerun_db).
Proof. exists (success_result 1 1.5). split; reflexivity. Qed.

Lemma successful_run_replaces_period_rows_witness :
  mkShiftAssignment 10 101 true None false true ∈ schedule_shift_assignment rerun_db ∧
  created_by_ai (mkShiftAssignment 10 101 false (Some (mkHolidayType 1 "週休")) true false)
    = true ∧
  manually_adjusted (mkShiftAssignment 10 101 false (Some (mkHolidayType 1 "週休")) true false)
    = false ∧
  holiday_type (mkShiftAssignment 10 101 false (Some (mkHolidayType 1 "週休")) true false)
    = default_holiday rerun_db.
Proof.
  split; [by_evaluation|].
  apply (successful_run_replaces_period_rows demo_cbc 1.5 1 (Some 1) rerun_db demo_period
           (mkShiftAssignment 10 101 false (Some (mkHolidayType 1 "週休")) true false)
           rerun_db_run_succeeded eq_refl).
  by_evaluation.
Defined.

(** X9. The [assignments_count] a successful run returns is the number of
    work-day assignments the table then holds for the period, and the
    message and the execution time are reported with it. *)
Theorem reported_count_is_persisted_work_days cbc t pid uid db period :
  run_succeeded (generate_schedule cbc t pid uid db) →
  SchedulePeriod_get db pid = Return period →
  let n := workday_count (period_assignments period (generate_schedule cbc t pid uid db).2) in
  ∃ d,
    (generate_schedule cbc t pid uid db).1 = Return d ∧
    d !! "assignments_count" = Some (PyInt n) ∧
    d !! "message" =
      Some (PyStr ("シフトの自動作成が完了しました。" +:+ pretty n
                   +:+ "件の勤務を割り当てました。")) ∧
    d !! "execution_time" = Some (PyFloat t).
Proof.
  intros Hrun Hget.
  destruct (run_succeeded_table _ _ _ _ _ _ Hrun Hget)
    as (self & vals & _ & _ & _ & _ & Hrows & Hres).
  cbn zeta. rewrite Hrows. eexists. split; [exact Hres|]. done.
Qed.

Lemma reported_count_is_persisted_work_days_witness :
  ∃ d,
    (generate_schedule demo_cbc 1.5 1 (Some 1) demo_db).1 = Return d ∧
    d !! "assignments_count" =
      Some (PyInt (workday_count
                     (period_assignments demo_period
                        (generate_schedule demo_cbc 1.5 1 (Some 1) demo_db).2))) ∧
    d !! "message" =
      Some (PyStr ("シフトの自動作成が完了しました。"
                   +:+ pretty (workday_count
                                 (period_assignments demo_period
                                    (generate_schedule demo_cbc 1.5 1 (Some 1) demo_db).2))
                   +:+ "件の勤務を割り当てました。")) ∧
    d !! "execution_time" = Some (PyFloat 1.5).
Proof.
  apply (reported_count_is_persisted_work_days demo_cbc 1.5 1 (Some 1) demo_db demo_period
           demo_run_succeeded eq_refl).
Defined.

(** ** A run followed by the statistics *)

Lemma SchedulePeriod_get_frame db db' pid :
  schedule_period db' = schedule_period db →
  SchedulePeriod_get db' pid = SchedulePeriod_get db pid.
Proof. intros H. unfold SchedulePeriod_get. by rewrite H. Qed.

Lemma days_count_length period :
  Z.of_nat (length (period_days period)) = Z.max 0 (days_count period).
Proof. rewrite length_date_range. unfold days_count. lia. Qed.

(** X10. The statistics read after a successful run agree with it: the
    work-day count is the [assignments_count] the run returned, the total
    is the number of active workers times the [days_count] of the period
    (0 days when the period ends before it starts), and the off days are
    the difference. *)
Theorem statistics_after_successful_run cbc t pid uid db period :
  run_succeeded (generate_schedule cbc t pid uid db) →
  SchedulePeriod_get db pid = Return period →
  ∃ d stats n,
    (generate_schedule cbc t pid uid db).1 = Return d ∧
    get_optimization_statistics pid (generate_schedule cbc t pid uid db).2 = Return stats ∧
    d !! "assignments_count" = Some (PyInt n) ∧
    stats !! "workday_assignments" = Some (PyInt n) ∧
    stats !! "total_assignments" =
      Some (PyInt (Z.of_nat (length (active_staff db)) * Z.max 0 (days_count period))) ∧
    stats !! "holiday_assignments" =
      Some (PyInt (Z.of_nat (length (active_staff db)) * Z.max 0 (days_count period) - n)).
Proof.
  intros Hrun Hget.
  destruct (run_succeeded_table _ _ _ _ _ _ Hrun Hget)
    as (self & vals & _ & Hstaff & Hrange & _ & Hrows & Hres).
  destruct (generate_schedule_frame cbc t pid uid db) as (_ & _ & _ & Hperiods & _).
  pose proof (SchedulePeriod_get_frame _ _ pid Hperiods) as Hget'. rewrite Hget in Hget'.
  assert (Hlen : Z.of_nat (length (assignment_rows self vals db)) =
                 Z.of_nat (length (active_staff db)) * Z.max 0 (days_count period)).
  { rewrite length_assignment_rows, Hstaff, Hrange, Nat2Z.inj_mul, days_count_length. done. }
  eexists _, _, (workday_count (assignment_rows self vals db)).
  split; [exact Hres|].
  unfold get_optimization_statistics, get_optimization_statistics_try. rewrite Hget'.
  fold (period_assignments period (generate_schedule cbc t pid uid db).2).
  rewrite Hrows. split; [reflexivity|]. split; [reflexivity|].
  split; [reflexivity|]. rewrite <- Hlen. split; reflexivity.
Qed.

Lemma statistics_after_successful_run_witness :
  ∃ d stats n,
    (generate_schedule demo_cbc 1.5 1 (Some 1) demo_db).1 = Return d ∧
    get_optimization_statistics 1 (generate_schedule demo_cbc 1.5 1 (Some 1) demo_db).2 =
      Return stats ∧
    d !! "assignments_count" = Some (PyInt n) ∧
    stats !! "workday_assignments" = Some (PyInt n) ∧
    stats !! "total_assignments" = Some (PyInt (2 * 4)) ∧
    stats !! "holiday_assignments" = Some (PyInt (2 * 4 - n)).
Proof.
  apply (statistics_after_successful_run demo_cbc 1.5 1 (Some 1) demo_db demo_period
           demo_run_succeeded eq_refl).
Defined.

(** ** Running again *)

(** The optimizer reads the period, staff, request and requirement tables
    only. *)
Lemma ShiftOptimizer_init_frame db db' pid :
  schedule_period db' = schedule_period db →
  schedule_staff_profile db' = schedule_staff_profile db →
  schedule_shift_request db' = schedule_shift_request db →
  schedule_daily_requirement db' = schedule_daily_requirement db →
  ShiftOptimizer_init db' pid = ShiftOptimizer_init db pid.
Proof.
  intros Hp Hs Hr Hq.
  unfold ShiftOptimizer_init, SchedulePeriod_get, _load_shift_requests,
    _load_daily_requirements.
  by rewrite Hp, Hs, Hr, Hq.
Qed.

Lemma assignment_rows_frame self vals db db' :
  schedule_holiday_type db' = schedule_holiday_type db →
  assignment_rows self vals db' = assignment_rows self vals db.
Proof.
  intros Hh. unfold assignment_rows, assignment_row, default_holiday. by rewrite Hh.
Qed.

(** The success path of a run. *)
Lemma run_success_intro cbc t pid uid db self st vals :
  ShiftOptimizer_init db pid = Return self →
  cbc (model self) = Return (st, vals) →
  st = "Optimal" ∨ st = "Feasible" →
  NoDup (map assignment_key (kept_assignments self db ++ assignment_rows self vals db)) →
  run_succeeded (generate_schedule cbc t pid uid db) ∧
  schedule_shift_assignment (generate_schedule cbc t pid uid db).2 =
    kept_assignments self db ++ assignment_rows self vals db.
Proof.
  intros Hinit Hcbc Hst Hnd.
  rewrite generate_schedule_eq. unfold generate_schedule_closed.
  rewrite Hinit, Hcbc, decide_True by done. cbn zeta. rewrite decide_True by done.
  split; [|cbn [snd]; by rewrite logged_shift_assignment].
  eexists. split; [reflexivity|]. done.
Qed.

(** The database a successful run leaves, seen by the next run. *)
Lemma rerun_setup cbc t pid uid db :
  run_succeeded (generate_schedule cbc t pid uid db) →
  ∃ self st vals,
    ShiftOptimizer_init db pid = Return self ∧
    ShiftOptimizer_init (generate_schedule cbc t pid uid db).2 pid = Return self ∧
    cbc (model self) = Return (st, vals) ∧
    (st = "Optimal" ∨ st = "Feasible") ∧
    NoDup (map assignment_key (kept_assignments self db ++ assignment_rows self vals db)) ∧
    schedule_shift_assignment (generate_schedule cbc t pid uid db).2 =
      kept_assignments self db ++ assignment_rows self vals db ∧
    kept_assignments self (generate_schedule cbc t pid uid db).2 = kept_assignments self db ∧
    (∀ vals', assignment_rows self vals' (generate_schedule cbc t pid uid db).2 =
              assignment_rows self vals' db).
Proof.
  intros Hrun.
  apply run_succeeded_inv in Hrun as (self & st & vals & Hinit & Hcbc & Hst & Hnd & Htable & _).
  destruct (generate_schedule_frame cbc t pid uid db) as (_ & Hs & Hh & Hp & Hr & Hq).
  destruct (ShiftOptimizer_init_inv _ _ _ Hinit) as (_ & _ & Hrange & _).
  exists self, st, vals. split; [done|].
  split; [by rewrite (ShiftOptimizer_init_frame db _ pid Hp Hs Hr Hq)|].
  do 4 (split; [done|]). split.
  - unfold kept_assignments at 1. rewrite Htable. by apply kept_assignments_of_table.
  - intros vals'. by apply assignment_rows_frame.
Qed.

(** X11. Running the service again on the database a successful run left,
    with a solver that gives the same answers, succeeds again and leaves
    the assignment table as the first run left it. *)
Theorem rerun_reproduces_schedule cbc cbc' t t' pid uid uid' db :
  run_succeeded (generate_schedule cbc t pid uid db) →
  (∀ p, cbc' p = cbc p) →
  run_succeeded
    (generate_schedule cbc' t' pid uid' (generate_schedule cbc t pid uid db).2) ∧
  schedule_shift_assignment
    (generate_schedule cbc' t' pid uid' (generate_schedule cbc t pid uid db).2).2 =
  schedule_shift_assignment (generate_schedule cbc t pid uid db).2.
Proof.
  intros Hrun Hsame.
  destruct (rerun_setup _ _ _ _ _ Hrun)
    as (self & st & vals & _ & Hinit & Hcbc & Hst & Hnd & Htable & Hkept & Hrows).
  rewrite <- Hsame in Hcbc.
  rewrite <- Hkept, <- (Hrows vals) in Hnd.
  destruct (run_success_intro cbc' t' pid uid' _ self st vals Hinit Hcbc Hst Hnd)
    as [Hrun' Htable'].
  split; [done|]. by rewrite Htable', Htable, Hkept, Hrows.
Qed.

Lemma rerun_reproduces_schedule_witness :
  run_succeeded
    (generate_schedule demo_cbc 2.5 1 None
       (generate_schedule demo_cbc 1.5 1 (Some 1) rerun_db).2) ∧
  schedule_shift_assignment
    (generate_schedule demo_cbc 2.5 1 None
       (generate_schedule demo_cbc 1.5 1 (Some 1) rerun_db).2).2 =
  schedule_shift_assignment (generate_schedule demo_cbc 1.5 1 (Some 1) rerun_db).2.
Proof.
  apply (rerun_reproduces_schedule demo_cbc demo_cbc 1.5 2.5 1 (Some 1) None rerun_db
           rerun_db_run_succeeded).
  reflexivity.
Defined.

(** X12. Successful runs do not accumulate rows: whatever the solver
    answers the second time, the table holds as many assignments after a
    second successful run as after the first. *)
Theorem rerun_keeps_table_size cbc cbc' t t' pid uid uid' db :
  run_succeeded (generate_schedule cbc t pid uid db) →
  run_succeeded
    (generate_schedule cbc' t' pid uid' (generate_schedule cbc t pid uid db).2) →
  length (schedule_shift_assignment
            (generate_schedule cbc' t' pid uid' (generate_schedule cbc t pid uid db).2).2) =
  length (schedule_shift_assignment (generate_schedule cbc t pid uid db).2).
Proof.
  intros Hrun Hrun'.
  destruct (rerun_setup _ _ _ _ _ Hrun)
    as (self & st & vals & _ & Hinit & _ & _ & _ & Htable & Hkept & Hrows).
  apply run_succeeded_inv in Hrun'
    as (self' & st' & vals' & Hinit' & _ & _ & _ & Htable' & _).
  rewrite Hinit in Hinit'. injection Hinit' as <-.
  rewrite Htable', Htable, Hkept, Hrows, !length_app, !length_assignment_rows. done.
Qed.

Lemma rerun_keeps_table_size_witness :
  length (schedule_shift_assignment
            (generate_schedule demo_cbc 2.5 1 None
               (generate_schedule demo_cbc 1.5 1 (Some 1) rerun_db).2).2) =
  length (schedule_shift_assignment (generate_schedule demo_cbc 1.5 1 (Some 1) rerun_db).2).
Proof.
  apply (rerun_keeps_table_size demo_cbc demo_cbc 1.5 2.5 1 (Some 1) None rerun_db
           rerun_db_run_succeeded).
  exists (success_result 1 2.5). split; reflexivity.
Defined.

(** ** Inputs no schedule can satisfy *)

Lemma lpSum_binary_le_length vals (xs : list LpVariable) :
  (∀ x, x ∈ xs → vals x = Some 0 ∨ vals x = Some 1) →
  expr_value vals (lpSum_vars xs) ≤ Z.of_nat (length xs).
Proof.
  intros Hbin. rewrite lpSum_binary_count by done.
  pose proof (length_filter_le (λ x, vals x = Some 1) xs). lia.
Qed.

(** X13. When a day of the period requires more workers of a job type than
    there are active workers of that type (and there is at least one), no
    answer satisfies the model: a run whose solver keeps its contract does
    not succeed. *)
Theorem understaffed_requirement_fails cbc t pid uid db per q :
  SchedulePeriod_get db pid = Return per →
  requirements_unique db →
  q ∈ schedule_daily_requirement db →
  requirement_period q = pid →
  start_date per ≤ requirement_date q ≤ end_date per →
  (0 < length (filter (λ s, job_type s = Some (requirement_job_type q)) (active_staff db))
     < min_staff_count q)%nat →
  solver_sound_for cbc db pid →
  ¬ run_succeeded (generate_schedule cbc t pid uid db).
Proof.
  intros Hget Hu Hq Hpid Hday [Hsome Hfew] Hsound Hrun.
  destruct (run_succeeded_feasible _ _ _ _ _ Hrun Hsound)
    as (self & vals & Hinit & Hfeas & _).
  destruct (ShiftOptimizer_init_inv _ _ _ Hinit) as (Hget' & Hstaff & Hrange & _ & Hreqs).
  rewrite Hget in Hget'. injection Hget' as ->.
  set (d := requirement_date q) in *. set (j := requirement_job_type q) in *.
  assert (Hd : d ∈ date_range self) by (rewrite Hrange; by apply elem_of_date_range).
  assert (Hs : ∃ s, s ∈ staff_list self ∧ job_type s = Some j).
  { rewrite Hstaff.
    destruct (filter (λ s, job_type s = Some j) (active_staff db)) as [|s l] eqn:Hf;
      [cbn in Hsome; lia|].
    assert (Hin : s ∈ filter (λ s, job_type s = Some j) (active_staff db))
      by (rewrite Hf; by left).
    apply list_elem_of_filter in Hin as [? ?]. by exists s. }
  assert (Hlookup : requirements self !! (d, j) =
            Some (mkRequirementEntry (min_staff_count q) (required_staff_count q))).
  { rewrite Hreqs. apply load_daily_requirements_lookup; [done|done|].
    apply SchedulePeriod_get_inv in Hget as [_ Hid]. by rewrite Hid. }
  pose proof (elem_of_daily_minimum_constraints self d j _ Hd Hs Hlookup) as Hc.
  assert (Hc' : mkLpConstraint (daily_min d j) (lpSum_vars (staff_vars self d j))
                  LpConstraintGE (Z.of_nat (min_staff_count q)) ∈ constraints (model self)).
  { cbn. unfold model_constraints. rewrite !elem_of_app. tauto. }
  pose proof (feasible_holds _ _ _ Hfeas Hc') as Hge. apply holds_GE in Hge.
  assert (Hle : expr_value vals (lpSum_vars (staff_vars self d j)) ≤
                Z.of_nat (length (staff_vars self d j))).
  { apply lpSum_binary_le_length. intros x Hx.
    apply (feasible_binary (model self) vals _ _ Hfeas Hc').
    cbn [constraint_expr]. by rewrite map_snd_lpSum_vars. }
  unfold staff_vars in Hle at 2. rewrite length_map, Hstaff in Hle. lia.
Qed.

Lemma infeasible_cbc_sound_for db pid : solver_sound_for infeasible_cbc db pid.
Proof. intros self p _ _ st vals [= <- <-] [?|?]; done. Qed.

Lemma understaffed_requirement_fails_witness :
  ¬ run_succeeded (generate_schedule infeasible_cbc 1.5 1 (Some 1) understaffed_db).
Proof.
  apply (understaffed_requirement_fails infeasible_cbc 1.5 1 (Some 1) understaffed_db
           demo_period understaffed_requirement eq_refl).
  - by_evaluation.
  - by left.
  - reflexivity.
  - by_evaluation.
  - by_evaluation.
  - apply infeasible_cbc_sound_for.
Defined.

(** X14. A scheduled worker whose work style [WorkStyle.clean] rejects
    (minimum above maximum), or asks for more shifts than the period has
    days, makes the model unsatisfiable: a run whose solver keeps its
    contract does not succeed. *)
Theorem inconsistent_work_style_fails cbc t pid uid db per s ws :
  SchedulePeriod_get db pid = Return per →
  s ∈ active_staff db → work_style s = Some ws →
  is_raise (WorkStyle_clean ws) ∨
    Z.max 0 (days_count per) < Z.of_nat (min_shifts_per_month ws) →
  solver_sound_for cbc db pid →
  ¬ run_succeeded (generate_schedule cbc t pid uid db).
Proof.
  intros Hget Hs Hws Hbad Hsound Hrun.
  destruct (run_succeeded_feasible _ _ _ _ _ Hrun Hsound)
    as (self & vals & Hinit & Hfeas & _).
  destruct (ShiftOptimizer_init_inv _ _ _ Hinit) as (Hget' & Hstaff & Hrange & _).
  rewrite Hget in Hget'. injection Hget' as ->.
  rewrite <- Hstaff in Hs.
  assert (Hpos : (0 < min_shifts_per_month ws)%nat).
  { destruct Hbad as [Hbad|Hbad]; [|lia].
    unfold WorkStyle_clean in Hbad. case_decide; [lia|done]. }
  pose proof (elem_of_monthly_max self s ws Hs Hws) as Hmax.
  pose proof (elem_of_monthly_min self s ws Hs Hws Hpos) as Hmin.
  pose proof (feasible_holds _ _ _ Hfeas Hmax) as Hle.
  pose proof (feasible_holds _ _ _ Hfeas Hmin) as Hge.
  unfold holds in Hle, Hge. cbn [constraint_sense constraint_expr constraint_rhs] in Hle, Hge.
  assert (Hlen : expr_value vals (lpSum_vars (monthly_vars self s)) ≤
                 Z.of_nat (length (monthly_vars self s))).
  { apply lpSum_binary_le_length. intros x Hx.
    apply (feasible_binary (model self) vals _ _ Hfeas Hmax).
    cbn [constraint_expr]. by rewrite map_snd_lpSum_vars. }
  unfold monthly_vars in Hlen at 2. rewrite length_map, Hrange, days_count_length in Hlen.
  destruct Hbad as [Hbad|Hbad]; [|lia].
  unfold WorkStyle_clean in Hbad. case_decide; [lia|done].
Qed.

Lemma inconsistent_work_style_fails_witness :
  WorkStyle_clean inconsistent_work_style =
    Raise (mkException "ValidationError"
             "['最低勤務日数は最大勤務日数以下である必要があります。']") ∧
  ¬ run_succeeded (generate_schedule infeasible_cbc 1.5 1 (Some 1) inconsistent_db).
Proof.
  split; [reflexivity|].
  apply (inconsistent_work_style_fails infeasible_cbc 1.5 1 (Some 1) inconsistent_db
           demo_period inconsistent_staff inconsistent_work_style eq_refl).
  - by left.
  - reflexivity.
  - left. exact I.
  - apply infeasible_cbc_sound_for.
Defined.

(** ** A period that ends before it starts *)

Lemma assignment_rows_no_dates self vals db :
  date_range self = [] → assignment_rows self vals db = [].
Proof.
  intros Hd. unfold assignment_rows. rewrite Hd.
  induction (staff_list self) as [|s l IH]; [done|]. cbn. exact IH.
Qed.

(** X15. For a period whose end date lies before its start date there is
    nothing to schedule: a run that succeeds leaves the assignment table
    as it was and reports an assignments count of 0. *)
Theorem inverted_period_writes_nothing cbc t pid uid db per :
  run_succeeded (generate_schedule cbc t pid uid db) →
  SchedulePeriod_get db pid = Return per →
  end_date per < start_date per →
  schedule_shift_assignment (generate_schedule cbc t pid uid db).2 =
    schedule_shift_assignment db ∧
  ∃ d, (generate_schedule cbc t pid uid db).1 = Return d ∧
       d !! "assignments_count" = Some (PyInt 0).
Proof.
  intros Hrun Hget Hinv.
  destruct (run_succeeded_table _ _ _ _ _ _ Hrun Hget)
    as (self & vals & Hperiod & _ & Hrange & Htable & _ & Hres).
  assert (Hempty : date_range self = []).
  { apply length_zero_iff_nil. rewrite Hrange, length_date_range. lia. }
  rewrite (assignment_rows_no_dates _ _ _ Hempty) in Htable, Hres.
  rewrite Htable, app_nil_r. split.
  - apply filter_all, Forall_forall. intros a _. unfold in_date_range.
    rewrite Hperiod. lia.
  - eexists. split; [exact Hres|]. done.
Qed.

Lemma inverted_period_writes_nothing_witness :
  schedule_shift_assignment (generate_schedule demo_cbc 1.5 5 (Some 1) inverted_db).2 =
    earlier_assignments ∧
  ∃ d, (generate_schedule demo_cbc 1.5 5 (Some 1) inverted_db).1 = Return d ∧
       d !! "assignments_count" = Some (PyInt 0).
Proof.
  apply (inverted_period_writes_nothing demo_cbc 1.5 5 (Some 1) inverted_db inverted_period).
  - exists (success_result 0 1.5). split; reflexivity.
  - reflexivity.
  - cbn. lia.
Defined.

(** ** Validation and the optimizer *)

Lemma ShiftRequest_clean_cases per r :
  (start_date per ≤ request_date r ≤ end_date per ∧ ShiftRequest_clean per r = Return tt) ∨
  (¬ (start_date per ≤ request_date r ≤ end_date per) ∧
   ShiftRequest_clean per r =
     Raise (mkException "ValidationError" "['希望日は対象期間内である必要があります。']")).
Proof.
  unfold ShiftRequest_clean.
  destruct (decide (start_date per ≤ request_date r ∧ request_date r ≤ end_date per))
    as [Hin|Hout].
  - left. by rewrite bool_decide_eq_true_2.
  - right. by rewrite bool_decide_eq_false_2.
Qed.

(** X16. For a period that ends before [date.max],
    [_generate_date_range] returns the days of the period, and
    [ShiftRequest.clean] accepts a request exactly when its date is one of
    them and raises [ValidationError] otherwise. For a period that holds
    a day and ends on [date.max], [_generate_date_range] raises
    [OverflowError], while [ShiftRequest.clean] still accepts the days
    from the start date to the end date. *)
Theorem clean_request_is_within_date_range per r :
  (end_date per < date_max →
   ∃ dates,
     _generate_date_range per = Return dates ∧
     (ShiftRequest_clean per r = Return tt ↔ request_date r ∈ dates) ∧
     (is_raise (ShiftRequest_clean per r) ↔ request_date r ∉ dates)) ∧
  (start_date per ≤ end_date per → date_max ≤ end_date per →
   _generate_date_range per =
     Raise (mkException "OverflowError" "date value out of range") ∧
   (ShiftRequest_clean per r = Return tt ↔
    start_date per ≤ request_date r ≤ end_date per)).
Proof.
  split.
  - intros Hmax. exists (period_days per).
    split; [apply _generate_date_range_returns; by left|].
    rewrite elem_of_date_range.
    destruct (ShiftRequest_clean_cases per r) as [[Hin ->]|[Hout ->]]; cbn.
    + split; [done|]. split; [done|]. intros Hno. by apply Hno.
    + split; [|done]. split; [done|]. intros Hyes. by apply Hout in Hyes.
  - intros Hle Hmax. split; [by apply _generate_date_range_overflow|].
    destruct (ShiftRequest_clean_cases per r) as [[Hin ->]|[Hout ->]]; [done|].
    split; [done|]. intros Hyes. by apply Hout in Hyes.
Qed.

Lemma clean_request_is_within_date_range_witness :
  (∃ dates,
     _generate_date_range demo_period = Return dates ∧
     dates = [100; 101; 102; 103] ∧
     (ShiftRequest_clean demo_period late_request = Return tt ↔ 110 ∈ dates) ∧
     (is_raise (ShiftRequest_clean demo_period late_request) ↔ 110 ∉ dates)) ∧
  _generate_date_range last_period =
    Raise (mkException "OverflowError" "date value out of range") ∧
  (ShiftRequest_clean last_period (mkShiftRequest 10 1 3652059 2) = Return tt ↔
   3652029 ≤ 3652059 ≤ 3652059).
Proof.
  split.
  - destruct (proj1 (clean_request_is_within_date_range demo_period late_request))
      as (dates & Hdates & Hclean & Hraise); [by_evaluation|].
    exists dates. split; [exact Hdates|]. split; [|by split].
    assert (Hret : _generate_date_range demo_period = Return [100; 101; 102; 103])
      by reflexivity.
    rewrite Hret in Hdates. by injection Hdates as <-.
  - apply (proj2 (clean_request_is_within_date_range last_period
                    (mkShiftRequest 10 1 3652059 2))); by_evaluation.
Defined.

(** A run for a period that ends on [date.max] fails in the constructor of
    the optimizer and reports the [OverflowError]. *)
Lemma run_for_period_ending_on_date_max :
  ShiftOptimizer_init last_period_db 1 =
    Raise (mkException "OverflowError" "date value out of range") ∧
  (generate_schedule demo_cbc 1.5 1 (Some 1) last_period_db).1 =
    Return (failure_result
              ("シフト作成中にエラーが発生しました: " +:+ "date value out of range")).
Proof. split; reflexivity. Qed.

Section LoadAgree.
Context {A K V : Type} `{Countable K}.
Variable key : A → K.
Variable val : A → V.

Lemma for_each_insert_agree (l : list A) (m1 m2 : gmap K V) (k : K) :
  m1 !! k = m2 !! k →
  for_each l (λ x m, <[key x := val x]> m) m1 !! k =
  for_each l (λ x m, <[key x := val x]> m) m2 !! k.
Proof.
  revert m1 m2. induction l as [|x l IH]; intros m1 m2 Hm; [done|].
  change (for_each l (λ x m, <[key x := val x]> m) (<[key x := val x]> m1) !! k =
          for_each l (λ x m, <[key x := val x]> m) (<[key x := val x]> m2) !! k).
  apply IH. destruct (decide (key x = k)) as [<-|Hne].
  - by rewrite !lookup_insert_eq.
  - by rewrite !lookup_insert_ne.
Qed.

(** Rows whose key is not [k] do not matter to the lookup of [k]. *)
Lemma for_each_insert_filter (P : A → Prop) `{!∀ x, Decision (P x)} (l : list A)
    (m : gmap K V) (k : K) :
  (∀ x, x ∈ l → ¬ P x → key x ≠ k) →
  for_each (filter P l) (λ x m, <[key x := val x]> m) m !! k =
  for_each l (λ x m, <[key x := val x]> m) m !! k.
Proof.
  revert m. induction l as [|x l IH]; intros m Hne; [done|].
  change (for_each (x :: l) (λ x m, <[key x := val x]> m) m)
    with (for_each l (λ x m, <[key x := val x]> m) (<[key x := val x]> m)).
  destruct (decide (P x)) as [HP|HP].
  - rewrite filter_cons_True by done.
    change (for_each (x :: filter P l) (λ x m, <[key x := val x]> m) m)
      with (for_each (filter P l) (λ x m, <[key x := val x]> m) (<[key x := val x]> m)).
    apply IH. intros y Hy. apply Hne. by right.
  - rewrite filter_cons_False by done.
    rewrite IH by (intros y Hy; apply Hne; by right).
    apply for_each_insert_agree. rewrite lookup_insert_ne; [done|].
    apply Hne; [by left|done].
Qed.

End LoadAgree.

(** The model reads the requests at the days of the period only. *)
Lemma model_requests_agree per staff dates reqs1 reqs2 rq iw pb :
  (∀ s d, d ∈ dates → reqs1 !! (staff_id s, d) = reqs2 !! (staff_id s, d)) →
  model (mkShiftOptimizer per staff dates reqs1 rq iw pb) =
  model (mkShiftOptimizer per staff dates reqs2 rq iw pb).
Proof.
  intros Hagree. unfold model. f_equal.
  - unfold objective_terms. cbn [staff_list date_range].
    apply flat_map_ext_elem. intros s _. apply flat_map_ext_elem. intros d Hd.
    unfold objective_term. cbn [requests]. by rewrite Hagree.
  - unfold model_constraints. do 3 f_equal.
    unfold holiday_request_constraints. cbn [staff_list date_range].
    apply flat_map_ext_elem. intros s _. apply flat_map_ext_elem. intros d Hd.
    unfold holiday_request_constraint. cbn [requests]. by rewrite Hagree.
Qed.

(** X17. Requests of the period that [ShiftRequest.clean] rejects, being
    dated outside the period, have no influence on the schedule: the
    optimizer builds the same problem with and without them. *)
Theorem rejected_requests_are_ignored db pid self :
  ShiftOptimizer_init db pid = Return self →
  ∃ self',
    ShiftOptimizer_init (without_rejected_requests (period self) db) pid = Return self' ∧
    problem (create_optimization_problem self') = problem (create_optimization_problem self).
Proof.
  intros Hinit. unfold ShiftOptimizer_init in *.
  change (SchedulePeriod_get (without_rejected_requests (period self) db) pid)
    with (SchedulePeriod_get db pid).
  destruct (SchedulePeriod_get db pid) as [per|e]; [|done].
  destruct (_generate_date_range per) as [dates|e] eqn:Hdates; [|done].
  apply _generate_date_range_inv in Hdates as [-> _].
  injection Hinit as <-. cbn [period]. eexists. split; [reflexivity|].
  rewrite !create_optimization_problem_closed. f_equal.
  cbn [schedule_staff_profile without_rejected_requests set_shift_request].
  change (_load_daily_requirements (without_rejected_requests per db) per)
    with (_load_daily_requirements db per).
  apply model_requests_agree. intros s d Hd.
  unfold _load_shift_requests, without_rejected_requests, set_shift_request.
  cbn [schedule_shift_request]. rewrite list_filter_filter.
  rewrite <- (for_each_insert_filter (λ r, (request_staff r, request_date r)) priority
               (λ r, ¬ (request_period r = period_id per ∧
                        is_raise (ShiftRequest_clean per r)))
               (filter (λ r, request_period r = period_id per) (schedule_shift_request db))).
  - rewrite list_filter_filter. f_equal. f_equal. apply list_filter_iff. tauto.
  - intros r [Hper _]%list_elem_of_filter Hrej [= _ Hdate].
    apply dec_stable in Hrej as [_ Hraise].
    destruct (ShiftRequest_clean_cases per r) as [[_ Hok]|[Hout _]];
      [by rewrite Hok in Hraise|].
    apply Hout. rewrite Hdate. rewrite period_days_seqZ in Hd.
    apply elem_of_seqZ in Hd. lia.
Qed.

Lemma rejected_requests_are_ignored_witness :
  schedule_shift_request (without_rejected_requests demo_period late_request_db) =
    schedule_shift_request demo_db ∧
  ∃ self self',
    ShiftOptimizer_init late_request_db 1 = Return self ∧
    ShiftOptimizer_init (without_rejected_requests (period self) late_request_db) 1 =
      Return self' ∧
    problem (create_optimization_problem self') = problem (create_optimization_problem self).
Proof.
  split; [reflexivity|].
  destruct (rejected_requests_are_ignored late_request_db 1 _ eq_refl) as (self' & Hinit & Hp).
  eexists _, self'. split; [reflexivity|]. split; [exact Hinit|exact Hp].
Defined.

(** X18. When a holiday type named 週休 exists, every assignment a
    successful run leaves in the period passes [ShiftAssignment.clean]. *)
Theorem run_rows_pass_clean cbc t pid uid db per a :
  run_succeeded (generate_schedule cbc t pid uid db) →
  SchedulePeriod_get db pid = Return per →
  is_Some (default_holiday db) →
  a ∈ period_assignments per (generate_schedule cbc t pid uid db).2 →
  ShiftAssignment_clean a = Return tt.
Proof.
  intros Hrun Hget Hholiday Ha.
  destruct (run_succeeded_table _ _ _ _ _ _ Hrun Hget)
    as (self & vals & _ & _ & _ & _ & Hrows & _).
  rewrite Hrows in Ha. by apply (rows_clean_with_default_holiday self vals db).
Qed.

Lemma run_rows_pass_clean_witness :
  ShiftAssignment_clean
    (mkShiftAssignment 10 101 false (Some (mkHolidayType 1 "週休")) true false) = Return tt.
Proof.
  apply (run_rows_pass_clean demo_cbc 1.5 1 (Some 1) demo_db demo_period
           (mkShiftAssignment 10 101 false (Some (mkHolidayType 1 "週休")) true false)
           demo_run_succeeded eq_refl).
  - by eexists.
  - by_evaluation.
Defined.

(** ** The task wrapper of [views.py] *)

(** The dict [generate_schedule] returns always has the keys the wrapper
    subscripts. *)
Lemma generate_schedule_result_keys cbc t pid uid db :
  ∃ r ok message count,
    (generate_schedule cbc t pid uid db).1 = Return r ∧
    r !! "success" = Some (PyBool ok) ∧
    r !! "message" = Some (PyStr message) ∧
    r !! "assignments_count" = Some (PyInt count) ∧
    r !! "execution_time" = (if ok then Some (PyFloat t) else None).
Proof.
  rewrite generate_schedule_eq. unfold generate_schedule_closed, except_path, failure_path.
  destruct (ShiftOptimizer_init db pid) as [self|e].
  2: { eexists _, false, _, _. split; [reflexivity|]. done. }
  destruct (cbc (model self)) as [[st vals]|e].
  2: { eexists _, false, _, _. split; [reflexivity|]. done. }
  case_decide.
  2: { eexists _, false, _, _. split; [reflexivity|]. done. }
  cbn zeta. case_decide.
  2: { eexists _, false, _, _. split; [reflexivity|]. done. }
  eexists _, true, _, _. split; [reflexivity|]. done.
Qed.

(** X19. The Celery variant of [run_ai_scheduler_task] never takes its
    [except] branch: it returns a dict with the four keys, forwarding
    success, message and assignments count of [generate_schedule] and
    leaving the database as [generate_schedule] left it. It agrees with the
    synchronous fallback and with [run_shift_optimization_task] on these
    three keys; for a failed run it reports an execution time of 0 where
    they return a dict without that key. *)
Theorem task_wrapper_forwards_result cbc t pid uid db :
  ∃ r db' ok message count,
    run_ai_scheduler_task_sync cbc t pid uid db = (Return r, db') ∧
    run_shift_optimization_task cbc t pid uid db = (Return r, db') ∧
    r !! "success" = Some (PyBool ok) ∧
    r !! "message" = Some (PyStr message) ∧
    r !! "assignments_count" = Some (PyInt count) ∧
    r !! "execution_time" = (if ok then Some (PyFloat t) else None) ∧
    run_ai_scheduler_task cbc t pid uid db =
      (Return {[ "success" := PyBool ok;
                 "message" := PyStr message;
                 "assignments_count" := PyInt count;
                 "execution_time" := if ok then PyFloat t else PyInt 0 ]},
       db').
Proof.
  destruct (generate_schedule_result_keys cbc t pid uid db)
    as (r & ok & message & count & Hr & Hok & Hmsg & Hcount & Htime).
  unfold run_ai_scheduler_task_sync, run_shift_optimization_task.
  unfold run_ai_scheduler_task, try_except, bind at 1.
  destruct (generate_schedule cbc t pid uid db) as [res db'].
  cbn [fst] in Hr. subst res.
  exists r, db', ok, message, count. do 6 (split; [done|]).
  unfold bind, lift, getitem, ret, dict_get. rewrite Hok, Hmsg, Hcount, Htime.
  by destruct ok.
Qed.

(** ** The counters of the statistics *)

(** X20. For an existing period the counters of the statistics are
    consistent whatever the tables hold: work days plus off days give the
    total, and the fulfilled requests are between 0 and the number of
    requests. *)
Theorem statistics_counters_consistent db pid per :
  SchedulePeriod_get db pid = Return per →
  ∃ d total work off requested fulfilled,
    get_optimization_statistics pid db = Return d ∧
    d !! "total_assignments" = Some (PyInt total) ∧
    d !! "workday_assignments" = Some (PyInt work) ∧
    d !! "holiday_assignments" = Some (PyInt off) ∧
    d !! "total_requests" = Some (PyInt requested) ∧
    d !! "fulfilled_requests" = Some (PyInt fulfilled) ∧
    total = work + off ∧ 0 ≤ work ∧ 0 ≤ off ∧
    0 ≤ fulfilled ≤ requested.
Proof.
  intros Hget.
  unfold get_optimization_statistics, get_optimization_statistics_try. rewrite Hget.
  fold (period_assignments per db). fold (period_requests per db).
  eexists _, _, _, _, _, _. split; [reflexivity|]. do 5 (split; [reflexivity|]).
  split; [lia|]. split; [lia|].
  split.
  - pose proof (length_filter_le (λ a, is_workday a = true) (period_assignments per db)). lia.
  - apply (for_each_invariant (λ pre n, 0 ≤ n ≤ Z.of_nat (length pre))); [done|].
    intros pre r n _ Hn. rewrite length_app. cbn [length].
    destruct (head _) as [a|]; [|lia].
    destruct (_ && _); [lia|]. destruct (_ && _); lia.
Qed.

Lemma statistics_counters_consistent_witness :
  ∃ d total work off requested fulfilled,
    get_optimization_statistics 2 stats_db = Return d ∧
    d !! "total_assignments" = Some (PyInt total) ∧
    d !! "workday_assignments" = Some (PyInt work) ∧
    d !! "holiday_assignments" = Some (PyInt off) ∧
    d !! "total_requests" = Some (PyInt requested) ∧
    d !! "fulfilled_requests" = Some (PyInt fulfilled) ∧
    total = work + off ∧ 0 ≤ work ∧ 0 ≤ off ∧
    0 ≤ fulfilled ≤ requested.
Proof.
  apply (statistics_counters_consistent stats_db 2 stats_period eq_refl).
Defined.

(** ** The names of the constraints *)

(** X21. With distinct worker ids, no two constraints of the problem
    [create_optimization_problem] builds carry the same name, so PuLP never
    refuses a constraint for its name. *)
Theorem model_constraint_names_unique db pid self :
  ShiftOptimizer_init db pid = Return self →
  staff_ids_unique db →
  ∃ p,
    problem (create_optimization_problem self) = Some p ∧
    NoDup (map constraint_name (constraints p)).
Proof.
  intros Hinit Hids. exists (model self).
  split; [apply create_optimization_problem_closed|].
  destruct (ShiftOptimizer_init_inv _ _ _ Hinit) as (_ & Hstaff & Hrange & _).
  apply constraint_names_NoDup.
  - rewrite Hstaff. by apply NoDup_map_filter.
  - rewrite Hrange. apply NoDup_date_range.
Qed.

Lemma model_constraint_names_unique_witness :
  ∃ p,
    problem (create_optimization_problem demo_self) = Some p ∧
    NoDup (map constraint_name (constraints p)).
Proof.
  apply (model_constraint_names_unique demo_db 1 demo_self demo_self_init).
  by_evaluation.
Defined.

(** ** The decision variables and the variables of the problem *)

(** Whatever [_create_decision_variables] holds under a key was there
    before or belongs to a worker and a day of the optimizer. *)
Lemma create_decision_variables_inv self k x :
  _create_decision_variables self !! k = Some x →
  is_working self !! k = Some x ∨
  ∃ s d, s ∈ staff_list self ∧ d ∈ date_range self ∧
         k = (staff_id s, strftime d) ∧ x = work (staff_id s) (strftime d).
Proof.
  unfold _create_decision_variables.
  set (Q := is_working self !! k = Some x ∨
            ∃ s d, s ∈ staff_list self ∧ d ∈ date_range self ∧
                   k = (staff_id s, strftime d) ∧ x = work (staff_id s) (strftime d)).
  apply (for_each_invariant (λ _ (m : gmap (Z * Z) LpVariable), m !! k = Some x → Q)).
  { intros Hk. by left. }
  intros _ s m Hs IH.
  apply (for_each_invariant (λ _ (m' : gmap (Z * Z) LpVariable), m' !! k = Some x → Q));
    [done|].
  intros _ d m' Hd IH' Hk.
  destruct (decide ((staff_id s, strftime d) = k)) as [Heq|Hne].
  - rewrite <- Heq, lookup_insert_eq in Hk. injection Hk as <-.
    right. by exists s, d.
  - rewrite lookup_insert_ne in Hk by done. by apply IH'.
Qed.

(** X22. After [create_optimization_problem] the dict [is_working] holds
    a variable under [(id, day)] exactly for the ids of active workers and
    the days of the period, and it is the variable named after the pair;
    any other key is missing. *)
Theorem decision_variables_are_active_worker_days db pid self id d x :
  ShiftOptimizer_init db pid = Return self →
  is_working (create_optimization_problem self) !! (id, strftime d) = Some x ↔
  x = work id (strftime d) ∧
  (∃ s, s ∈ active_staff db ∧ staff_id s = id) ∧
  start_date (period self) ≤ d ≤ end_date (period self).
Proof.
  intros Hinit.
  destruct (ShiftOptimizer_init_inv _ _ _ Hinit) as (_ & Hstaff & Hrange & _).
  assert (Hempty : is_working self = ∅).
  { unfold ShiftOptimizer_init in Hinit.
    destruct (SchedulePeriod_get db pid) as [per|e]; [|done].
    destruct (_generate_date_range per); [|done]. by injection Hinit as <-. }
  change (is_working (create_optimization_problem self))
    with (_create_decision_variables self).
  rewrite <- Hstaff, <- elem_of_date_range, <- Hrange. split.
  - intros [Hk | (s & d' & Hs & Hd & [= -> Hdd] & ->)]%create_decision_variables_inv.
    + by rewrite Hempty in Hk.
    + unfold strftime in Hdd. subst d'. split; [done|]. split; [by exists s|done].
  - intros (-> & (s & Hs & <-) & Hd). by apply create_decision_variables_lookup.
Qed.

Lemma decision_variables_are_active_worker_days_witness :
  is_working (create_optimization_problem demo_self) !! (11, strftime 102) =
    Some (work 11 102) ∧
  is_working (create_optimization_problem demo_self) !! (12, strftime 102) = None ∧
  is_working (create_optimization_problem demo_self) !! (11, strftime 104) = None.
Proof.
  split; [|split].
  - apply (decision_variables_are_active_worker_days demo_db 1 demo_self 11 102 _
             demo_self_init).
    split; [reflexivity|]. split; [|cbn; lia].
    exists demo_staff_11. split; [right; by left|reflexivity].
  - reflexivity.
  - reflexivity.
Defined.

Lemma objective_term_var self s d k x :
  (k, x) ∈ objective_term self s d → x = work (staff_id s) (strftime d).
Proof.
  unfold objective_term. repeat case_decide;
    intros Hin; try (apply list_elem_of_singleton in Hin; by injection Hin as _ ->).
  by apply elem_of_nil in Hin.
Qed.

Lemma elem_of_lpSum_vars_inv k x vars : (k, x) ∈ lpSum_vars vars → x ∈ vars.
Proof.
  unfold lpSum_vars. intros (y & [= _ ->] & Hy)%list_elem_of_fmap. done.
Qed.

(** The variables of a constraint of the model belong to a worker and a day
    of the optimizer. *)
Lemma model_constraint_var self c k x :
  c ∈ model_constraints self → (k, x) ∈ constraint_expr c →
  ∃ s d, s ∈ staff_list self ∧ d ∈ date_range self ∧ x = work (staff_id s) (strftime d).
Proof.
  unfold model_constraints. rewrite !elem_of_app.
  intros [Hc|[Hc|[Hc|Hc]]] Hx.
  - apply elem_of_flat_map in Hc as (d & Hd & Hc).
    apply elem_of_flat_map in Hc as (j & _ & Hc).
    unfold daily_minimum_constraint in Hc.
    destruct (requirements self !! (d, j)) as [req|]; [|by apply elem_of_nil in Hc].
    destruct (staff_vars self d j) as [|v vs] eqn:Hvars; [by apply elem_of_nil in Hc|].
    apply list_elem_of_singleton in Hc. subst c. cbn [constraint_expr] in Hx.
    apply elem_of_lpSum_vars_inv in Hx. rewrite <- Hvars in Hx.
    unfold staff_vars in Hx. apply list_elem_of_fmap in Hx as (s & -> & Hs).
    apply list_elem_of_filter in Hs as [_ Hs]. by exists s, d.
  - apply elem_of_flat_map in Hc as (s & Hs & Hc).
    assert (Hvar : x ∈ monthly_vars self s).
    { unfold monthly_workday_constraint in Hc.
      destruct (work_style s) as [ws|]; [|by apply elem_of_nil in Hc].
      apply elem_of_app in Hc as [Hc|Hc].
      - case_decide; [|by apply elem_of_nil in Hc].
        apply list_elem_of_singleton in Hc. subst c.
        by apply elem_of_lpSum_vars_inv in Hx.
      - apply list_elem_of_singleton in Hc. subst c.
        by apply elem_of_lpSum_vars_inv in Hx. }
    unfold monthly_vars in Hvar. apply list_elem_of_fmap in Hvar as (d & -> & Hd).
    by exists s, d.
  - apply elem_of_flat_map in Hc as (s & Hs & Hc).
    unfold consecutive_workday_constraint in Hc.
    destruct (work_style s) as [ws|]; [|by apply elem_of_nil in Hc].
    case_decide; [|by apply elem_of_nil in Hc].
    apply list_elem_of_fmap in Hc as (i & -> & Hi).
    cbn [constraint_expr consecutive_constraint] in Hx.
    apply elem_of_lpSum_vars_inv in Hx. unfold consecutive_vars in Hx.
    apply list_elem_of_fmap in Hx as (j & -> & Hj).
    unfold range in Hi, Hj. apply elem_of_seq in Hi, Hj.
    exists s, (date_range self !!! (i + j)%nat). split; [done|]. split; [|done].
    apply lookup_total_date_range. lia.
  - apply elem_of_flat_map in Hc as (s & Hs & Hc).
    apply elem_of_flat_map in Hc as (d & Hd & Hc).
    unfold holiday_request_constraint in Hc.
    case_decide; [|by apply elem_of_nil in Hc].
    apply list_elem_of_singleton in Hc. subst c. cbn in Hx.
    apply list_elem_of_singleton in Hx. injection Hx as _ ->. by exists s, d.
Qed.

(** X23. The problem handed to the solver mentions only decision variables
    of active workers on days of the period, each found in [is_working]:
    workers who are not active and days outside the period are never
    scheduled, and no lookup of a variable fails. *)
Theorem problem_mentions_only_declared_variables db pid self p x :
  ShiftOptimizer_init db pid = Return self →
  problem (create_optimization_problem self) = Some p →
  x ∈ variables p →
  ∃ s d,
    s ∈ active_staff db ∧
    start_date (period self) ≤ d ≤ end_date (period self) ∧
    x = work (staff_id s) (strftime d) ∧
    is_working (create_optimization_problem self) !! (staff_id s, strftime d) = Some x.
Proof.
  intros Hinit Hp Hx.
  rewrite create_optimization_problem_closed in Hp. injection Hp as <-.
  destruct (ShiftOptimizer_init_inv _ _ _ Hinit) as (_ & Hstaff & Hrange & _).
  assert (Hsd : ∃ s d, s ∈ staff_list self ∧ d ∈ date_range self ∧
                       x = work (staff_id s) (strftime d)).
  { unfold variables in Hx. apply elem_of_app in Hx as [Hx|Hx].
    - apply list_elem_of_fmap in Hx as ([k y] & -> & Hy). cbn [model objective] in Hy.
      apply elem_of_flat_map in Hy as (s & Hs & Hy).
      apply elem_of_flat_map in Hy as (d & Hd & Hy).
      apply objective_term_var in Hy. by exists s, d.
    - apply elem_of_flat_map in Hx as (c & Hc & Hx).
      apply list_elem_of_fmap in Hx as ([k y] & -> & Hy).
      by apply (model_constraint_var self c k y). }
  destruct Hsd as (s & d & Hs & Hd & ->). exists s, d.
  split; [by rewrite <- Hstaff|].
  split; [rewrite Hrange in Hd; by apply elem_of_date_range in Hd|].
  split; [done|]. by apply create_decision_variables_lookup.
Qed.

Lemma problem_mentions_only_declared_variables_witness :
  ∃ s d,
    s ∈ active_staff demo_db ∧
    start_date (period demo_self) ≤ d ≤ end_date (period demo_self) ∧
    work 10 101 = work (staff_id s) (strftime d) ∧
    is_working (create_optimization_problem demo_self) !! (staff_id s, strftime d) =
      Some (work 10 101).
Proof.
  apply (problem_mentions_only_declared_variables demo_db 1 demo_self (model demo_self)
           (work 10 101) demo_self_init (create_optimization_problem_closed demo_self)).
  by_evaluation.
Defined.

(** ** The dicts the optimizer loads *)

(** X24. With [(staff, date)] unique among the requests, the dict
    [_load_shift_requests] builds maps a key to a priority exactly when a
    request of the period for that worker and day carries that priority;
    requests of other periods are not loaded. *)
Theorem requests_dict_round_trip db per k z :
  requests_unique db →
  _load_shift_requests db per !! k = Some z ↔
  ∃ r, r ∈ schedule_shift_request db ∧ request_period r = period_id per ∧
       request_key r = k ∧ priority r = z.
Proof.
  intros Hu. split; [apply load_shift_requests_inv|].
  intros (r & Hr & Hper & <- & <-). by apply load_shift_requests_lookup.
Qed.

Lemma requests_dict_round_trip_witness :
  _load_shift_requests demo_db demo_period !! (10, 101) = Some 1 ↔
  ∃ r, r ∈ schedule_shift_request demo_db ∧ request_period r = period_id demo_period ∧
       request_key r = (10, 101) ∧ priority r = 1.
Proof.
  apply (requests_dict_round_trip demo_db demo_period (10, 101) 1). by_evaluation.
Defined.

Lemma load_daily_requirements_inv db per k v :
  _load_daily_requirements db per !! k = Some v →
  ∃ q, q ∈ schedule_daily_requirement db ∧ requirement_period q = period_id per ∧
       requirement_key q = k ∧
       v = mkRequirementEntry (min_staff_count q) (required_staff_count q).
Proof.
  unfold _load_daily_requirements. intros Hl.
  apply (load_lookup_inv (λ q, (requirement_date q, requirement_job_type q))
           (λ q, mkRequirementEntry (min_staff_count q) (required_staff_count q)))
    in Hl as [Hl | (q & Hq & Hk & Hv)]; [done|].
  apply list_elem_of_filter in Hq as [Hper Hq]. by exists q.
Qed.

(** X25. With [(date, job_type)] unique among the requirements, the dict
    [_load_daily_requirements] builds maps a key to the minimum and the
    required count of exactly the requirement of the period for that day
    and job type. *)
Theorem requirements_dict_round_trip db per k v :
  requirements_unique db →
  _load_daily_requirements db per !! k = Some v ↔
  ∃ q, q ∈ schedule_daily_requirement db ∧ requirement_period q = period_id per ∧
       requirement_key q = k ∧
       v = mkRequirementEntry (min_staff_count q) (required_staff_count q).
Proof.
  intros Hu. split; [apply load_daily_requirements_inv|].
  intros (q & Hq & Hper & <- & ->). by apply load_daily_requirements_lookup.
Qed.

Lemma requirements_dict_round_trip_witness :
  _load_daily_requirements demo_db demo_period !! (101, 7) = Some (mkRequirementEntry 1 1) ↔
  ∃ q, q ∈ schedule_daily_requirement demo_db ∧
       requirement_period q = period_id demo_period ∧
       requirement_key q = (101, 7) ∧
       mkRequirementEntry 1 1 =
         mkRequirementEntry (min_staff_count q) (required_staff_count q).
Proof.
  apply (requirements_dict_round_trip demo_db demo_period (101, 7) (mkRequirementEntry 1 1)).
  by_evaluation.
Defined.

(** ** The required count *)

Lemma load_requirements_same_min_counts (f : DailyRequirement → nat)
    (l : list DailyRequirement) (m1 m2 : gmap (Z * Z) RequirementEntry) :
  same_min_counts m1 m2 →
  same_min_counts
    (for_each
       (map (λ q, mkDailyRequirement (requirement_period q) (requirement_date q)
                    (requirement_job_type q) (f q) (min_staff_count q)) l)
       (λ req requirements,
          <[(requirement_date req, requirement_job_type req) :=
              mkRequirementEntry (min_staff_count req) (required_staff_count req)]>
            requirements) m1)
    (for_each l
       (λ req requirements,
          <[(requirement_date req, requirement_job_type req) :=
              mkRequirementEntry (min_staff_count req) (required_staff_count req)]>
            requirements) m2).
Proof.
  revert m1 m2. induction l as [|q l IH]; intros m1 m2 Hm; [done|].
  cbn [map]. unfold for_each in *. cbn [foldl]. apply IH. intros k.
  cbn [requirement_date requirement_job_type min_staff_count required_staff_count].
  destruct (decide ((requirement_date q, requirement_job_type q) = k)) as [<-|Hne].
  - by rewrite !lookup_insert_eq.
  - rewrite !lookup_insert_ne by done. apply Hm.
Qed.

Lemma filter_map_period (f : DailyRequirement → nat) (id : Z) (l : list DailyRequirement) :
  filter (λ r, requirement_period r = id)
    (map (λ q, mkDailyRequirement (requirement_period q) (requirement_date q)
                 (requirement_job_type q) (f q) (min_staff_count q)) l) =
  map (λ q, mkDailyRequirement (requirement_period q) (requirement_date q)
              (requirement_job_type q) (f q) (min_staff_count q))
    (filter (λ r, requirement_period r = id) l).
Proof.
  induction l as [|q l IH]; [done|]. cbn [map].
  destruct (decide (requirement_period q = id)) as [Hq|Hq].
  - rewrite !filter_cons_True by done. cbn [map]. by rewrite IH.
  - rewrite !filter_cons_False by done. done.
Qed.

(** The model reads the minimum counts of the requirements only. *)
Lemma model_requirements_agree per staff dates reqs rq1 rq2 iw pb :
  same_min_counts rq1 rq2 →
  model (mkShiftOptimizer per staff dates reqs rq1 iw pb) =
  model (mkShiftOptimizer per staff dates reqs rq2 iw pb).
Proof.
  intros Hagree. unfold model. f_equal. unfold model_constraints. f_equal.
  unfold daily_minimum_constraints. cbn [date_range].
  apply flat_map_ext_elem. intros d _.
  change (_get_all_job_type_ids (mkShiftOptimizer per staff dates reqs rq1 iw pb))
    with (_get_all_job_type_ids (mkShiftOptimizer per staff dates reqs rq2 iw pb)).
  apply flat_map_ext_elem. intros j _.
  unfold daily_minimum_constraint. cbn [requirements].
  change (staff_vars (mkShiftOptimizer per staff dates reqs rq1 iw pb) d j)
    with (staff_vars (mkShiftOptimizer per staff dates reqs rq2 iw pb) d j).
  pose proof (Hagree (d, j)) as Hk.
  destruct (rq1 !! (d, j)) as [e1|], (rq2 !! (d, j)) as [e2|]; cbn in Hk; try done.
  injection Hk as ->. done.
Qed.

(** X26. The optimizer enforces the minimum count of a requirement only:
    whatever [required_staff_count] the requirements carry, it builds the
    same problem. *)
Theorem required_count_is_not_used (f : DailyRequirement → nat) db pid self :
  ShiftOptimizer_init db pid = Return self →
  ∃ self',
    ShiftOptimizer_init (with_required_counts f db) pid = Return self' ∧
    problem (create_optimization_problem self') = problem (create_optimization_problem self).
Proof.
  intros Hinit. unfold ShiftOptimizer_init in *.
  change (SchedulePeriod_get (with_required_counts f db) pid)
    with (SchedulePeriod_get db pid).
  destruct (SchedulePeriod_get db pid) as [per|e]; [|done].
  destruct (_generate_date_range per) as [dates|e]; [|done].
  injection Hinit as <-. eexists. split; [reflexivity|].
  rewrite !create_optimization_problem_closed. f_equal.
  change (schedule_staff_profile (with_required_counts f db))
    with (schedule_staff_profile db).
  change (_load_shift_requests (with_required_counts f db) per)
    with (_load_shift_requests db per).
  apply model_requirements_agree.
  unfold _load_daily_requirements, with_required_counts, set_daily_requirement.
  cbn [schedule_daily_requirement]. rewrite filter_map_period.
  by apply load_requirements_same_min_counts.
Qed.

Lemma required_count_is_not_used_witness :
  schedule_daily_requirement (with_required_counts (λ _, 9%nat) demo_db) =
    [mkDailyRequirement 1 101 7 9 1] ∧
  ∃ self',
    ShiftOptimizer_init (with_required_counts (λ _, 9%nat) demo_db) 1 = Return self' ∧
    problem (create_optimization_problem self') =
      problem (create_optimization_problem demo_self).
Proof.
  split; [reflexivity|].
  apply (required_count_is_not_used (λ _, 9%nat) demo_db 1 demo_self demo_self_init).
Defined.

(** ** When the insert cannot be refused *)

Lemma NoDup_assignment_rows_keys self vals db :
  NoDup (map staff_id (staff_list self)) → NoDup (date_range self) →
  NoDup (map assignment_key (assignment_rows self vals db)).
Proof.
  intros Hids Hdates. unfold assignment_rows. rewrite map_flat_map.
  apply (NoDup_flat_map_key staff_id); [done| |].
  - intros s _. rewrite map_map.
    apply NoDup_map_inj; [|done].
    intros d1 d2 _ _ Heq. rewrite !assignment_row_key in Heq. by injection Heq.
  - intros s1 s2 k _ _ Hk1 Hk2. rewrite map_map in Hk1, Hk2.
    apply list_elem_of_fmap in Hk1 as (d1 & -> & _).
    apply list_elem_of_fmap in Hk2 as (d2 & Heq & _).
    rewrite !assignment_row_key in Heq. by injection Heq.
Qed.

(** With the primary key of the staff table and [unique_together] of the
    assignment table in force, the table a run is about to write has
    unique [(staff, date)] keys. *)
Lemma NoDup_new_table self vals db :
  NoDup (map staff_id (staff_list self)) →
  date_range self = period_days (period self) →
  assignments_unique db →
  NoDup (map assignment_key (kept_assignments self db ++ assignment_rows self vals db)).
Proof.
  intros Hids Hrange Hu. rewrite map_app. apply NoDup_app.
  split; [by apply NoDup_map_filter|]. split.
  - intros k (a & -> & Ha)%list_elem_of_fmap (b & Hk & Hb)%list_elem_of_fmap.
    apply kept_assignments_out_of_range in Ha. apply Ha.
    apply elem_of_assignment_rows in Hb as (s & d & _ & Hd & ->).
    rewrite assignment_row_key in Hk. unfold assignment_key in Hk.
    injection Hk as _ Hdate. unfold in_date_range. rewrite Hdate.
    rewrite Hrange in Hd. by apply elem_of_date_range in Hd.
  - apply NoDup_assignment_rows_keys; [done|]. rewrite Hrange. apply NoDup_date_range.
Qed.

(** X27. With distinct worker ids and [(staff, date)] unique among the
    stored assignments, the insert of [save_results] is never refused: a
    run for an existing period succeeds exactly when the solver reports
    the status Optimal or Feasible. *)
Theorem run_succeeds_iff_solved cbc t pid uid db self p :
  ShiftOptimizer_init db pid = Return self →
  problem (create_optimization_problem self) = Some p →
  staff_ids_unique db →
  assignments_unique db →
  run_succeeded (generate_schedule cbc t pid uid db) ↔
  ∃ st vals, cbc p = Return (st, vals) ∧ (st = "Optimal" ∨ st = "Feasible").
Proof.
  intros Hinit Hp Hids Hu.
  rewrite create_optimization_problem_closed in Hp. injection Hp as <-.
  destruct (ShiftOptimizer_init_inv _ _ _ Hinit) as (_ & Hstaff & Hrange & _).
  split.
  - intros (self' & st & vals & Hinit' & Hcbc & Hst & _)%run_succeeded_inv.
    rewrite Hinit in Hinit'. injection Hinit' as <-. by exists st, vals.
  - intros (st & vals & Hcbc & Hst).
    apply (run_success_intro cbc t pid uid db self st vals Hinit Hcbc Hst).
    apply NoDup_new_table; [|done..].
    rewrite Hstaff. by apply NoDup_map_filter.
Qed.

Lemma run_succeeds_iff_solved_witness :
  run_succeeded (generate_schedule demo_cbc 1.5 1 (Some 1) rerun_db) ↔
  ∃ st vals, demo_cbc (model demo_self) = Return (st, vals) ∧
             (st = "Optimal" ∨ st = "Feasible").
Proof.
  apply (run_succeeds_iff_solved demo_cbc 1.5 1 (Some 1) rerun_db demo_self (model demo_self)
           eq_refl (create_optimization_problem_closed demo_self)); by_evaluation.
Defined.
